(** * Workflow maintenance utilities: organizer and backup manager

    A shallow embedding of [file_organizer.py] and [backup_manager.py].
    Python dictionaries and sets become stdpp finite maps and sets, the
    file system becomes a finite map from paths to nodes, exceptions become
    explicit outcomes, and the messages printed to standard output become a
    list of structured events. *)

From Stdlib Require Import ZArith Ascii.
From stdpp Require Import gmap strings list fin_maps sorting.

Open Scope string_scope.
Open Scope list_scope.
Set Warnings "-register-all".

(** ** Python string operations

    Strings are sequences of ASCII characters; on that range [str.lower],
    [str.title] and [str.replace] are the functions below.  Code points
    above 127 are left unchanged. *)
Module PyStr.

Definition is_upper (c : ascii) : bool :=
  let n := nat_of_ascii c in (65 <=? n)%nat && (n <=? 90)%nat.

Definition is_lower (c : ascii) : bool :=
  let n := nat_of_ascii c in (97 <=? n)%nat && (n <=? 122)%nat.

Definition is_cased (c : ascii) : bool := is_upper c || is_lower c.

Definition lower_char (c : ascii) : ascii :=
  if is_upper c then ascii_of_nat (nat_of_ascii c + 32) else c.

Definition upper_char (c : ascii) : ascii :=
  if is_lower c then ascii_of_nat (nat_of_ascii c - 32) else c.

(** [s.lower()] *)
Fixpoint lower (s : string) : string :=
  match s with
  | EmptyString => EmptyString
  | String c s' => String (lower_char c) (lower s')
  end.

(** [sub in s] *)
Fixpoint contains (sub s : string) : bool :=
  String.prefix sub s ||
  match s with
  | EmptyString => false
  | String _ s' => contains sub s'
  end.

(** [any(x in s for x in keys)] *)
Definition contains_any (keys : list string) (s : string) : bool :=
  existsb (fun x => contains x s) keys.

(** [s.replace(a, b)] for one-character [a] and [b]. *)
Fixpoint replace_char (a b : ascii) (s : string) : string :=
  match s with
  | EmptyString => EmptyString
  | String c s' =>
      String (if Ascii.eqb c a then b else c) (replace_char a b s')
  end.

(** Left-to-right scan of [str.replace] for a non-empty [old]: [skip]
    counts the characters of a match that are still to be dropped. *)
Fixpoint replace_go (old new : string) (skip : nat) (s : string) : string :=
  match s with
  | EmptyString => EmptyString
  | String c s' =>
      match skip with
      | S k => replace_go old new k s'
      | O =>
          if String.prefix old s
          then new +:+ replace_go old new (String.length old - 1) s'
          else String c (replace_go old new 0 s')
      end
  end.

(** With an empty [old], Python puts [new] before every character and at
    the end. *)
Fixpoint replace_empty (new s : string) : string :=
  match s with
  | EmptyString => new
  | String c s' => new +:+ String c (replace_empty new s')
  end.

(** [s.replace(old, new)] *)
Definition replace (old new s : string) : string :=
  match old with
  | EmptyString => replace_empty new s
  | String _ _ => replace_go old new 0 s
  end.

(** [s.title()]: a cased character is upper-cased when the previous
    character is not cased and lower-cased when it is. *)
Fixpoint title_go (prev_cased : bool) (s : string) : string :=
  match s with
  | EmptyString => EmptyString
  | String c s' =>
      String (if prev_cased then lower_char c else upper_char c)
             (title_go (is_cased c) s')
  end.

Definition title (s : string) : string := title_go false s.

End PyStr.

(** ** JSON documents as [json.load] returns them *)

Inductive json : Type :=
  | JNull
  | JBool (b : bool)
  | JInt (n : Z)
  | JFloat (literal : string)
  | JStr (s : string)
  | JArr (items : list json)
  | JObj (fields : list (string * json)).

(** What [open] and [json.load] make of a file read as UTF-8 text. *)
Inductive file_content : Type :=
  | Unreadable                 (* open raises OSError: a directory, ... *)
  | InvalidUtf8                (* UnicodeDecodeError *)
  | InvalidJson                (* json.JSONDecodeError *)
  | JsonText (data : json).

(** The exceptions that the organizer does not catch: from [open], and
    from its own code on a parsed value. *)
Inductive exn : Type := OSError | AttributeError | TypeError.

Inductive outcome (A : Type) : Type :=
  | Returned (a : A)
  | Raised (e : exn).
Arguments Returned {A} a.
Arguments Raised {A} e.

#[export] Instance outcome_ret : MRet outcome := fun A a => Returned a.

#[export] Instance outcome_bind : MBind outcome := fun A B k m =>
  match m with
  | Returned a => k a
  | Raised e => Raised e
  end.

(** ** The workflow classifier ([FileOrganizer.analyze_workflow]) *)
Module Organizer.

Inductive trigger : Type := Manual | Webhook | Scheduled | Triggered.

Inductive complexity_level : Type := low | medium | high.

Record metadata : Type := {
  filename : string;
  active : json;
  node_count : nat;
  trigger_type : trigger;
  integrations : list string;
  categories : list string;
  complexity : complexity_level
}.

(** The entries of a dictionary keep their insertion order and have
    distinct keys; [d.get(key, default)] *)
Fixpoint dict_get (key : string) (fields : list (string * json))
    (default : json) : json :=
  match fields with
  | [] => default
  | (k, v) :: rest => if String.eqb k key then v else dict_get key rest default
  end.

(** [x.get(key, default)]: only a dictionary has [get]. *)
Definition py_get (x : json) (key : string) (default : json) : outcome json :=
  match x with
  | JObj fields => Returned (dict_get key fields default)
  | _ => Raised AttributeError
  end.

(** [len(x)] *)
Definition py_len (x : json) : outcome nat :=
  match x with
  | JArr items => Returned (length items)
  | JStr s => Returned (String.length s)
  | JObj fields => Returned (length fields)
  | _ => Raised TypeError
  end.

(** The values [for node in x] runs through.  [py_len] has raised before
    the loop is reached when [x] is not iterable. *)
Fixpoint chars (s : string) : list json :=
  match s with
  | EmptyString => []
  | String c s' => JStr (String c EmptyString) :: chars s'
  end.

Definition py_iter (x : json) : list json :=
  match x with
  | JArr items => items
  | JStr s => chars s
  | JObj fields => (fun kv => JStr kv.1) <$> fields
  | _ => []
  end.

(** [x.lower()]: only a string has [lower]. *)
Definition py_lower (x : json) : outcome string :=
  match x with
  | JStr s => Returned (PyStr.lower s)
  | _ => Raised AttributeError
  end.

(** [node.get('type', '').lower()] *)
Definition node_type_of (node : json) : outcome string :=
  ty ← py_get node "type" (JStr ""); py_lower ty.

(** *** Trigger resolution, lines 50-55 *)
Definition trigger_step (cur : trigger) (node_type : string) : trigger :=
  if PyStr.contains "webhook" node_type then Webhook
  else if PyStr.contains "cron" node_type || PyStr.contains "schedule" node_type
  then Scheduled
  else if PyStr.contains "trigger" node_type &&
          match cur with Manual => true | _ => false end
  then Triggered
  else cur.

(** *** Service names, [extract_service_name] *)
Definition service_mappings : list (string * string) :=
  [ ("telegram", "Telegram"); ("discord", "Discord"); ("slack", "Slack");
    ("whatsapp", "WhatsApp"); ("gmail", "Gmail"); ("postgres", "PostgreSQL");
    ("mysql", "MySQL"); ("mongodb", "MongoDB"); ("openai", "OpenAI");
    ("github", "GitHub"); ("gitlab", "GitLab"); ("jira", "Jira") ].

Fixpoint first_mapping (items : list (string * string)) (s : string)
    : option string :=
  match items with
  | [] => None
  | (key, value) :: rest =>
      if PyStr.contains key s then Some value else first_mapping rest s
  end.

Definition extract_service_name (node_type : string) : string :=
  match first_mapping service_mappings (PyStr.lower node_type) with
  | Some value => value
  | None => PyStr.title (PyStr.replace "dr.x-nodes-base." "" node_type)
  end.

(** *** Categories, lines 58-77: the first matching group wins. *)
Definition category_groups : list (list string * string * bool) :=
  [ (["telegram"; "discord"; "slack"; "whatsapp"], "messaging", true);
    (["postgres"; "mysql"; "mongodb"; "airtable"], "database", true);
    (["openai"; "anthropic"; "huggingface"], "ai_ml", true);
    (["gmail"; "mailjet"; "outlook"], "email", true);
    (["googledrive"; "dropbox"; "onedrive"], "storage", true);
    (["github"; "gitlab"; "jira"], "development", true);
    (["http"; "webhook"; "api"], "api", false) ].

Fixpoint first_group (groups : list (list string * string * bool))
    (node_type : string) : option (string * bool) :=
  match groups with
  | [] => None
  | (keys, category, with_integration) :: rest =>
      if PyStr.contains_any keys node_type
      then Some (category, with_integration)
      else first_group rest node_type
  end.

(** The mutable part of the [metadata] dictionary during the loop. *)
Record acc : Type := {
  acc_trigger : trigger;
  acc_integrations : gset string;
  acc_categories : gset string
}.

Definition acc_init : acc :=
  {| acc_trigger := Manual; acc_integrations := ∅; acc_categories := ∅ |}.

(** One iteration of the loop body for a lower-cased node type. *)
Definition node_step (a : acc) (node_type : string) : acc :=
  let t := trigger_step (acc_trigger a) node_type in
  match first_group category_groups node_type with
  | Some (category, true) =>
      {| acc_trigger := t;
         acc_integrations :=
           acc_integrations a ∪ {[ extract_service_name node_type ]};
         acc_categories := acc_categories a ∪ {[ category ]} |}
  | Some (category, false) =>
      {| acc_trigger := t;
         acc_integrations := acc_integrations a;
         acc_categories := acc_categories a ∪ {[ category ]} |}
  | None =>
      {| acc_trigger := t;
         acc_integrations := acc_integrations a;
         acc_categories := acc_categories a |}
  end.

(** [for node in nodes: ...] *)
Fixpoint node_loop (a : acc) (nodes : list json) : outcome acc :=
  match nodes with
  | [] => Returned a
  | node :: rest =>
      ty ← node_type_of node;
      node_loop (node_step a ty) rest
  end.

(** The lower-cased types of the nodes, in the order of the loop. *)
Fixpoint node_types (nodes : list json) : outcome (list string) :=
  match nodes with
  | [] => Returned []
  | node :: rest =>
      ty ← node_type_of node;
      tys ← node_types rest;
      Returned (ty :: tys)
  end.

(** The trigger type the loop ends with on nodes of the given types. *)
Definition resolve_trigger (node_types : list string) : trigger :=
  foldl trigger_step Manual node_types.

(** A node that matches the webhook branch or the cron/schedule branch. *)
Definition sets_unconditionally (node_type : string) : bool :=
  PyStr.contains "webhook" node_type || PyStr.contains "cron" node_type ||
  PyStr.contains "schedule" node_type.

(** Lines 80-85. *)
Definition complexity_of (n : nat) : complexity_level :=
  if (n <=? 5)%nat then low
  else if (n <=? 15)%nat then medium
  else high.

(** A node with the given type, and a document with such nodes. *)
Definition typed_node (ty : string) : json := JObj [("type", JStr ty)].

Definition workflow_of (tys : list string) : json :=
  JObj [("nodes", JArr (typed_node <$> tys))].

Section WithSetOrder.

(** [list(s)] for a Python set [s]: the order depends on the hash seed of
    the process, so it is a parameter of the model. *)
Variable set_order : gset string -> list string.

(** The part of [analyze_workflow] after the document has been parsed. *)
Definition analyze_data (name : string) (data : json) : outcome metadata :=
  nodes ← py_get data "nodes" (JArr []);
  act ← py_get data "active" (JBool false);
  n ← py_len nodes;
  a ← node_loop acc_init (py_iter nodes);
  Returned {| filename := name;
              active := act;
              node_count := n;
              trigger_type := acc_trigger a;
              integrations := set_order (acc_integrations a);
              categories := set_order (acc_categories a);
              complexity := complexity_of n |}.

(** [analyze_workflow(file_path)]: [None] stands for the [None] returned
    after a decoding or parsing error has been caught and printed. *)
Definition analyze_workflow (name : string) (content : file_content)
    : outcome (option metadata) :=
  match content with
  | Unreadable => Raised OSError
  | InvalidUtf8 | InvalidJson => Returned None
  | JsonText data => md ← analyze_data name data; Returned (Some md)
  end.

(** *** The organizer ([organize_by_*], [organize_all])

    The source directory is the list that [glob("*.json")] yields, each
    file with its name and content.  The output tree maps a path below
    [output_dir], given by its components, to the content of the copy;
    directories are implicit and a bucket name is one path component.
    [stats] is the [defaultdict(int)] of counters. *)
Record org_state : Type := {
  tree : gmap (list string) file_content;
  stats : gmap string nat
}.

(** [self.stats[key] += 1] *)
Definition bump (key : string) (st : gmap string nat) : gmap string nat :=
  <[ key := S (default 0 (st !! key)) ]> st.

(** [output_dir / "by_<axis>" / bucket / file_path.name] *)
Definition bucket_path (axis bucket name : string) : list string :=
  [ "by_" +:+ axis; bucket; name ].

(** [mkdir], [copy2] and the counter update for one bucket. *)
Definition copy_to (axis : string) (name : string) (content : file_content)
    (st : org_state) (bucket : string) : org_state :=
  {| tree := <[ bucket_path axis bucket name := content ]> (tree st);
     stats := bump (axis +:+ "_" +:+ bucket) (stats st) |}.

(** The loop the four [organize_by_*] methods share: a file whose analysis
    returned [None] is skipped, an exception leaves the loop. *)
Fixpoint organize_loop (axis : string) (buckets : metadata -> list string)
    (files : list (string * file_content)) (st : org_state)
    : org_state * option exn :=
  match files with
  | [] => (st, None)
  | (name, content) :: rest =>
      match analyze_workflow name content with
      | Raised e => (st, Some e)
      | Returned None => organize_loop axis buckets rest st
      | Returned (Some md) =>
          organize_loop axis buckets rest
            (foldl (copy_to axis name content) st (buckets md))
      end
  end.

Definition or_sentinel (l : list string) (sentinel : string) : list string :=
  match l with
  | [] => [sentinel]
  | _ => l
  end.

Definition category_buckets (md : metadata) : list string :=
  or_sentinel (categories md) "uncategorized".

Definition complexity_name (c : complexity_level) : string :=
  match c with low => "low" | medium => "medium" | high => "high" end.

Definition complexity_buckets (md : metadata) : list string :=
  [ complexity_name (complexity md) ].

Definition trigger_name (t : trigger) : string :=
  match t with
  | Manual => "Manual"
  | Webhook => "Webhook"
  | Scheduled => "Scheduled"
  | Triggered => "Triggered"
  end.

(** [metadata['trigger_type'].lower().replace(' ', '_')] *)
Definition trigger_bucket (t : trigger) : string :=
  PyStr.replace_char " " "_" (PyStr.lower (trigger_name t)).

Definition trigger_buckets (md : metadata) : list string :=
  [ trigger_bucket (trigger_type md) ].

(** [integration.lower().replace(' ', '_').replace('.', '_')] *)
Definition safe_name (integration : string) : string :=
  PyStr.replace_char "." "_"
    (PyStr.replace_char " " "_" (PyStr.lower integration)).

Definition integration_buckets (md : metadata) : list string :=
  safe_name <$> or_sentinel (integrations md) "no_integration".

Definition organize_by_category := organize_loop "category" category_buckets.
Definition organize_by_complexity :=
  organize_loop "complexity" complexity_buckets.
Definition organize_by_trigger := organize_loop "trigger" trigger_buckets.
Definition organize_by_integration :=
  organize_loop "integration" integration_buckets.

(** The four axes with their bucket functions. *)
Definition axes : list (string * (metadata -> list string)) :=
  [ ("category", category_buckets); ("complexity", complexity_buckets);
    ("trigger", trigger_buckets); ("integration", integration_buckets) ].

(** [organize_all]: the output directory is removed and created again, then
    the four methods run in turn; an exception in one of them ends the run.
    The index files and the report are not part of the tree modelled here. *)
Definition organize_all (files : list (string * file_content))
    (st : org_state) : org_state * option exn :=
  let st0 := {| tree := ∅; stats := stats st |} in
  match organize_by_category files st0 with
  | (st1, Some e) => (st1, Some e)
  | (st1, None) =>
      match organize_by_complexity files st1 with
      | (st2, Some e) => (st2, Some e)
      | (st2, None) =>
          match organize_by_trigger files st2 with
          | (st3, Some e) => (st3, Some e)
          | (st3, None) => organize_by_integration files st3
          end
      end
  end.

(** The copies a loop makes: [c] is copied to [p] when [p] is a bucket
    path of a file with content [c] whose analysis gave metadata. *)
Definition placed (axis : string) (buckets : metadata -> list string)
    (files : list (string * file_content)) (p : list string)
    (c : file_content) : Prop :=
  exists name md bucket,
    (name, c) ∈ files /\
    analyze_workflow name c = Returned (Some md) /\
    bucket ∈ buckets md /\
    p = bucket_path axis bucket name.

(** The copies a loop makes, in the order it makes them. *)
Fixpoint copies (axis : string) (buckets : metadata -> list string)
    (files : list (string * file_content))
    : list (list string * file_content) :=
  match files with
  | [] => []
  | (name, content) :: rest =>
      match analyze_workflow name content with
      | Raised _ => []
      | Returned None => copies axis buckets rest
      | Returned (Some md) =>
          ((fun bucket => (bucket_path axis bucket name, content))
             <$> buckets md)
          ++ copies axis buckets rest
      end
  end.

(** No file of the batch makes the analysis raise. *)
Definition no_raise (files : list (string * file_content)) : Prop :=
  forall name c e, (name, c) ∈ files -> analyze_workflow name c <> Raised e.

End WithSetOrder.

(** One copy into a tree. *)
Definition put (t : gmap (list string) file_content)
    (kc : list string * file_content) : gmap (list string) file_content :=
  <[ kc.1 := kc.2 ]> t.

(** The order of a set's elements is some enumeration of them. *)
Definition enumerates (set_order : gset string -> list string) : Prop :=
  forall s, set_order s ≡ₚ elements s.

(** Two analyses of one file that can differ only in the order in which
    the integrations and categories are listed. *)
Definition same_metadata (m1 m2 : metadata) : Prop :=
  filename m1 = filename m2 /\
  active m1 = active m2 /\
  node_count m1 = node_count m2 /\
  trigger_type m1 = trigger_type m2 /\
  integrations m1 ≡ₚ integrations m2 /\
  categories m1 ≡ₚ categories m2 /\
  complexity m1 = complexity m2.

Definition same_result (r1 r2 : outcome (option metadata)) : Prop :=
  match r1, r2 with
  | Returned (Some m1), Returned (Some m2) => same_metadata m1 m2
  | Returned None, Returned None => True
  | Raised e1, Raised e2 => e1 = e2
  | _, _ => False
  end.

(** Example documents. *)
Definition slack_github : file_content :=
  JsonText (workflow_of ["dr.x-nodes-base.slack"; "dr.x-nodes-base.github"]).

Definition schedule_then_trigger : file_content :=
  JsonText (workflow_of ["dr.x-nodes-base.scheduleTrigger";
                         "dr.x-nodes-base.manualTrigger"]).

Definition webhook_then_cron : file_content :=
  JsonText (workflow_of ["dr.x-nodes-base.webhook"; "dr.x-nodes-base.cron"]).

Definition empty_state : org_state := {| tree := ∅; stats := ∅ |}.

End Organizer.

(** ** The backup manager ([BackupManager]) *)
Module Backup.

(** A path is the list of its components, as [pathlib] keeps it. *)
Abbreviation path := (list string).

(** [str(p)]; the empty path is printed as a dot. *)
Definition path_str (p : path) : string :=
  match p with
  | [] => "."
  | _ => String.concat "/" p
  end.

Definition parent (p : path) : path := removelast p.

Definition name (p : path) : string := default "" (last p).

Fixpoint rfind_dot (s : string) (i : nat) (found : option nat) : option nat :=
  match s with
  | EmptyString => found
  | String c s' =>
      rfind_dot s' (S i) (if Ascii.eqb c "." then Some i else found)
  end.

(** [PurePath.suffix] of a file name: the part from the last dot on, when
    that dot is neither the first nor the last character. *)
Definition suffix (nm : string) : string :=
  match rfind_dot nm 0 None with
  | Some i =>
      if (0 <? i)%nat && (i <? String.length nm - 1)%nat
      then String.substring i (String.length nm - i) nm
      else ""
  | None => ""
  end.

Definition stem (nm : string) : string :=
  String.substring 0 (String.length nm - String.length (suffix nm)) nm.

(** [p.with_suffix(new)]; a path with an empty name raises [ValueError]. *)
Definition with_suffix (p : path) (new : string) : option path :=
  match last p with
  | None => None
  | Some nm =>
      if String.eqb nm "" then None else Some (parent p ++ [stem nm +:+ new])
  end.

(** [s.endswith(suf)] *)
Definition ends_with (suf s : string) : bool :=
  String.prefix (String.rev suf) (String.rev s).

(** The components of the result of [create_full_backup]; [None] is the
    [None] of a backup that was skipped or failed. *)
Record components : Type := {
  database : option string;
  workflows : option string;
  config : option string
}.

(** The dictionary [create_full_backup] returns: the ["manifest"] key is
    present only when the manifest was written. *)
Record results : Type := {
  r_components : components;
  r_manifest : option string
}.

(** The dictionary of [get_backup_stats]; an absent key is [None].
    [total_size] is the sum of the sizes in bytes that the source turns
    into [total_size_mb]. *)
Record stats : Type := {
  total_workflows : option nat;
  active_workflows : option nat;
  database_error : bool;
  workflow_files : option nat;
  total_size : option Z
}.

Record manifest : Type := {
  m_timestamp : string;
  m_backup_type : string;
  m_components : components;
  m_stats : stats
}.

(** What a file holds.  A database is described by the row counts of its
    [workflows] table, if it has one: all rows and, if the table has an
    [active] column, the active rows. *)
Inductive content : Type :=
  | Text (s : string)
  | Binary (s : string)
  | Database (workflow_rows : option (nat * option nat))
  | Gzip (inner : content)
  | Archive (base_dir : string) (members : list (path * content))
  | ConfigSnapshot (timestamp : string)
      (files : list (string * (content * Z * Z)))
  | Manifest (m : manifest).

(** A file carries its modification time as the naive local date
    [datetime.fromtimestamp(st_mtime)], counted in microseconds. *)
Inductive node : Type :=
  | File (c : content) (mtime : Z)
  | Dir.

(** The environment: the successive readings of the wall clock, the
    format ["%Y%m%d_%H%M%S"] and the size in bytes of a directory
    entry. *)
Record env : Type := {
  clock : nat -> Z;
  strftime : Z -> string;
  size_of : node -> Z
}.

(** The locations the manager is configured with. *)
Record locations : Type := {
  db_path : path;
  workflows_dir : path;
  backup_dir : path
}.

(** The status lines printed to standard output. *)
Inductive event : Type :=
  | DatabaseNotFound
  | DatabaseBackupCreated (p : string)
  | DatabaseBackupFailed
  | WorkflowsNotFound
  | WorkflowsBackupCreated (p : string)
  | WorkflowsBackupFailed
  | ConfigFileSkipped (file : string)
  | ConfigBackupCreated (p : string)
  | ConfigBackupFailed
  | FullBackupStarted
  | ManifestCreated (p : string)
  | ManifestFailed
  | FullBackupCompleted
  | DatabaseStatsFailed
  | RemovedOldBackup (file : string)
  | CouldNotRemove (file : string)
  | CleanupCompleted (removed_count : nat)
  | BackupFileNotFound
  | CurrentDatabaseBackedUp (p : string)
  | DatabaseRestored
  | DatabaseRestoreFailed.

(** The world: the file system, the paths that cannot be created,
    overwritten or removed, the number of clock readings so far and the
    output printed so far. *)
Record world : Type := {
  fs : gmap path node;
  protected : gset path;
  reads : nat;
  out : list event
}.

Definition with_fs (f : gmap path node -> gmap path node) (w : world) : world :=
  {| fs := f (fs w); protected := protected w; reads := reads w;
     out := out w |}.

Definition tick (w : world) : world :=
  {| fs := fs w; protected := protected w; reads := S (reads w);
     out := out w |}.

(** [print(...)] *)
Definition say (e : event) (w : world) : world :=
  {| fs := fs w; protected := protected w; reads := reads w;
     out := out w ++ [e] |}.

(** The empty path is the current directory. *)
Definition lookup_node (w : world) (p : path) : option node :=
  match p with
  | [] => Some Dir
  | _ => fs w !! p
  end.

(** [p.exists()] *)
Definition path_exists (w : world) (p : path) : bool :=
  match lookup_node w p with Some _ => true | None => false end.

(** [p.is_dir()] *)
Definition is_dir (w : world) (p : path) : bool :=
  match lookup_node w p with Some Dir => true | _ => false end.

(** [p.is_file()] *)
Definition is_file (w : world) (p : path) : bool :=
  match lookup_node w p with Some (File _ _) => true | _ => false end.

(** Opening [p] for writing succeeds. *)
Definition writable (w : world) (p : path) : bool :=
  is_dir w (parent p) && negb (is_dir w p) && bool_decide (p ∉ protected w).

(** Code inside a [try] block: [None] is a raised exception; the effects
    up to the exception stay. *)
Definition io (A : Type) : Type := world -> world * option A.

#[export] Instance io_ret : MRet io := fun A a w => (w, Some a).

#[export] Instance io_bind : MBind io := fun A B k m w =>
  match m w with
  | (w', Some a) => k a w'
  | (w', None) => (w', None)
  end.

Definition lift {A} (o : option A) : io A := fun w => (w, o).

Definition io_say (e : event) : io unit := fun w => (say e w, Some tt).

(** The entries directly below [d], as [d.glob("*")] lists them. *)
Definition glob_star (w : world) (d : path) : list (path * node) :=
  filter (fun pn => pn.1 ≠ [] ∧ parent pn.1 = d) (map_to_list (fs w)).

Section WithEnv.

Variable E : env.
Variable loc : locations.

(** [create_timestamp] *)
Definition create_timestamp (w : world) : world * string :=
  (tick w, strftime E (clock E (reads w))).

(** Writing a file: the new file is dated by the clock. *)
Definition write_file (p : path) (c : content) : io unit := fun w =>
  if writable w p
  then (tick (with_fs <[ p := File c (clock E (reads w)) ]> w), Some tt)
  else (w, None).

Definition read_file (p : path) : io content := fun w =>
  match lookup_node w p with
  | Some (File c _) => (w, Some c)
  | _ => (w, None)
  end.

(** [p.unlink()] *)
Definition unlink (p : path) : io unit := fun w =>
  if is_file w p && bool_decide (p ∉ protected w)
  then (with_fs (delete p) w, Some tt)
  else (w, None).

(** Where [shutil.copy2(src, dst)] puts the copy: into [dst] when it is a
    directory. *)
Definition copy_target (w : world) (src dst : path) : path :=
  if is_dir w dst then dst ++ [name src] else dst.

(** [shutil.copy2(src, dst)]: the copy keeps the modification time;
    copying a file onto itself raises. *)
Definition copy2 (src dst : path) : io unit := fun w =>
  match lookup_node w src with
  | Some (File c m) =>
      let target := copy_target w src dst in
      if bool_decide (src = target) then (w, None)
      else if writable w target
      then (with_fs <[ target := File c m ]> w, Some tt)
      else (w, None)
  | _ => (w, None)
  end.

(** What SQLite makes of a file: an empty file is a database without
    tables, any other file that is not a database raises. *)
Definition as_database (c : content) : option (option (nat * option nat)) :=
  match c with
  | Database d => Some d
  | Text "" | Binary "" => Some None
  | _ => None
  end.

(** The online backup of the database at [src] into a new file [dst]. *)
Definition sqlite_backup (src dst : path) : io unit := fun w =>
  match lookup_node w src with
  | Some (File c _) =>
      match as_database c with
      | Some d => write_file dst (Database d) w
      | None => (w, None)
      end
  | _ => (w, None)
  end.

(** [backup_database] *)
Definition backup_database (w : world) : world * option string :=
  if negb (path_exists w (db_path loc)) then (say DatabaseNotFound w, None)
  else
    let (w, timestamp) := create_timestamp w in
    let backup_path :=
      backup_dir loc ++ ["workflows_db_" +:+ timestamp +:+ ".db"] in
    let body : io string :=
      _ ← sqlite_backup (db_path loc) backup_path;
      compressed_path ← lift (with_suffix backup_path ".db.gz");
      data ← read_file backup_path;
      _ ← write_file compressed_path (Gzip data);
      _ ← unlink backup_path;
      _ ← io_say (DatabaseBackupCreated (path_str compressed_path));
      mret (path_str compressed_path) in
    match body w with
    | (w, Some r) => (w, Some r)
    | (w, None) => (say DatabaseBackupFailed w, None)
    end.

(** The files below [d], with their paths. *)
Definition files_below (w : world) (d : path) : list (path * content) :=
  omap (fun pn =>
          match pn.2 with
          | File c _ => if bool_decide (d `prefix_of` pn.1)
                        then Some (pn.1, c) else None
          | Dir => None
          end) (map_to_list (fs w)).

(** [shutil.make_archive(base_name, 'gztar', root_dir, base_dir)]: the
    archive is written to [base_name] followed by [".tar.gz"]. *)
Definition make_archive (base_name : path) (dir : path) : io unit := fun w =>
  write_file (parent base_name ++ [name base_name +:+ ".tar.gz"])
    (Archive (name dir) (files_below w dir)) w.

(** [backup_workflows] *)
Definition backup_workflows (w : world) : world * option string :=
  if negb (path_exists w (workflows_dir loc))
  then (say WorkflowsNotFound w, None)
  else
    let (w, timestamp) := create_timestamp w in
    let backup_path :=
      backup_dir loc ++ ["workflows_files_" +:+ timestamp +:+ ".tar.gz"] in
    let body : io string :=
      base_name ← lift (with_suffix backup_path "");
      _ ← make_archive base_name (workflows_dir loc);
      _ ← io_say (WorkflowsBackupCreated (path_str backup_path));
      mret (path_str backup_path) in
    match body w with
    | (w, Some r) => (w, Some r)
    | (w, None) => (say WorkflowsBackupFailed w, None)
    end.

Definition config_files : list string :=
  [ "requirements.txt"; "api_server.py"; "workflow_db.py"; "run.py";
    "import_workflows.py" ].

(** Reading as UTF-8 text succeeds. *)
Definition is_text (c : content) : bool :=
  match c with
  | Text _ | ConfigSnapshot _ _ | Manifest _ => true
  | _ => false
  end.

(** The loop over [config_files]: an existing file that cannot be read is
    reported and left out. *)
Fixpoint read_config_files (files : list string) (w : world)
    : world * list (string * (content * Z * Z)) :=
  match files with
  | [] => (w, [])
  | config_file :: rest =>
      match lookup_node w [config_file] with
      | None => read_config_files rest w
      | Some (File c m) =>
          if is_text c
          then
            let (w', l) := read_config_files rest w in
            (w', (config_file, (c, size_of E (File c m), m)) :: l)
          else read_config_files rest (say (ConfigFileSkipped config_file) w)
      | Some Dir =>
          read_config_files rest (say (ConfigFileSkipped config_file) w)
      end
  end.

(** [backup_config] *)
Definition backup_config (w : world) : world * option string :=
  let (w, timestamp) := create_timestamp w in
  let config_backup := backup_dir loc ++ ["config_" +:+ timestamp +:+ ".json"] in
  let (w, files) := read_config_files config_files w in
  let body : io string :=
    _ ← write_file config_backup (ConfigSnapshot timestamp files);
    _ ← io_say (ConfigBackupCreated (path_str config_backup));
    mret (path_str config_backup) in
  match body w with
  | (w, Some r) => (w, Some r)
  | (w, None) => (say ConfigBackupFailed w, None)
  end.

(** [get_backup_stats] *)
Definition get_backup_stats (w : world) : world * stats :=
  let '(w, total, act, err) :=
    match lookup_node w (db_path loc) with
    | None => (w, None, None, false)
    | Some (File (Database (Some (total, Some act))) _) =>
        (w, Some total, Some act, false)
    | Some (File (Database (Some (total, None))) _) =>
        (say DatabaseStatsFailed w, Some total, None, true)
    | Some _ => (say DatabaseStatsFailed w, None, None, true)
    end in
  let json_files :=
    filter (fun pn => ends_with ".json" (name pn.1) = true)
           (glob_star w (workflows_dir loc)) in
  let in_dir := path_exists w (workflows_dir loc) in
  (w, {| total_workflows := total;
         active_workflows := act;
         database_error := err;
         workflow_files :=
           if in_dir then Some (length json_files) else None;
         total_size :=
           if in_dir
           then Some (foldr Z.add 0%Z ((fun pn => size_of E pn.2) <$> json_files))
           else None |}).

(** [create_full_backup] *)
Definition create_full_backup (w : world) : world * results :=
  let w := say FullBackupStarted w in
  let (w, db) := backup_database w in
  let (w, wf) := backup_workflows w in
  let (w, cf) := backup_config w in
  let comps := {| database := db; workflows := wf; config := cf |} in
  let (w, timestamp) := create_timestamp w in
  let manifest_path :=
    backup_dir loc ++ ["backup_manifest_" +:+ timestamp +:+ ".json"] in
  let (w, st) := get_backup_stats w in
  let body : io unit :=
    _ ← write_file manifest_path
          (Manifest {| m_timestamp := timestamp; m_backup_type := "full";
                       m_components := comps; m_stats := st |});
    io_say (ManifestCreated (path_str manifest_path)) in
  match body w with
  | (w, Some _) =>
      (say FullBackupCompleted w,
       {| r_components := comps; r_manifest := Some (path_str manifest_path) |})
  | (w, None) =>
      (say FullBackupCompleted (say ManifestFailed w),
       {| r_components := comps; r_manifest := None |})
  end.

(** [get_backup_type] *)
Definition get_backup_type (filename : string) : string :=
  if PyStr.contains "db_" filename then "database"
  else if PyStr.contains "files_" filename then "workflows"
  else if PyStr.contains "config_" filename then "configuration"
  else if PyStr.contains "manifest_" filename then "manifest"
  else "unknown".

(** An entry of [list_backups].  [created] is the modification date; the
    source sorts on its ISO 8601 text, which is ordered as the dates are.
    [size] is the size in bytes that the source turns into [size_mb]. *)
Record backup_info : Type := {
  bi_name : string;
  bi_path : string;
  bi_size : Z;
  bi_created : Z;
  bi_type : string
}.

Definition backup_info_of (pn : path * node) : option backup_info :=
  match pn.2 with
  | File c m =>
      Some {| bi_name := name pn.1;
              bi_path := path_str pn.1;
              bi_size := size_of E pn.2;
              bi_created := m;
              bi_type := get_backup_type (name pn.1) |}
  | Dir => None
  end.

(** [sorted(backups, key=lambda x: x["created"], reverse=True)]: a stable
    sort, entries with equal keys keep their order. *)
Fixpoint insert_desc (x : backup_info) (l : list backup_info)
    : list backup_info :=
  match l with
  | [] => [x]
  | y :: l' =>
      if (bi_created y <=? bi_created x)%Z then x :: l
      else y :: insert_desc x l'
  end.

Definition sorted_desc (l : list backup_info) : list backup_info :=
  foldr insert_desc [] l.

(** [list_backups] *)
Definition list_backups (w : world) : list backup_info :=
  sorted_desc (omap backup_info_of (glob_star w (backup_dir loc))).

(** One day of a [timedelta], in microseconds. *)
Definition day : Z := 86400000000.

(** The loop of [cleanup_old_backups] over the entries listed at its
    start. *)
Fixpoint cleanup_loop (cutoff_date : Z) (entries : list (path * node))
    (w : world) (removed_count : nat) : world * nat :=
  match entries with
  | [] => (w, removed_count)
  | (backup_file, _) :: rest =>
      match lookup_node w backup_file with
      | Some (File _ file_date) =>
          if (file_date <? cutoff_date)%Z
          then
            match unlink backup_file w with
            | (w', Some _) =>
                cleanup_loop cutoff_date rest
                  (say (RemovedOldBackup (name backup_file)) w')
                  (S removed_count)
            | (w', None) =>
                cleanup_loop cutoff_date rest
                  (say (CouldNotRemove (name backup_file)) w')
                  removed_count
            end
          else cleanup_loop cutoff_date rest w removed_count
      | _ => cleanup_loop cutoff_date rest w removed_count
      end
  end.

(** [cleanup_old_backups(keep_days)].  The second component is the value
    of the call: the method has no [return], so it is always [None]. *)
Definition cleanup_old_backups (keep_days : Z) (w : world)
    : world * option nat :=
  let cutoff_date := (clock E (reads w) - keep_days * day)%Z in
  let w := tick w in
  let (w, removed_count) :=
    cleanup_loop cutoff_date (glob_star w (backup_dir loc)) w 0 in
  (say (CleanupCompleted removed_count) w, None).

(** What reading a file through [gzip.open] yields: an empty file reads as
    empty, anything else that is not a gzip stream raises. *)
Definition gunzip (c : content) : option content :=
  match c with
  | Gzip inner => Some inner
  | Text "" | Binary "" => Some (Binary "")
  | _ => None
  end.

(** The safety copy of the live database, lines 265-268. *)
Definition save_current : io unit := fun w =>
  if path_exists w (db_path loc)
  then
    (current_backup ← lift (with_suffix (db_path loc) ".db.backup");
     _ ← copy2 (db_path loc) current_backup;
     io_say (CurrentDatabaseBackedUp (path_str current_backup))) w
  else (w, Some tt).

(** The restore itself, lines 271-276: [gzip.open] opens the backup,
    [open(db_path, 'wb')] empties the live database, then the backup is
    read and written. *)
Definition restore_from (backup_path : path) : io unit :=
  if String.eqb (suffix (name backup_path)) ".gz"
  then
    _ ← read_file backup_path;
    _ ← write_file (db_path loc) (Binary "");
    packed ← read_file backup_path;
    data ← lift (gunzip packed);
    write_file (db_path loc) data
  else copy2 backup_path (db_path loc).

(** [restore_database(backup_path)] *)
Definition restore_database (backup_path : path) (w : world) : world * bool :=
  if negb (path_exists w backup_path) then (say BackupFileNotFound w, false)
  else
    let body : io unit :=
      _ ← save_current;
      _ ← restore_from backup_path;
      io_say DatabaseRestored in
    match body w with
    | (w, Some _) => (w, true)
    | (w, None) => (say DatabaseRestoreFailed w, false)
    end.

End WithEnv.

(** What a successful [unlink] removes: a file dated before the cutoff
    whose path is not protected. *)
Definition expired (cutoff_date : Z) (n : node) : bool :=
  match n with
  | File _ file_date => (file_date <? cutoff_date)%Z
  | Dir => false
  end.

Definition doomed (w : world) (cutoff_date : Z) (pn : path * node) : bool :=
  expired cutoff_date pn.2 && bool_decide (pn.1 ∉ protected w).

(** The lines the loop of [cleanup_old_backups] prints for an entry. *)
Definition cleanup_events (w : world) (cutoff_date : Z) (pn : path * node)
    : list event :=
  if expired cutoff_date pn.2
  then if bool_decide (pn.1 ∉ protected w)
       then [RemovedOldBackup (name pn.1)]
       else [CouldNotRemove (name pn.1)]
  else [].

(** A backup directory that can be written to: it is a directory, holds
    no directory and nothing is protected. *)
Definition healthy (loc : locations) (w : world) : Prop :=
  is_dir w (backup_dir loc) = true /\
  protected w = ∅ /\
  forall p, parent p = backup_dir loc -> fs w !! p <> Some Dir.

(** [w'] differs from [w] only inside the backup directory. *)
Definition same_outside (loc : locations) (w w' : world) : Prop :=
  forall p, parent p <> backup_dir loc -> lookup_node w' p = lookup_node w p.

(** The entries that are removed. *)
Definition deletions (w : world) (cutoff_date : Z)
    (entries : list (path * node)) : list (path * node) :=
  filter (fun pn => doomed w cutoff_date pn = true) entries.

(** [x] is listed before [y]: it is not older. *)
Definition not_older (x y : backup_info) : Prop :=
  (bi_created y <= bi_created x)%Z.

(** A clock that advances by one second per reading, a fixed timestamp
    text and entries of size zero, for the examples. *)
Definition env0 : env :=
  {| clock := fun k => (Z.of_nat k * 1000000)%Z;
     strftime := fun _ => "20240101_120000";
     size_of := fun _ => 0%Z |}.

(** A clock that stands at day 100. *)
Definition env_day100 : env :=
  {| clock := fun _ => (100 * day)%Z;
     strftime := fun _ => "20240410_000000";
     size_of := fun _ => 0%Z |}.

Definition loc0 : locations :=
  {| db_path := ["workflows.db"];
     workflows_dir := ["workflows"];
     backup_dir := ["backups"] |}.

(** A backup directory with a backup of day 10 and one of day 90. *)
Definition w_old_and_new : world :=
  {| fs := {[ ["backups"] := Dir;
              ["backups"; "workflows_db_old.db.gz"] :=
                File (Gzip (Database None)) (10 * day);
              ["backups"; "config_new.json"] := File (Text "{}") (90 * day) ]};
     protected := ∅;
     reads := 0;
     out := [] |}.

(** A live database, a backup to restore from, and an earlier safety copy
    that cannot be overwritten. *)
Definition w_protected_copy : world :=
  {| fs := {[ ["backups"] := Dir;
              ["backups"; "good.db"] := File (Database (Some (5, Some 5))) 7;
              ["workflows.db"] := File (Database (Some (3, Some 2))) 9;
              ["workflows.db.backup"] := File (Database None) 1 ]};
     protected := {[ ["workflows.db.backup"] ]};
     reads := 0;
     out := [] |}.

(** A database, no workflow directory, and an earlier manifest of the same
    second that cannot be overwritten. *)
Definition w_protected_manifest : world :=
  {| fs := {[ ["backups"] := Dir;
              ["backups"; "backup_manifest_20240101_120000.json"] :=
                File (Text "{}") 1;
              ["workflows.db"] := File (Database (Some (3, Some 2))) 9;
              ["requirements.txt"] := File (Text "flask") 3 ]};
     protected := {[ ["backups"; "backup_manifest_20240101_120000.json"] ]};
     reads := 0;
     out := [] |}.

(** The same with nothing protected. *)
Definition w_no_workflows : world :=
  {| fs := fs w_protected_manifest; protected := ∅; reads := 0; out := [] |}.

(** [w_protected_copy] with nothing protected. *)
Definition w_restore : world :=
  {| fs := fs w_protected_copy; protected := ∅; reads := 0; out := [] |}.

(** A backup directory with three backups dated T1 < T2 < T3. *)
Definition w_three_backups : world :=
  {| fs := {[ ["backups"] := Dir;
              ["backups"; "workflows_db_20240101_120000.db.gz"] :=
                File (Gzip (Database None)) 100;
              ["backups"; "config_20240102_120000.json"] :=
                File (Text "{}") 200;
              ["backups"; "backup_manifest_20240103_120000.json"] :=
                File (Text "{}") 300 ]};
     protected := ∅;
     reads := 0;
     out := [] |}.

Definition info_t1 : backup_info :=
  {| bi_name := "workflows_db_20240101_120000.db.gz";
     bi_path := "backups/workflows_db_20240101_120000.db.gz";
     bi_size := 0;
     bi_created := 100;
     bi_type := "database" |}.

Definition info_t2 : backup_info :=
  {| bi_name := "config_20240102_120000.json";
     bi_path := "backups/config_20240102_120000.json";
     bi_size := 0;
     bi_created := 200;
     bi_type := "configuration" |}.

Definition info_t3 : backup_info :=
  {| bi_name := "backup_manifest_20240103_120000.json";
     bi_path := "backups/backup_manifest_20240103_120000.json";
     bi_size := 0;
     bi_created := 300;
     bi_type := "manifest" |}.

End Backup.

(** ** The index files and the report of the organizer *)
Module Documents.

Import Organizer.

(** [sorted(l)] for a list of strings: Python compares strings by code
    points, and the sort is stable. *)
Fixpoint insert_sorted (x : string) (l : list string) : list string :=
  match l with
  | [] => [x]
  | y :: l' => if String.leb x y then x :: l else y :: insert_sorted x l'
  end.

Definition py_sorted (l : list string) : list string :=
  foldr insert_sorted [] l.

(** *** [create_index_files]

    The directories of the output tree are implicit: a path is a
    directory when the tree has a file below it. *)

(** What is left of [p] below the directory [d]. *)
Fixpoint below (d p : list string) : option (list string) :=
  match d, p with
  | [], _ => Some p
  | x :: d', y :: p' => if String.eqb x y then below d' p' else None
  | _ :: _, [] => None
  end.

(** [d.iterdir()]: the names of the entries of [d]; their order is that
    of the operating system. *)
Definition iterdir (t : gmap (list string) file_content) (d : list string)
    : list string :=
  remove_dups
    (omap (fun p => match below d p with
                    | Some (x :: _) => Some x
                    | _ => None
                    end) (map_to_list t).*1).

(** [d.is_dir()] *)
Definition has_entries (t : gmap (list string) file_content)
    (d : list string) : bool :=
  match iterdir t d with
  | [] => false
  | _ => true
  end.

(** [d.glob("*.json")] *)
Definition glob_json (t : gmap (list string) file_content) (d : list string)
    : list string :=
  filter (fun x => Backup.ends_with ".json" x = true) (iterdir t d).

(** A [README.md]: its title line, the number in the line
    ["Total workflows: ..."], and the names of the link lines
    ["- [name](./name)"] in the order in which they are written. *)
Record index_file : Type := {
  idx_title : string;
  idx_total : nat;
  idx_links : list string
}.

Definition index_of (t : gmap (list string) file_content)
    (org_type subdir : string) : index_file :=
  let files := glob_json t [org_type; subdir] in
  {| idx_title := PyStr.title (PyStr.replace_char "_" " " subdir);
     idx_total := length files;
     idx_links := py_sorted files |}.

Definition org_types : list string :=
  [ "by_category"; "by_complexity"; "by_trigger"; "by_integration" ].

(** The index files that [create_index_files] writes, by their paths. *)
Definition create_index_files (t : gmap (list string) file_content)
    : gmap (list string) index_file :=
  list_to_map
    (org_type ← org_types;
     subdir ← iterdir t [org_type];
     if has_entries t [org_type; subdir]
     then [([org_type; subdir; "README.md"], index_of t org_type subdir)]
     else []).

(** *** [generate_report] and the counters *)

(** [[k for k in self.stats if k.startswith(prefix)]]; the order of the
    keys of the dictionary plays no part in what follows. *)
Definition counter_keys (prefix : string) (st : gmap string nat)
    : list string :=
  filter (fun k => String.prefix prefix k = true) (map_to_list st).*1.

(** The number in the last line that an [organize_by_*] method prints:
    [sum(self.stats[k] for k in self.stats if k.startswith(prefix))] *)
Definition organized (prefix : string) (st : gmap string nat) : nat :=
  sum_list ((fun k => default 0 (st !! k)) <$> counter_keys prefix st).

(** [key.replace(prefix, '').replace('_', ' ').title()] *)
Definition display_name (prefix key : string) : string :=
  PyStr.title (PyStr.replace_char "_" " " (PyStr.replace prefix "" key)).

(** A section of the statistics: its heading and its lines
    ["- {name}: {count} files"]; a section without keys is left out. *)
Definition report_section (heading prefix : string) (st : gmap string nat)
    : list (string * list (string * nat)) :=
  match counter_keys prefix st with
  | [] => []
  | keys =>
      [(heading,
        (fun key => (display_name prefix key, default 0 (st !! key)))
          <$> py_sorted keys)]
  end.

(** The statistics of the report that [generate_report] writes. *)
Definition generate_report (st : gmap string nat)
    : list (string * list (string * nat)) :=
  report_section "By Category" "category_" st ++
  report_section "By Complexity" "complexity_" st ++
  report_section "By Trigger Type" "trigger_" st ++
  report_section "By Integration" "integration_" st.

Section WithSetOrder.

Variable set_order : gset string -> list string.

(** The file is analysed and its metadata list [bucket]. *)
Definition copied_to (buckets : metadata -> list string) (bucket : string)
    (nc : string * file_content) : bool :=
  match analyze_workflow set_order nc.1 nc.2 with
  | Returned (Some md) => bool_decide (bucket ∈ buckets md)
  | _ => false
  end.

(** The names of the files of a batch that are copied to [bucket]. *)
Definition bucket_members (buckets : metadata -> list string)
    (files : list (string * file_content)) (bucket : string) : list string :=
  (filter (fun nc => copied_to buckets bucket nc = true) files).*1.

(** The number of copies that a loop over a batch makes into [bucket]:
    a file counts once for each time its metadata list the bucket. *)
Definition bucket_hits (buckets : metadata -> list string)
    (files : list (string * file_content)) (bucket : string) : nat :=
  sum_list
    ((fun nc : string * file_content =>
        match analyze_workflow set_order nc.1 nc.2 with
        | Returned (Some md) =>
            length (filter (fun b => b = bucket) (buckets md))
        | _ => 0
        end) <$> files).

(** The buckets that a loop over a batch copies to. *)
Definition used_buckets (buckets : metadata -> list string)
    (files : list (string * file_content)) : list string :=
  remove_dups
    (nc ← files;
     match analyze_workflow set_order nc.1 nc.2 with
     | Returned (Some md) => buckets md
     | _ => []
     end).

End WithSetOrder.

(** Two workflows for the examples. *)
Definition webhook_only : file_content :=
  JsonText (workflow_of ["dr.x-nodes-base.webhook"]).

Definition two_files : list (string * file_content) :=
  [("b.json", slack_github); ("a.json", webhook_only)].

(** A workflow whose two database nodes give two integration names with
    one safe name. *)
Definition two_spellings : file_content :=
  JsonText (workflow_of ["x airtable"; "x.airtable"]).

End Documents.

(** ** Conditions and example worlds for the properties below *)
Module Scenarios.

Import Backup.

(** The place of the live database can be written to: nothing is
    protected, the directory of the database exists, and neither the
    database path nor [current_backup], the path of its safety copy, is a
    directory. *)
Definition restore_ready (loc : locations) (w : world)
    (current_backup : path) : Prop :=
  protected w = ∅ /\
  is_dir w (parent (db_path loc)) = true /\
  is_dir w (db_path loc) = false /\
  with_suffix (db_path loc) ".db.backup" = Some current_backup /\
  is_dir w current_backup = false.

(** The text of a timestamp as ["%Y%m%d_%H%M%S"] prints it: digits and
    underscores. *)
Definition timestamp_char (c : ascii) : bool :=
  let n := nat_of_ascii c in
  ((48 <=? n)%nat && (n <=? 57)%nat) || Ascii.eqb c "_".

Definition timestamp_text (s : string) : bool :=
  forallb timestamp_char (String.list_ascii_of_string s).

(** A database and an earlier compressed backup of the same second that
    cannot be overwritten. *)
Definition w_protected_gz : world :=
  {| fs := {[ ["backups"] := Dir;
              ["backups"; "workflows_db_20240101_120000.db.gz"] :=
                File (Gzip (Database None)) 1;
              ["workflows.db"] := File (Database (Some (3, Some 2))) 9 ]};
     protected := {[ ["backups"; "workflows_db_20240101_120000.db.gz"] ]};
     reads := 0;
     out := [] |}.

(** A database and a workflow directory with two files, one of them in a
    subdirectory. *)
Definition w_with_workflows : world :=
  {| fs := {[ ["backups"] := Dir;
              ["workflows"] := Dir;
              ["workflows"; "a.json"] := File (Text "{}") 5;
              ["workflows"; "old"] := Dir;
              ["workflows"; "old"; "b.json"] := File (Text "{}") 4;
              ["workflows.db"] := File (Database (Some (3, Some 2))) 9 ]};
     protected := ∅;
     reads := 0;
     out := [] |}.

(** A live database and a file with the suffix [.gz] that is not a gzip
    stream. *)
Definition w_broken_gz : world :=
  {| fs := {[ ["backups"] := Dir;
              ["backups"; "broken.db.gz"] := File (Text "not a gzip stream") 7;
              ["workflows.db"] := File (Database (Some (3, Some 2))) 9 ]};
     protected := ∅;
     reads := 0;
     out := [] |}.

End Scenarios.

(** * Properties of the classifier *)

Import Organizer.

Section ClassifierFacts.

Variable set_order : gset string -> list string.

Lemma node_loop_types nodes : forall a a',
  node_loop a nodes = Returned a' <->
  exists tys, node_types nodes = Returned tys /\ a' = foldl node_step a tys.
Proof.
  induction nodes as [|node rest IH]; intros a a'; simpl.
  - split.
    + intros [= <-]. by exists [].
    + intros (tys & [= <-] & ->). done.
  - destruct (node_type_of node) as [ty|e]; simpl.
    + rewrite IH. split.
      * intros (tys & Htys & ->). exists (ty :: tys). by rewrite Htys.
      * intros (tys & Htys & ->).
        destruct (node_types rest) as [tys'|e]; simpl in Htys; [|done].
        injection Htys as <-. by exists tys'.
    + split; [done|]. by intros (tys & [=] & _).
Qed.

Lemma node_loop_total nodes tys a :
  node_types nodes = Returned tys ->
  node_loop a nodes = Returned (foldl node_step a tys).
Proof. intros H. apply node_loop_types. by exists tys. Qed.

Lemma acc_trigger_node_step a ty :
  acc_trigger (node_step a ty) = trigger_step (acc_trigger a) ty.
Proof.
  unfold node_step.
  by destruct (first_group category_groups ty) as [[c []]|].
Qed.

Lemma acc_trigger_foldl tys : forall a,
  acc_trigger (foldl node_step a tys) = foldl trigger_step (acc_trigger a) tys.
Proof.
  induction tys as [|ty tys IH]; intros a; simpl; [done|].
  by rewrite IH, acc_trigger_node_step.
Qed.

(** What a successful analysis has computed. *)
Lemma analyze_data_inv name data md :
  analyze_data set_order name data = Returned md ->
  exists nodes act tys,
    py_get data "nodes" (JArr []) = Returned nodes /\
    py_get data "active" (JBool false) = Returned act /\
    py_len nodes = Returned (node_count md) /\
    node_types (py_iter nodes) = Returned tys /\
    md = {| filename := name;
            active := act;
            node_count := node_count md;
            trigger_type := resolve_trigger tys;
            integrations :=
              set_order (acc_integrations (foldl node_step acc_init tys));
            categories :=
              set_order (acc_categories (foldl node_step acc_init tys));
            complexity := complexity_of (node_count md) |}.
Proof.
  unfold analyze_data. intros H.
  destruct (py_get data "nodes" (JArr [])) as [nodes|] eqn:Hn; [|done].
  destruct (py_get data "active" (JBool false)) as [act|] eqn:Ha; [|done].
  simpl in H.
  destruct (py_len nodes) as [n|] eqn:Hl; [|done]. simpl in H.
  destruct (node_loop acc_init (py_iter nodes)) as [a|] eqn:Hloop; [|done].
  simpl in H. injection H as <-.
  apply node_loop_types in Hloop as (tys & Htys & ->).
  exists nodes, act, tys. repeat split; try done.
  simpl. unfold resolve_trigger. by rewrite acc_trigger_foldl.
Qed.

Lemma analyze_workflow_inv name content md :
  analyze_workflow set_order name content = Returned (Some md) ->
  exists data, content = JsonText data /\
               analyze_data set_order name data = Returned md.
Proof.
  destruct content as [| | |data]; simpl; [done..|].
  destruct (analyze_data set_order name data) as [md'|] eqn:H; [|done].
  intros [= <-]. by exists data.
Qed.

Lemma node_types_typed tys :
  node_types (typed_node <$> tys) = Returned (PyStr.lower <$> tys).
Proof.
  induction tys as [|ty tys IH]; [done|].
  cbn [fmap list_fmap node_types]. change (node_type_of (typed_node ty))
    with (Returned (A:=string) (PyStr.lower ty)).
  cbn [mbind outcome_bind]. fold (fmap (M:=list) typed_node tys).
  rewrite IH. done.
Qed.

Lemma analyze_workflow_of name tys :
  exists md,
    analyze_workflow set_order name (JsonText (workflow_of tys))
      = Returned (Some md) /\
    filename md = name /\
    node_count md = length tys /\
    trigger_type md = resolve_trigger (PyStr.lower <$> tys) /\
    complexity md = complexity_of (length tys).
Proof.
  eexists. split.
  - unfold analyze_workflow, analyze_data, workflow_of.
    change (py_get (JObj [("nodes", JArr (typed_node <$> tys))]) "nodes"
              (JArr [])) with (Returned (JArr (typed_node <$> tys))).
    change (py_get (JObj [("nodes", JArr (typed_node <$> tys))]) "active"
              (JBool false)) with (Returned (JBool false)).
    cbn [mbind outcome_bind py_len py_iter].
    rewrite (node_loop_total _ _ _ (node_types_typed tys)).
    cbn [mbind outcome_bind]. reflexivity.
  - cbn [filename node_count trigger_type complexity].
    rewrite length_fmap, acc_trigger_foldl. done.
Qed.

Lemma resolve_trigger_snoc tys ty :
  resolve_trigger (tys ++ [ty]) = trigger_step (resolve_trigger tys) ty.
Proof. unfold resolve_trigger. by rewrite foldl_app. Qed.

End ClassifierFacts.

(** ** Trigger resolution *)

Lemma trigger_step_keeps cur ty :
  cur <> Manual -> sets_unconditionally ty = false -> trigger_step cur ty = cur.
Proof.
  unfold sets_unconditionally, trigger_step. intros Hcur H.
  apply orb_false_elim in H as [H Hs]. apply orb_false_elim in H as [Hw Hc].
  rewrite Hw, Hc, Hs. simpl.
  destruct cur; [done|by rewrite andb_false_r..].
Qed.

Lemma trigger_step_sets cur ty :
  sets_unconditionally ty = true ->
  trigger_step cur ty = if PyStr.contains "webhook" ty then Webhook else Scheduled.
Proof.
  unfold sets_unconditionally, trigger_step. intros H.
  destruct (PyStr.contains "webhook" ty); [done|]. simpl in H. by rewrite H.
Qed.

Lemma foldl_trigger_step_keeps tys : forall cur,
  cur <> Manual ->
  Forall (fun ty => sets_unconditionally ty = false) tys ->
  foldl trigger_step cur tys = cur.
Proof.
  induction tys as [|ty tys IH]; intros cur Hcur Hall; [done|].
  apply Forall_cons in Hall as [Hty Hall]. simpl.
  rewrite trigger_step_keeps by done. by apply IH.
Qed.

Lemma resolve_trigger_last_match before ty after :
  sets_unconditionally ty = true ->
  Forall (fun t => sets_unconditionally t = false) after ->
  resolve_trigger (before ++ ty :: after)
    = if PyStr.contains "webhook" ty then Webhook else Scheduled.
Proof.
  intros Hty Hafter. unfold resolve_trigger. rewrite foldl_app. simpl.
  rewrite (trigger_step_sets _ _ Hty).
  apply foldl_trigger_step_keeps; [|done].
  by destruct (PyStr.contains "webhook" ty).
Qed.

(** C1: [analyze_workflow] scans the nodes in document order.  The
    trigger type starts as Manual; a node whose lower-cased type contains
    "webhook" sets Webhook, otherwise one containing "cron" or "schedule"
    sets Scheduled, otherwise one containing "trigger" sets Triggered only
    while the value is still Manual, and any other node leaves it as it
    is, so the result is Manual when no node matches.  A schedule-type
    node followed by a generic trigger-type node resolves to Scheduled. *)
Theorem trigger_resolution_in_document_order :
  (forall so name content md,
     analyze_workflow so name content = Returned (Some md) ->
     exists data nodes tys,
       content = JsonText data /\
       py_get data "nodes" (JArr []) = Returned nodes /\
       node_types (py_iter nodes) = Returned tys /\
       trigger_type md = resolve_trigger tys) /\
  (forall so name tys,
     exists md,
       analyze_workflow so name (JsonText (workflow_of tys))
         = Returned (Some md) /\
       trigger_type md = resolve_trigger (PyStr.lower <$> tys)) /\
  resolve_trigger [] = Manual /\
  (forall tys,
     Forall (fun ty => sets_unconditionally ty = false /\
                       PyStr.contains "trigger" ty = false) tys ->
     resolve_trigger tys = Manual) /\
  (forall tys ty,
     resolve_trigger (tys ++ [ty]) =
       if PyStr.contains "webhook" ty then Webhook
       else if PyStr.contains "cron" ty || PyStr.contains "schedule" ty
       then Scheduled
       else if PyStr.contains "trigger" ty
       then match resolve_trigger tys with
            | Manual => Triggered
            | t => t
            end
       else resolve_trigger tys) /\
  (forall so name t1 t2,
     PyStr.contains "webhook" (PyStr.lower t1) = false ->
     PyStr.contains "cron" (PyStr.lower t1)
       || PyStr.contains "schedule" (PyStr.lower t1) = true ->
     sets_unconditionally (PyStr.lower t2) = false ->
     PyStr.contains "trigger" (PyStr.lower t2) = true ->
     exists md,
       analyze_workflow so name (JsonText (workflow_of [t1; t2]))
         = Returned (Some md) /\
       trigger_type md = Scheduled).
Proof.
  split_and!.
  - intros so name content md H.
    apply analyze_workflow_inv in H as (data & -> & H).
    apply analyze_data_inv in H as (nodes & act & tys & Hn & _ & _ & Ht & ->).
    by exists data, nodes, tys.
  - intros so name tys.
    destruct (analyze_workflow_of so name tys) as (md & H & _ & _ & Ht & _).
    by exists md.
  - done.
  - intros tys Hall. unfold resolve_trigger.
    induction tys as [|ty tys IH] using rev_ind; [done|].
    apply Forall_app in Hall as [Hall [[Hu Ht] _]%Forall_cons].
    rewrite foldl_app. simpl. rewrite (IH Hall). unfold trigger_step.
    unfold sets_unconditionally in Hu.
    apply orb_false_elim in Hu as [Hu Hs]. apply orb_false_elim in Hu as [Hw Hc].
    by rewrite Hw, Hc, Hs, Ht.
  - intros tys ty. rewrite resolve_trigger_snoc. unfold trigger_step.
    destruct (PyStr.contains "webhook" ty); [done|].
    destruct (PyStr.contains "cron" ty || PyStr.contains "schedule" ty);
      [done|].
    destruct (PyStr.contains "trigger" ty); simpl; [|done].
    by destruct (resolve_trigger tys).
  - intros so name t1 t2 Hw1 Hs1 Hu2 Ht2.
    destruct (analyze_workflow_of so name [t1; t2]) as (md & H & _ & _ & Ht & _).
    exists md. split; [done|]. rewrite Ht.
    change (PyStr.lower <$> [t1; t2])
      with ([] ++ PyStr.lower t1 :: [PyStr.lower t2]).
    rewrite resolve_trigger_last_match.
    + by rewrite Hw1.
    + unfold sets_unconditionally. by rewrite Hw1.
    + by repeat constructor.
Qed.

(** A schedule trigger followed by a manual trigger. *)
Lemma trigger_resolution_witness :
  exists md,
    analyze_workflow elements "a.json" schedule_then_trigger
      = Returned (Some md) /\
    trigger_type md = Scheduled.
Proof.
  apply (proj2 (proj2 (proj2 (proj2 (proj2
                 trigger_resolution_in_document_order))))
           elements "a.json"
           "dr.x-nodes-base.scheduleTrigger" "dr.x-nodes-base.manualTrigger");
    vm_compute; reflexivity.
Defined.


(** C4: the complexity is determined by the node count alone: at most 5
    nodes give low, 6 to 15 give medium, 16 or more give high. *)
Theorem complexity_by_node_count :
  (forall so name content md,
     analyze_workflow so name content = Returned (Some md) ->
     exists data nodes,
       content = JsonText data /\
       py_get data "nodes" (JArr []) = Returned nodes /\
       py_len nodes = Returned (node_count md) /\
       (node_count md <= 5 -> complexity md = low) /\
       (6 <= node_count md <= 15 -> complexity md = medium) /\
       (16 <= node_count md -> complexity md = high)) /\
  (forall so name tys,
     exists md,
       analyze_workflow so name (JsonText (workflow_of tys))
         = Returned (Some md) /\
       node_count md = length tys /\
       complexity md = complexity_of (length tys)) /\
  complexity_of 5 = low /\ complexity_of 6 = medium /\
  complexity_of 15 = medium /\ complexity_of 16 = high.
Proof.
  split_and!; try done.
  - intros so name content md H.
    apply analyze_workflow_inv in H as (data & -> & H).
    apply analyze_data_inv in H as (nodes & act & tys & Hn & _ & Hl & _ & Hmd).
    exists data, nodes. split_and!; try done.
    all: rewrite Hmd; cbn [complexity node_count]; unfold complexity_of.
    all: intros Hle.
    + destruct (Nat.leb_spec (node_count md) 5); [done|lia].
    + destruct (Nat.leb_spec (node_count md) 5); [lia|].
      destruct (Nat.leb_spec (node_count md) 15); [done|lia].
    + destruct (Nat.leb_spec (node_count md) 5); [lia|].
      destruct (Nat.leb_spec (node_count md) 15); [lia|done].
  - intros so name tys.
    destruct (analyze_workflow_of so name tys) as (md & H & _ & Hn & _ & Hc).
    by exists md.
Qed.

(** Six nodes give medium. *)
Lemma complexity_witness :
  exists md,
    analyze_workflow elements "a.json"
      (JsonText (workflow_of (replicate 6 "dr.x-nodes-base.set")))
      = Returned (Some md) /\
    complexity md = medium.
Proof.
  destruct (proj1 (proj2 complexity_by_node_count) elements "a.json"
              (replicate 6 "dr.x-nodes-base.set")) as (md & Ha & Hn & _).
  exists md. split; [exact Ha|].
  destruct (proj1 complexity_by_node_count elements _ _ md Ha)
    as (data & nodes & _ & _ & _ & _ & Hmedium & _).
  apply Hmedium. rewrite Hn. simpl. lia.
Defined.


(** C10: among the nodes that match the webhook branch or the
    cron/schedule branch the last one decides: both branches assign
    whatever the current value is, so a later cron or schedule node
    replaces Webhook and a later webhook node replaces Scheduled. *)
Theorem last_unconditional_match_wins :
  (forall so name content md,
     analyze_workflow so name content = Returned (Some md) ->
     exists data nodes tys,
       content = JsonText data /\
       py_get data "nodes" (JArr []) = Returned nodes /\
       node_types (py_iter nodes) = Returned tys /\
       forall before ty after,
         tys = before ++ ty :: after ->
         sets_unconditionally ty = true ->
         Forall (fun t => sets_unconditionally t = false) after ->
         trigger_type md
           = if PyStr.contains "webhook" ty then Webhook else Scheduled) /\
  (forall so name t1 t2,
     PyStr.contains "webhook" (PyStr.lower t1) = true ->
     PyStr.contains "webhook" (PyStr.lower t2) = false ->
     PyStr.contains "cron" (PyStr.lower t2)
       || PyStr.contains "schedule" (PyStr.lower t2) = true ->
     (exists md,
        analyze_workflow so name (JsonText (workflow_of [t1; t2]))
          = Returned (Some md) /\
        trigger_type md = Scheduled) /\
     (exists md,
        analyze_workflow so name (JsonText (workflow_of [t2; t1]))
          = Returned (Some md) /\
        trigger_type md = Webhook)).
Proof.
  split.
  - intros so name content md H.
    apply analyze_workflow_inv in H as (data & -> & H).
    apply analyze_data_inv in H as (nodes & act & tys & Hn & _ & _ & Ht & Hmd).
    exists data, nodes, tys. split_and!; try done.
    intros before ty after -> Hty Hafter. rewrite Hmd. cbn [trigger_type].
    by apply resolve_trigger_last_match.
  - intros so name t1 t2 Hw1 Hw2 Hs2.
    assert (sets_unconditionally (PyStr.lower t1) = true) as Hu1
      by (unfold sets_unconditionally; by rewrite Hw1).
    assert (sets_unconditionally (PyStr.lower t2) = true) as Hu2
      by (unfold sets_unconditionally; by rewrite Hw2).
    split.
    + destruct (analyze_workflow_of so name [t1; t2])
        as (md & H & _ & _ & Ht & _).
      exists md. split; [done|]. rewrite Ht.
      change (PyStr.lower <$> [t1; t2])
        with ([PyStr.lower t1] ++ PyStr.lower t2 :: []).
      rewrite resolve_trigger_last_match by done. by rewrite Hw2.
    + destruct (analyze_workflow_of so name [t2; t1])
        as (md & H & _ & _ & Ht & _).
      exists md. split; [done|]. rewrite Ht.
      change (PyStr.lower <$> [t2; t1])
        with ([PyStr.lower t2] ++ PyStr.lower t1 :: []).
      rewrite resolve_trigger_last_match by done. by rewrite Hw1.
Qed.

(** A webhook node and a cron node, in both orders. *)
Lemma last_match_witness :
  (exists md,
     analyze_workflow elements "a.json" webhook_then_cron
       = Returned (Some md) /\
     trigger_type md = Scheduled) /\
  (exists md,
     analyze_workflow elements "a.json"
       (JsonText (workflow_of ["dr.x-nodes-base.cron";
                               "dr.x-nodes-base.webhook"]))
       = Returned (Some md) /\
     trigger_type md = Webhook).
Proof.
  apply (proj2 last_unconditional_match_wins elements "a.json"
           "dr.x-nodes-base.webhook" "dr.x-nodes-base.cron");
    vm_compute; reflexivity.
Defined.


(** ** The organizer's tree *)

Section OrganizerFacts.

Variable set_order : gset string -> list string.

Lemma bucket_path_inj a1 b1 n1 a2 b2 n2 :
  bucket_path a1 b1 n1 = bucket_path a2 b2 n2 -> a1 = a2 /\ b1 = b2 /\ n1 = n2.
Proof. unfold bucket_path. intros [= Ha Hb Hn]. by simplify_eq/=. Qed.

Lemma lookup_foldl_copy_keep axis n c bs : forall st p,
  tree st !! p = Some c ->
  tree (foldl (copy_to axis n c) st bs) !! p = Some c.
Proof.
  induction bs as [|b bs IH]; intros st p H; simpl; [done|].
  apply IH. simpl. destruct (decide (bucket_path axis b n = p)) as [->|Hne].
  - by rewrite lookup_insert_eq.
  - by rewrite lookup_insert_ne.
Qed.

Lemma lookup_foldl_copy_hit axis n c bs : forall st b,
  b ∈ bs ->
  tree (foldl (copy_to axis n c) st bs) !! bucket_path axis b n = Some c.
Proof.
  induction bs as [|b0 bs IH]; intros st b Hb; [by apply elem_of_nil in Hb|].
  apply elem_of_cons in Hb as [->|Hb]; simpl.
  - apply lookup_foldl_copy_keep. simpl. by rewrite lookup_insert_eq.
  - by apply IH.
Qed.

Lemma lookup_foldl_copy_miss axis n c bs : forall st p,
  (forall b, b ∈ bs -> p <> bucket_path axis b n) ->
  tree (foldl (copy_to axis n c) st bs) !! p = tree st !! p.
Proof.
  induction bs as [|b0 bs IH]; intros st p Hp; simpl; [done|].
  rewrite IH by (intros b Hb; apply Hp; by right).
  simpl. rewrite lookup_insert_ne; [done|].
  intros Heq. by apply (Hp b0); [left|].
Qed.

Lemma placed_nil axis buckets p c : ~ placed set_order axis buckets [] p c.
Proof. intros (n & md & b & Hin & _). by apply elem_of_nil in Hin. Qed.

Lemma placed_cons axis buckets n0 c0 rest p c :
  placed set_order axis buckets ((n0, c0) :: rest) p c <->
  (c = c0 /\ exists md b,
      analyze_workflow set_order n0 c0 = Returned (Some md) /\
      b ∈ buckets md /\ p = bucket_path axis b n0) \/
  placed set_order axis buckets rest p c.
Proof.
  split.
  - intros (n & md & b & Hin & Ha & Hb & ->).
    apply elem_of_cons in Hin as [[= -> ->]|Hin].
    + left. split; [done|]. by exists md, b.
    + right. by exists n, md, b.
  - intros [[-> (md & b & Ha & Hb & ->)]|(n & md & b & Hin & Ha & Hb & ->)].
    + exists n0, md, b. split_and!; try done. by left.
    + exists n, md, b. split_and!; try done. by right.
Qed.

Lemma placed_name axis buckets files p c :
  placed set_order axis buckets files p c ->
  exists b n, p = bucket_path axis b n /\ n ∈ files.*1.
Proof.
  intros (n & md & b & Hin & _ & _ & ->). exists b, n. split; [done|].
  apply list_elem_of_fmap. by exists (n, c).
Qed.

Lemma no_raise_cons n c rest :
  no_raise set_order ((n, c) :: rest) ->
  (forall e, analyze_workflow set_order n c <> Raised e) /\
  no_raise set_order rest.
Proof.
  intros H. split.
  - intros e. apply H. by left.
  - intros n' c' e Hin. apply H. by right.
Qed.

(** A loop that runs to its end leaves in the tree the copies it made and
    what was there before on the other paths. *)
Lemma organize_loop_spec axis buckets files : forall st,
  NoDup files.*1 -> no_raise set_order files ->
  exists st',
    organize_loop set_order axis buckets files st = (st', None) /\
    forall p c,
      tree st' !! p = Some c <->
      placed set_order axis buckets files p c \/
      (tree st !! p = Some c /\
       forall c', ~ placed set_order axis buckets files p c').
Proof.
  induction files as [|[n0 c0] rest IH]; intros st Hnd Hnr.
  - exists st. split; [done|]. intros p c. split.
    + intros H. right. split; [done|]. intros c'. apply placed_nil.
    + intros [H|[H _]]; [by apply placed_nil in H|done].
  - cbn [fmap list_fmap fst] in Hnd. apply NoDup_cons in Hnd as [Hn0 Hnd].
    apply no_raise_cons in Hnr as [Hn0r Hnr]. cbn [organize_loop].
    destruct (analyze_workflow set_order n0 c0) as [[md0|]|e] eqn:Ha;
      [| |by destruct (Hn0r e)].
    + destruct (IH (foldl (copy_to axis n0 c0) st (buckets md0)) Hnd Hnr)
        as (st' & -> & Hst').
      exists st'. split; [done|]. intros p c. rewrite Hst'.
      setoid_rewrite placed_cons.
      assert (forall b c', p = bucket_path axis b n0 ->
                           ~ placed set_order axis buckets rest p c') as Hfresh.
      { intros b c' -> (b' & n' & Heq & Hin)%placed_name.
        apply bucket_path_inj in Heq as (_ & _ & <-). done. }
      destruct (decide (p ∈ (fun b => bucket_path axis b n0) <$> buckets md0))
        as [Hhit|Hmiss].
      * apply list_elem_of_fmap in Hhit as (b & -> & Hb).
        rewrite lookup_foldl_copy_hit by done. split.
        -- intros [H|[[= <-] _]]; [by left; right|].
           left. left. split; [done|]. by exists md0, b.
        -- intros [[[-> _]|H]|[_ H]].
           ++ right. split; [done|]. intros c'. by eapply Hfresh.
           ++ by left.
           ++ exfalso. apply (H c0). left. split; [done|]. by exists md0, b.
      * assert (forall b, b ∈ buckets md0 -> p <> bucket_path axis b n0) as Hp.
        { intros b Hb ->. apply Hmiss, list_elem_of_fmap. by exists b. }
        rewrite lookup_foldl_copy_miss by done. split.
        -- intros [H|[H Hno]]; [by left; right|].
           right. split; [done|]. intros c' [[_ (md & b & Hmd & Hb & ->)]|H'].
           ++ rewrite Ha in Hmd. injection Hmd as <-. by apply (Hp b).
           ++ by eapply Hno.
        -- intros [[[_ (md & b & Hmd & Hb & ->)]|H]|[H Hno]].
           ++ rewrite Ha in Hmd. injection Hmd as <-. by destruct (Hp b).
           ++ by left.
           ++ right. split; [done|]. intros c' H'. apply (Hno c'). by right.
    + destruct (IH st Hnd Hnr) as (st' & -> & Hst').
      exists st'. split; [done|]. intros p c. rewrite Hst'.
      setoid_rewrite placed_cons. split.
      * intros [H|[H Hno]]; [by left; right|].
        right. split; [done|].
        intros c' [[_ (md & b & Hmd & _)]|H']; [congruence|by eapply Hno].
      * intros [[[_ (md & b & Hmd & _)]|H]|[H Hno]]; [congruence|by left|].
        right. split; [done|]. intros c' H'. apply (Hno c'). by right.
Qed.

(** The same, for a loop that starts on a tree whose content is known and
    lies outside the loop's own directory. *)
Lemma organize_loop_after (P : list string -> file_content -> Prop)
    axis buckets files st :
  NoDup files.*1 -> no_raise set_order files ->
  (forall p c, tree st !! p = Some c <-> P p c) ->
  (forall p c b n, P p c -> p <> bucket_path axis b n) ->
  exists st',
    organize_loop set_order axis buckets files st = (st', None) /\
    forall p c,
      tree st' !! p = Some c <->
      P p c \/ placed set_order axis buckets files p c.
Proof.
  intros Hnd Hnr HP Hout.
  destruct (organize_loop_spec axis buckets files st Hnd Hnr)
    as (st' & Hrun & Hst').
  exists st'. split_and!; try done. intros p c. rewrite Hst', HP. split.
  - intros [H|[H _]]; [by right|by left].
  - intros [H|H]; [|by left]. right. split; [done|].
    intros c' (b & n & -> & _)%placed_name. by eapply Hout.
Qed.

End OrganizerFacts.

Section OrganizeAllFacts.

Variable set_order : gset string -> list string.

Lemma analyze_workflow_of_eq name tys :
  analyze_workflow set_order name (JsonText (workflow_of tys)) =
  Returned (Some
    {| filename := name;
       active := JBool false;
       node_count := length tys;
       trigger_type := resolve_trigger (PyStr.lower <$> tys);
       integrations :=
         set_order (acc_integrations
                      (foldl node_step acc_init (PyStr.lower <$> tys)));
       categories :=
         set_order (acc_categories
                      (foldl node_step acc_init (PyStr.lower <$> tys)));
       complexity := complexity_of (length tys) |}).
Proof.
  unfold analyze_workflow, analyze_data, workflow_of.
  change (py_get (JObj [("nodes", JArr (typed_node <$> tys))]) "nodes"
            (JArr [])) with (Returned (JArr (typed_node <$> tys))).
  change (py_get (JObj [("nodes", JArr (typed_node <$> tys))]) "active"
            (JBool false)) with (Returned (JBool false)).
  cbn [mbind outcome_bind py_len py_iter].
  rewrite (node_loop_total _ _ _ (node_types_typed tys)).
  cbn [mbind outcome_bind]. unfold resolve_trigger.
  by rewrite length_fmap, acc_trigger_foldl.
Qed.

Lemma pair_unique {A B} (l : list (A * B)) x y1 y2 :
  NoDup l.*1 -> (x, y1) ∈ l -> (x, y2) ∈ l -> y1 = y2.
Proof.
  induction l as [|[a b] l IH]; intros Hnd H1 H2;
    [by apply elem_of_nil in H1|].
  cbn [fmap list_fmap fst] in Hnd. apply NoDup_cons in Hnd as [Ha Hnd].
  apply elem_of_cons in H1 as [H1|H1];
    apply elem_of_cons in H2 as [H2|H2]; simplify_eq; try done.
  - destruct Ha. apply list_elem_of_fmap. by exists (a, y2).
  - destruct Ha. apply list_elem_of_fmap. by exists (a, y1).
  - by apply IH.
Qed.

(** The tree after a complete run holds the copies of the four loops and
    nothing else. *)
Lemma organize_all_spec files st :
  NoDup files.*1 -> no_raise set_order files ->
  exists st',
    organize_all set_order files st = (st', None) /\
    forall p c,
      tree st' !! p = Some c <->
      exists axis buckets,
        (axis, buckets) ∈ axes /\ placed set_order axis buckets files p c.
Proof.
  intros Hnd Hnr.
  unfold organize_all, organize_by_category, organize_by_complexity,
    organize_by_trigger, organize_by_integration.
  destruct (organize_loop_after set_order (fun _ _ => False)
              "category" category_buckets files
              {| tree := ∅; stats := stats st |} Hnd Hnr)
    as (st1 & -> & H1); [by intros p c; simpl; rewrite lookup_empty|done|].
  destruct (organize_loop_after set_order _
              "complexity" complexity_buckets files st1 Hnd Hnr H1)
    as (st2 & -> & H2).
  { intros p c b n [[]|(b' & n' & -> & _)%placed_name].
    by intros (? & _)%bucket_path_inj. }
  destruct (organize_loop_after set_order _
              "trigger" trigger_buckets files st2 Hnd Hnr H2)
    as (st3 & -> & H3).
  { intros p c b n [[[]|(b' & n' & -> & _)%placed_name]
                   |(b' & n' & -> & _)%placed_name];
      by intros (? & _)%bucket_path_inj. }
  destruct (organize_loop_after set_order _
              "integration" integration_buckets files st3 Hnd Hnr H3)
    as (st4 & -> & H4).
  { intros p c b n [[[[]|(b' & n' & -> & _)%placed_name]
                    |(b' & n' & -> & _)%placed_name]
                   |(b' & n' & -> & _)%placed_name];
      by intros (? & _)%bucket_path_inj. }
  exists st4. split; [done|]. intros p c. rewrite H4. unfold axes. split.
  - intros [[[[[]|H]|H]|H]|H]; eexists _, _; (split; [|exact H]);
      repeat constructor.
  - intros (axis & buckets & Hin & H).
    repeat (apply elem_of_cons in Hin as [[= -> ->]|Hin]); [tauto..|].
    by apply elem_of_nil in Hin.
Qed.

Lemma axes_functional axis b1 b2 :
  (axis, b1) ∈ axes -> (axis, b2) ∈ axes -> b1 = b2.
Proof.
  unfold axes. intros H1 H2.
  repeat (apply elem_of_cons in H1 as [[= -> ->]|H1]);
    try (by apply elem_of_nil in H1);
    repeat (apply elem_of_cons in H2 as [[= ?]|H2]);
    try (by apply elem_of_nil in H2); done.
Qed.

(** Where one analysed file ends up along one axis. *)
Lemma organize_all_axis files st' axis buckets n c md :
  NoDup files.*1 ->
  (forall p c,
      tree st' !! p = Some c <->
      exists axis buckets,
        (axis, buckets) ∈ axes /\ placed set_order axis buckets files p c) ->
  (axis, buckets) ∈ axes ->
  (n, c) ∈ files ->
  analyze_workflow set_order n c = Returned (Some md) ->
  forall b c',
    tree st' !! bucket_path axis b n = Some c' <-> c' = c /\ b ∈ buckets md.
Proof.
  intros Hnd Hspec Hax Hin Ha b c'. rewrite Hspec. split.
  - intros (axis' & buckets' & Hax' & n' & md' & b' & Hin' & Ha' & Hb' & Heq).
    apply bucket_path_inj in Heq as (<- & <- & <-).
    assert (c' = c) as -> by (by eapply pair_unique).
    rewrite Ha in Ha'. injection Ha' as <-.
    by rewrite (axes_functional _ _ _ Hax Hax').
  - intros [-> Hb]. exists axis, buckets. split; [done|]. by exists n, md, b.
Qed.

End OrganizeAllFacts.

Lemma elem_of_or_sentinel l s (b : string) : b ∈ l -> b ∈ or_sentinel l s.
Proof. destruct l; [by intros ?%elem_of_nil|done]. Qed.

Lemma enumerates_elem_of so s (x : string) : enumerates so -> x ∈ so s <-> x ∈ s.
Proof. intros H. by rewrite (H s), elem_of_elements. Qed.

Lemma acc_categories_node_step a ty :
  acc_categories (node_step a ty) =
  match first_group category_groups ty with
  | Some (category, _) => acc_categories a ∪ {[ category ]}
  | None => acc_categories a
  end.
Proof.
  unfold node_step. by destruct (first_group category_groups ty) as [[c []]|].
Qed.

Lemma acc_integrations_node_step a ty :
  acc_integrations (node_step a ty) =
  match first_group category_groups ty with
  | Some (_, true) => acc_integrations a ∪ {[ extract_service_name ty ]}
  | _ => acc_integrations a
  end.
Proof.
  unfold node_step. by destruct (first_group category_groups ty) as [[c []]|].
Qed.

Lemma slack_github_sets :
  let a := foldl node_step acc_init
             (PyStr.lower <$> ["dr.x-nodes-base.slack"; "dr.x-nodes-base.github"]) in
  acc_categories a = ∅ ∪ {[ "messaging" ]} ∪ {[ "development" ]} /\
  acc_integrations a = ∅ ∪ {[ "Slack" ]} ∪ {[ "GitHub" ]}.
Proof.
  cbn [foldl fmap list_fmap].
  rewrite !acc_categories_node_step, !acc_integrations_node_step.
  assert (first_group category_groups (PyStr.lower "dr.x-nodes-base.slack")
          = Some ("messaging", true)) as -> by (vm_compute; reflexivity).
  assert (first_group category_groups (PyStr.lower "dr.x-nodes-base.github")
          = Some ("development", true)) as -> by (vm_compute; reflexivity).
  assert (extract_service_name (PyStr.lower "dr.x-nodes-base.slack")
          = "Slack") as -> by (vm_compute; reflexivity).
  assert (extract_service_name (PyStr.lower "dr.x-nodes-base.github")
          = "GitHub") as -> by (vm_compute; reflexivity).
  done.
Qed.


Lemma enumerates_elements : enumerates elements.
Proof. by intros s. Qed.

Lemma no_raise_slack_github so : no_raise so [("a.json", slack_github)].
Proof.
  intros n c e Hin. apply list_elem_of_singleton in Hin. injection Hin as -> ->.
  unfold slack_github. by rewrite analyze_workflow_of_eq.
Qed.



(** ** Failures of the analysis *)

(** C2: the analysis returns [None] exactly for a file that is not valid
    UTF-8 or not well-formed JSON, and the organizer skips such a file and
    goes on; but a well-formed document that is not an object with a
    list of typed nodes, or a file that cannot be opened, makes the
    analysis raise; the organizer does not catch the exception, so the run
    ends at that file and the files after it are not copied. *)
Theorem analyze_raises_on_non_object_document :
  (forall so name content,
     analyze_workflow so name content = Returned None <->
     content = InvalidUtf8 \/ content = InvalidJson) /\
  (forall so axis buckets name rest st,
     organize_loop so axis buckets ((name, InvalidJson) :: rest) st
       = organize_loop so axis buckets rest st /\
     organize_loop so axis buckets ((name, InvalidUtf8) :: rest) st
       = organize_loop so axis buckets rest st) /\
  (forall so name,
     analyze_workflow so name (JsonText (JArr [])) = Raised AttributeError /\
     analyze_workflow so name
       (JsonText (JObj [("nodes", JArr [JObj [("type", JNull)]])]))
       = Raised AttributeError /\
     analyze_workflow so name (JsonText (JObj [("nodes", JNull)]))
       = Raised TypeError /\
     analyze_workflow so name Unreadable = Raised OSError) /\
  (forall so st,
     organize_all so [("a.json", JsonText (JArr [])); ("b.json", slack_github)]
                  st
     = ({| tree := ∅; stats := stats st |}, Some AttributeError)).
Proof.
  split_and!; [|done..].
  intros so name [| | |data]; simpl.
  - split; [done|by intros [|]].
  - split; [by left|done].
  - split; [by right|done].
  - destruct (analyze_data so name data); simpl; split; try done.
    all: by intros [|].
Qed.

(** ** Determinism *)

Section Determinism.

Variables so1 so2 : gset string -> list string.
Hypothesis Hso1 : enumerates so1.
Hypothesis Hso2 : enumerates so2.

Lemma analyze_workflow_same name content :
  same_result (analyze_workflow so1 name content)
              (analyze_workflow so2 name content).
Proof.
  destruct content as [| | |data]; simpl; [done..|].
  unfold analyze_data.
  destruct (py_get data "nodes" (JArr [])) as [nodes|]; simpl; [|done].
  destruct (py_get data "active" (JBool false)) as [act|]; simpl; [|done].
  destruct (py_len nodes) as [n|]; simpl; [|done].
  destruct (node_loop acc_init (py_iter nodes)) as [a|]; simpl; [|done].
  unfold same_metadata. simpl. split_and!; try done.
  - by rewrite (Hso1 _), (Hso2 _).
  - by rewrite (Hso1 _), (Hso2 _).
Qed.

Lemma tree_foldl_copy_congr axis n c l : forall st1 st2,
  tree st1 = tree st2 ->
  tree (foldl (copy_to axis n c) st1 l) = tree (foldl (copy_to axis n c) st2 l).
Proof.
  induction l as [|b l IH]; intros st1 st2 H; simpl; [done|].
  apply IH. simpl. by rewrite H.
Qed.

Lemma tree_foldl_copy_perm axis n c l1 l2 :
  l1 ≡ₚ l2 -> forall st1 st2,
  tree st1 = tree st2 ->
  tree (foldl (copy_to axis n c) st1 l1)
    = tree (foldl (copy_to axis n c) st2 l2).
Proof.
  induction 1 as [|b l1 l2 _ IH|b1 b2 l|l1 l2 l3 _ IH1 _ IH2];
    intros st1 st2 H; simpl.
  - done.
  - apply IH. simpl. by rewrite H.
  - apply tree_foldl_copy_congr. simpl. rewrite H.
    destruct (decide (bucket_path axis b1 n = bucket_path axis b2 n))
      as [->|Hne]; [done|].
    by apply insert_insert_ne.
  - rewrite (IH1 st1 st2 H). by apply IH2.
Qed.

Lemma or_sentinel_perm l1 l2 s : l1 ≡ₚ l2 -> or_sentinel l1 s ≡ₚ or_sentinel l2 s.
Proof.
  intros H. destruct l1 as [|x l1].
  - apply Permutation_nil_l in H as ->. done.
  - destruct l2 as [|y l2]; [by apply Permutation_nil_r in H|done].
Qed.

Lemma buckets_same axis buckets m1 m2 :
  (axis, buckets) ∈ axes -> same_metadata m1 m2 -> buckets m1 ≡ₚ buckets m2.
Proof.
  intros Hax (_ & _ & _ & Ht & Hi & Hc & Hx). unfold axes in Hax.
  repeat (apply elem_of_cons in Hax as [[= -> ->]|Hax]);
    [| | | |by apply elem_of_nil in Hax].
  - by apply or_sentinel_perm.
  - unfold complexity_buckets. by rewrite Hx.
  - unfold trigger_buckets. by rewrite Ht.
  - unfold integration_buckets. by rewrite (or_sentinel_perm _ _ _ Hi).
Qed.

Lemma organize_loop_same axis buckets files :
  (axis, buckets) ∈ axes ->
  forall st1 st2,
    tree st1 = tree st2 ->
    tree (organize_loop so1 axis buckets files st1).1
      = tree (organize_loop so2 axis buckets files st2).1 /\
    (organize_loop so1 axis buckets files st1).2
      = (organize_loop so2 axis buckets files st2).2.
Proof.
  intros Hax. induction files as [|[n c] rest IH]; intros st1 st2 H;
    cbn [organize_loop]; [done|].
  pose proof (analyze_workflow_same n c) as Hsame.
  destruct (analyze_workflow so1 n c) as [[m1|]|e1],
           (analyze_workflow so2 n c) as [[m2|]|e2]; simpl in Hsame; try done.
  - apply IH. apply tree_foldl_copy_perm; [|done]. by eapply buckets_same.
  - by apply IH.
  - by subst.
Qed.

Lemma organize_all_same files st1 st2 :
  tree (organize_all so1 files st1).1 = tree (organize_all so2 files st2).1 /\
  (organize_all so1 files st1).2 = (organize_all so2 files st2).2.
Proof.
  unfold organize_all, organize_by_category, organize_by_complexity,
    organize_by_trigger, organize_by_integration.
  pose proof (fun ax b H => organize_loop_same ax b files H) as Hloop.
  destruct (Hloop "category" category_buckets
              ltac:(unfold axes; by repeat constructor)
              {| tree := ∅; stats := stats st1 |}
              {| tree := ∅; stats := stats st2 |} eq_refl) as [Ht He].
  destruct (organize_loop so1 "category" _ files _) as [a1 [e|]],
           (organize_loop so2 "category" _ files _) as [a2 [e'|]];
    simpl in Ht, He; try done.
  destruct (Hloop "complexity" complexity_buckets
              ltac:(unfold axes; by repeat constructor) a1 a2 Ht)
    as [Ht2 He2].
  destruct (organize_loop so1 "complexity" _ files _) as [b1 [e|]],
           (organize_loop so2 "complexity" _ files _) as [b2 [e'|]];
    simpl in Ht2, He2; try done.
  destruct (Hloop "trigger" trigger_buckets
              ltac:(unfold axes; by repeat constructor) b1 b2 Ht2)
    as [Ht3 He3].
  destruct (organize_loop so1 "trigger" _ files _) as [c1 [e|]],
           (organize_loop so2 "trigger" _ files _) as [c2 [e'|]];
    simpl in Ht3, He3; try done.
  apply (Hloop "integration" integration_buckets
           ltac:(unfold axes; by repeat constructor) c1 c2 Ht3).
Qed.

End Determinism.

(** Running one of the four methods again on its own result. *)
Section Rerun.

Variable so : gset string -> list string.

Lemma tree_foldl_copy_put axis n c bs : forall st,
  tree (foldl (copy_to axis n c) st bs)
    = foldl put (tree st) ((fun b => (bucket_path axis b n, c)) <$> bs).
Proof. induction bs as [|b bs IH]; intros st; simpl; [done|]. by rewrite IH. Qed.

Lemma tree_organize_loop axis buckets files : forall st,
  tree (organize_loop so axis buckets files st).1
    = foldl put (tree st) (copies so axis buckets files).
Proof.
  induction files as [|[n c] rest IH]; intros st; simpl; [done|].
  destruct (analyze_workflow so n c) as [[md|]|e]; simpl; [|done..].
  by rewrite IH, foldl_app, tree_foldl_copy_put.
Qed.

Lemma foldl_put_union l : forall t,
  foldl put t l = list_to_map (reverse l) ∪ t.
Proof.
  induction l as [|kc l IH] using rev_ind; intros t.
  - rewrite reverse_nil. simpl. by rewrite (left_id_L ∅ (∪)).
  - rewrite foldl_app, reverse_app. simpl. rewrite IH.
    unfold put. by rewrite insert_union_l.
Qed.

Lemma organize_loop_rerun axis buckets files st :
  tree (organize_loop so axis buckets files
          (organize_loop so axis buckets files st).1).1
    = tree (organize_loop so axis buckets files st).1.
Proof.
  rewrite !tree_organize_loop, !foldl_put_union.
  by rewrite (assoc_L (∪)), (idemp_L (∪)).
Qed.

End Rerun.




(** * Properties of the backup manager *)

Import Backup.

(** ** Listing the backups *)

Lemma elem_of_glob_star w d p n :
  (p, n) ∈ glob_star w d <-> fs w !! p = Some n /\ p <> [] /\ parent p = d.
Proof.
  unfold glob_star. rewrite list_elem_of_filter, elem_of_map_to_list.
  simpl. tauto.
Qed.

Lemma NoDup_glob_star w d : NoDup (glob_star w d).*1.
Proof.
  unfold glob_star.
  assert (forall l : list (path * node),
            NoDup l.*1 ->
            NoDup (filter (fun pn => pn.1 <> [] /\ parent pn.1 = d) l).*1) as H.
  { induction l as [|pn l IH]; [done|]. cbn [fmap list_fmap].
    intros [Hpn Hl]%NoDup_cons. rewrite filter_cons. case_decide.
    - cbn [fmap list_fmap]. apply NoDup_cons. split; [|by apply IH].
      intros (pn' & Heq & Hin%list_elem_of_filter)%list_elem_of_fmap.
      apply Hpn, list_elem_of_fmap. exists pn'. tauto.
    - by apply IH. }
  apply H, NoDup_fst_map_to_list.
Qed.

Lemma insert_desc_perm x l : insert_desc x l ≡ₚ x :: l.
Proof.
  induction l as [|y l IH]; simpl; [done|].
  destruct (bi_created y <=? bi_created x)%Z; [done|].
  by rewrite IH, Permutation_swap.
Qed.

Lemma sorted_desc_perm l : sorted_desc l ≡ₚ l.
Proof.
  induction l as [|x l IH]; simpl; [done|].
  by rewrite insert_desc_perm, IH.
Qed.

Lemma insert_desc_sorted x l :
  StronglySorted not_older l -> StronglySorted not_older (insert_desc x l).
Proof.
  induction 1 as [|y l Hl IH Hy]; simpl.
  - by repeat constructor.
  - destruct (Z.leb_spec (bi_created y) (bi_created x)) as [Hle|Hlt].
    + constructor; [by constructor|]. constructor; [done|].
      eapply Forall_impl; [exact Hy|]. unfold not_older. intros z Hz. lia.
    + constructor; [done|]. rewrite insert_desc_perm. constructor; [|done].
      unfold not_older. lia.
Qed.

Lemma sorted_desc_sorted l : StronglySorted not_older (sorted_desc l).
Proof.
  induction l as [|x l IH]; simpl; [constructor|by apply insert_desc_sorted].
Qed.

(** Entries with equal dates keep the order of the listing. *)
Lemma insert_desc_stable x l :
  Forall (fun y => (bi_created y <= bi_created x)%Z) l ->
  insert_desc x l = x :: l.
Proof.
  destruct l as [|y l]; [done|]. intros [Hy _]%Forall_cons. simpl.
  by destruct (Z.leb_spec (bi_created y) (bi_created x)); [|lia].
Qed.

Lemma sorted_strict l :
  StronglySorted not_older l -> NoDup (bi_created <$> l) ->
  StronglySorted (fun x y => (bi_created y < bi_created x)%Z) l.
Proof.
  induction 1 as [|x l Hl IH Hx]; [constructor|].
  cbn [fmap list_fmap]. intros [Hnin Hnd]%NoDup_cons.
  constructor; [by apply IH|].
  apply Forall_forall. intros y Hy.
  rewrite Forall_forall in Hx. specialize (Hx y Hy). unfold not_older in Hx.
  assert (bi_created y <> bi_created x); [|lia].
  intros Heq. apply Hnin. rewrite <- Heq. apply list_elem_of_fmap. by exists y.
Qed.

#[local] Instance created_gt_antisymm :
  AntiSymm eq (fun x y : backup_info => (bi_created y < bi_created x)%Z).
Proof. intros x y. lia. Qed.

Lemma sorted_desc_three l i1 i2 i3 :
  l ≡ₚ [i1; i2; i3] ->
  (bi_created i1 < bi_created i2)%Z -> (bi_created i2 < bi_created i3)%Z ->
  sorted_desc l = [i3; i2; i1].
Proof.
  intros Hperm H12 H23.
  apply (StronglySorted_unique
           (fun x y : backup_info => (bi_created y < bi_created x)%Z)).
  - apply sorted_strict; [apply sorted_desc_sorted|].
    rewrite sorted_desc_perm, Hperm. cbn [fmap list_fmap].
    repeat (apply NoDup_cons; split); [| |set_solver|apply NoDup_nil_2].
    + rewrite !elem_of_cons, elem_of_nil. lia.
    + rewrite !elem_of_cons, elem_of_nil. lia.
  - repeat constructor; lia.
  - rewrite sorted_desc_perm, Hperm.
    by rewrite (Permutation_swap i3), (Permutation_swap i3 i1),
      (Permutation_swap i2 i1).
Qed.

(** C9: [list_backups] lists the files directly below the backup
    directory, each with the type that the first matching substring of
    its name gives ("db_", "files_", "config_", "manifest_", tested in
    this order, otherwise unknown), sorted by date, newest first; three
    backups dated T1 < T2 < T3 come out as T3, T2, T1. *)
Theorem list_backups_sorted_and_typed :
  (forall filename,
     get_backup_type filename =
       if PyStr.contains "db_" filename then "database"
       else if PyStr.contains "files_" filename then "workflows"
       else if PyStr.contains "config_" filename then "configuration"
       else if PyStr.contains "manifest_" filename then "manifest"
       else "unknown") /\
  (forall E loc w i,
     i ∈ list_backups E loc w <->
     exists p c m,
       fs w !! p = Some (File c m) /\ p <> [] /\ parent p = backup_dir loc /\
       i = {| bi_name := name p;
              bi_path := path_str p;
              bi_size := size_of E (File c m);
              bi_created := m;
              bi_type := get_backup_type (name p) |}) /\
  (forall E loc w, StronglySorted not_older (list_backups E loc w)) /\
  (forall E loc w i1 i2 i3,
     omap (backup_info_of E) (glob_star w (backup_dir loc)) ≡ₚ [i1; i2; i3] ->
     (bi_created i1 < bi_created i2)%Z ->
     (bi_created i2 < bi_created i3)%Z ->
     list_backups E loc w = [i3; i2; i1]).
Proof.
  split_and!.
  - done.
  - intros E loc w i. unfold list_backups.
    rewrite sorted_desc_perm, list_elem_of_omap. split.
    + intros ([p n] & Hin%elem_of_glob_star & Hi).
      unfold backup_info_of in Hi. simpl in Hi.
      destruct n as [c m|]; [|done]. injection Hi as <-.
      exists p, c, m. tauto.
    + intros (p & c & m & Hfs & Hp & Hd & ->). exists (p, File c m).
      split; [by apply elem_of_glob_star|done].
  - intros E loc w. apply sorted_desc_sorted.
  - intros E loc w i1 i2 i3. apply sorted_desc_three.
Qed.

(** Three backups dated 100 < 200 < 300. *)
Lemma list_backups_witness :
  list_backups env0 loc0 w_three_backups = [info_t3; info_t2; info_t1].
Proof.
  apply (proj2 (proj2 (proj2 list_backups_sorted_and_typed))
           env0 loc0 w_three_backups info_t1 info_t2 info_t3).
  - vm_compute. apply perm_skip, perm_swap.
  - reflexivity.
  - reflexivity.
Defined.


(** ** Removing old backups *)

Lemma lookup_node_cons w p : p <> [] -> lookup_node w p = fs w !! p.
Proof. by destruct p. Qed.

Lemma doomed_ext w1 w2 cutoff pn :
  protected w1 = protected w2 -> doomed w1 cutoff pn = doomed w2 cutoff pn.
Proof. unfold doomed. by intros ->. Qed.

Lemma cleanup_events_ext w1 w2 cutoff pn :
  protected w1 = protected w2 ->
  cleanup_events w1 cutoff pn = cleanup_events w2 cutoff pn.
Proof. unfold cleanup_events. by intros ->. Qed.

Lemma deletions_cons w cutoff pn entries :
  deletions w cutoff (pn :: entries) =
  if doomed w cutoff pn then pn :: deletions w cutoff entries
  else deletions w cutoff entries.
Proof.
  unfold deletions. rewrite filter_cons.
  destruct (doomed w cutoff pn); by case_decide.
Qed.

Lemma deletions_ext w1 w2 cutoff entries :
  protected w1 = protected w2 ->
  deletions w1 cutoff entries = deletions w2 cutoff entries.
Proof.
  intros H. induction entries as [|pn entries IH]; [done|].
  by rewrite !deletions_cons, IH, (doomed_ext w1 w2 cutoff pn H).
Qed.

(** The loop removes the doomed entries, keeps everything else, counts
    the removals and reports each expired entry. *)
Lemma cleanup_loop_spec cutoff entries : forall w k,
  NoDup entries.*1 ->
  (forall p n, (p, n) ∈ entries -> p <> [] /\ fs w !! p = Some n) ->
  let r := cleanup_loop cutoff entries w k in
  protected r.1 = protected w /\
  reads r.1 = reads w /\
  out r.1 = out w ++ concat (cleanup_events w cutoff <$> entries) /\
  r.2 = k + length (deletions w cutoff entries) /\
  size (fs r.1) + length (deletions w cutoff entries) = size (fs w) /\
  forall p,
    (p ∈ (deletions w cutoff entries).*1 -> fs r.1 !! p = None) /\
    (p ∉ (deletions w cutoff entries).*1 -> fs r.1 !! p = fs w !! p).
Proof.
  induction entries as [|[p0 n0] rest IH]; intros w k Hnd Hfs.
  - assert (deletions w cutoff [] = []) as Hd by done.
    cbn [cleanup_loop fst snd fmap list_fmap concat]. rewrite Hd.
    cbn [length fmap list_fmap].
    split_and!.
    + done.
    + done.
    + by rewrite app_nil_r.
    + lia.
    + lia.
    + intros p. split; [by intros ?%elem_of_nil|done].
  - cbn [fmap list_fmap fst] in Hnd. apply NoDup_cons in Hnd as [Hp0 Hnd].
    destruct (Hfs p0 n0 ltac:(by left)) as [Hne Hlook].
    assert (forall w', protected w' = protected w ->
              (forall p, p <> p0 -> fs w' !! p = fs w !! p) ->
              forall p n, (p, n) ∈ rest -> p <> [] /\ fs w' !! p = Some n)
      as Hrest.
    { intros w' _ Hsame p n Hin.
      destruct (Hfs p n ltac:(by right)) as [? ?]. split; [done|].
      rewrite Hsame; [done|]. intros ->. apply Hp0.
      apply list_elem_of_fmap. by exists (p0, n). }
    cbn [cleanup_loop]. rewrite (lookup_node_cons w p0 Hne), Hlook.
    rewrite deletions_cons. cbn [fmap list_fmap concat].
    unfold doomed at 1 2 3 4, cleanup_events at 1. cbn [fst snd].
    destruct n0 as [c m|]; cbn [expired].
    + destruct (m <? cutoff)%Z eqn:Hm; cbn [andb].
      * unfold unlink, is_file. rewrite (lookup_node_cons w p0 Hne), Hlook.
        cbn [andb]. destruct (bool_decide (p0 ∉ protected w)) eqn:Hprot.
        -- set (w' := say (RemovedOldBackup (name p0)) (with_fs (delete p0) w)).
           specialize (IH w' (S k) Hnd).
           destruct IH as (IH1 & IH2 & IH3 & IH4 & IH5 & IH6).
           { apply Hrest; [done|]. intros p Hp. simpl.
             by rewrite lookup_delete_ne. }
           rewrite (deletions_ext w' w) in * by done.
           split_and!.
           ++ by rewrite IH1.
           ++ by rewrite IH2.
           ++ rewrite IH3. simpl. rewrite <- app_assoc. reflexivity.
           ++ rewrite IH4. simpl. lia.
           ++ simpl length. subst w'. simpl in IH5.
              rewrite map_size_delete_Some in IH5 by (by rewrite Hlook).
              assert (size (fs w) <> 0); [|lia].
              intros Hsz%map_size_empty_inv. rewrite Hsz in Hlook.
              by rewrite lookup_empty in Hlook.
           ++ intros p. cbn [fmap list_fmap fst]. split.
              ** intros [->|Hin]%elem_of_cons; [|by apply IH6].
                 destruct (decide (p0 ∈ (deletions w cutoff rest).*1))
                   as [Hin|Hnin]; [by apply IH6|].
                 rewrite (proj2 (IH6 p0) Hnin). simpl.
                 by rewrite lookup_delete_eq.
              ** intros Hnin. apply not_elem_of_cons in Hnin as [Hp Hnin].
                 rewrite (proj2 (IH6 p) Hnin). simpl.
                 by rewrite lookup_delete_ne.
        -- set (w' := say (CouldNotRemove (name p0)) w).
           specialize (IH w' k Hnd).
           destruct IH as (IH1 & IH2 & IH3 & IH4 & IH5 & IH6).
           { by apply Hrest. }
           rewrite (deletions_ext w' w) in * by done.
           split_and!; try done.
           rewrite IH3. simpl. rewrite <- app_assoc. reflexivity.
      * specialize (IH w k Hnd).
        destruct IH as (IH1 & IH2 & IH3 & IH4 & IH5 & IH6);
          [by apply Hrest|].
        by split_and!.
    + specialize (IH w k Hnd).
      destruct IH as (IH1 & IH2 & IH3 & IH4 & IH5 & IH6);
        [by apply Hrest|].
      by split_and!.
Qed.

Lemma elem_of_deletions w cutoff entries p :
  p ∈ (deletions w cutoff entries).*1 <->
  exists n, (p, n) ∈ entries /\ doomed w cutoff (p, n) = true.
Proof.
  unfold deletions. rewrite list_elem_of_fmap. split.
  - intros ([p' n] & -> & [Hd Hin]%list_elem_of_filter). by exists n.
  - intros (n & Hin & Hd). exists (p, n). split; [done|].
    by apply list_elem_of_filter.
Qed.

(** C7 (amended): [cleanup_old_backups] removes the files directly below
    the backup directory that are dated before now minus [keep_days] days
    and can be removed, leaves every other entry as it is, goes on after a
    failed removal, which it reports, and prints the number of removals in
    its last line; the call itself evaluates to [None]. *)
Theorem cleanup_old_backups_spec E loc keep_days w :
  let cutoff_date := (clock E (reads w) - keep_days * day)%Z in
  let entries := glob_star w (backup_dir loc) in
  let r := cleanup_old_backups E loc keep_days w in
  r.2 = None /\
  (forall p,
     fs r.1 !! p =
       match fs w !! p with
       | Some (File c m) =>
           if bool_decide (p <> [] /\ parent p = backup_dir loc /\
                           (m < cutoff_date)%Z /\ p ∉ protected w)
           then None else Some (File c m)
       | other => other
       end) /\
  out r.1 = out w ++ concat (cleanup_events w cutoff_date <$> entries)
              ++ [CleanupCompleted (length (deletions w cutoff_date entries))] /\
  size (fs r.1) + length (deletions w cutoff_date entries) = size (fs w).
Proof.
  intros cutoff_date entries r. subst r. unfold cleanup_old_backups.
  fold cutoff_date. change (glob_star (tick w) (backup_dir loc)) with entries.
  pose proof (cleanup_loop_spec cutoff_date entries (tick w) 0
                (NoDup_glob_star w (backup_dir loc))) as Hloop.
  destruct Hloop as (H1 & H2 & H3 & H4 & H5 & H6).
  { intros p n Hin%elem_of_glob_star. simpl. tauto. }
  rewrite (deletions_ext (tick w) w) in * by done.
  destruct (cleanup_loop cutoff_date entries (tick w) 0) as [w' k] eqn:Hrun.
  cbn [fst snd] in *. split_and!.
  - done.
  - intros p. specialize (H6 p). rewrite elem_of_deletions in H6.
    destruct H6 as [Hdel Hkeep]. simpl in Hkeep.
    destruct (fs w !! p) as [[c m|]|] eqn:Hp.
    + case_bool_decide as Hcond.
      * apply Hdel. exists (File c m). split.
        -- apply elem_of_glob_star. tauto.
        -- unfold doomed. simpl. apply andb_true_intro. split.
           ++ apply Z.ltb_lt. tauto.
           ++ apply bool_decide_eq_true. tauto.
      * apply Hkeep. intros (n & Hin%elem_of_glob_star & Hd).
        destruct Hin as (Hn & ? & ?). rewrite Hp in Hn. injection Hn as <-.
        unfold doomed in Hd. simpl in Hd.
        apply andb_prop in Hd as [Hm%Z.ltb_lt Hprot%bool_decide_eq_true].
        tauto.
    + apply Hkeep. intros (n & Hin%elem_of_glob_star & Hd).
      destruct Hin as (Hn & ? & ?). rewrite Hp in Hn. injection Hn as <-.
      done.
    + apply Hkeep. intros (n & Hin%elem_of_glob_star & Hd).
      destruct Hin as (Hn & ? & ?). by rewrite Hp in Hn.
  - simpl. rewrite H3, H4. simpl. by rewrite <- app_assoc.
  - done.
Qed.

(** C7, as stated, fails: with one backup older than thirty days the
    removal is made and counted in the last line printed, but the value
    of the call is [None], not the count. *)
Lemma cleanup_returns_no_count :
  let r := cleanup_old_backups env_day100 loc0 30 w_old_and_new in
  fs r.1 !! ["backups"; "workflows_db_old.db.gz"] = None /\
  fs r.1 !! ["backups"; "config_new.json"]
    = Some (File (Text "{}") (90 * day)) /\
  out r.1 = [RemovedOldBackup "workflows_db_old.db.gz"; CleanupCompleted 1] /\
  r.2 <> Some 1.
Proof. vm_compute. by split_and!. Qed.

(** ** Restoring the database *)

Lemma write_file_inv E p c w w' r :
  write_file E p c w = (w', r) ->
  (r = Some tt /\ writable w p = true /\
   w' = tick (with_fs <[ p := File c (clock E (reads w)) ]> w)) \/
  (r = None /\ writable w p = false /\ w' = w).
Proof.
  unfold write_file. destruct (writable w p); intros [= <- <-]; tauto.
Qed.

Lemma copy2_inv src dst w w' r :
  copy2 src dst w = (w', r) ->
  (r = Some tt /\
   exists c m,
     lookup_node w src = Some (File c m) /\
     src <> copy_target w src dst /\
     writable w (copy_target w src dst) = true /\
     w' = with_fs <[ copy_target w src dst := File c m ]> w) \/
  (r = None /\ w' = w).
Proof.
  unfold copy2. fold (copy_target w src dst).
  destruct (lookup_node w src) as [[c m|]|]; [|intros [= <- <-]; tauto..].
  case_bool_decide; [intros [= <- <-]; tauto|].
  destruct (writable w (copy_target w src dst)) eqn:Hw;
    intros [= <- <-]; [|tauto].
  left. split; [done|]. by exists c, m.
Qed.

Lemma read_file_inv p w w' r :
  read_file p w = (w', r) -> w' = w.
Proof.
  unfold read_file.
  by destruct (lookup_node w p) as [[c m|]|]; intros [= <- <-].
Qed.

Lemma writable_nonempty w p : writable w p = true -> p <> [].
Proof.
  unfold writable, is_dir. intros H ->. simpl in H. done.
Qed.

(** The restore step writes nothing but the live database. *)
Lemma restore_from_frame E loc backup_path w w' r p :
  restore_from E loc backup_path w = (w', r) ->
  is_dir w (db_path loc) = false ->
  p <> db_path loc ->
  fs w' !! p = fs w !! p.
Proof.
  unfold restore_from. intros Hrun Hfile Hp. destruct (String.eqb _ _).
  - unfold mbind, io_bind in Hrun.
    destruct (read_file backup_path w) as [w1 [c1|]] eqn:H1;
      apply read_file_inv in H1 as ->; [|by injection Hrun as <- _].
    destruct (write_file E (db_path loc) (Binary "") w) as [w2 [[]|]] eqn:H2;
      apply write_file_inv in H2 as [(? & _ & ->)|(? & _ & ->)]; try done;
      [|by injection Hrun as <- _].
    destruct (read_file backup_path _) as [w3 [c3|]] eqn:H3;
      apply read_file_inv in H3 as ->;
      [|injection Hrun as <- _; simpl; by rewrite lookup_insert_ne].
    unfold lift in Hrun. destruct (gunzip c3) as [data|];
      [|injection Hrun as <- _; simpl; by rewrite lookup_insert_ne].
    apply write_file_inv in Hrun as [(? & _ & ->)|(? & _ & ->)]; simpl.
    + by rewrite !lookup_insert_ne.
    + by rewrite lookup_insert_ne.
  - apply copy2_inv in Hrun as [(_ & c & m & _ & _ & _ & ->)|(_ & ->)];
      [|done].
    unfold copy_target. rewrite Hfile. simpl. by rewrite lookup_insert_ne.
Qed.

Lemma save_current_inv loc w w' r :
  save_current loc w = (w', r) ->
  (path_exists w (db_path loc) = false /\ r = Some tt /\ w' = w) \/
  (path_exists w (db_path loc) = true /\ r = None /\ w' = w /\
   forall cb, with_suffix (db_path loc) ".db.backup" = Some cb ->
              (copy2 (db_path loc) cb w).2 = None) \/
  (path_exists w (db_path loc) = true /\ r = Some tt /\
   exists cb c m,
     with_suffix (db_path loc) ".db.backup" = Some cb /\
     lookup_node w (db_path loc) = Some (File c m) /\
     copy_target w (db_path loc) cb <> db_path loc /\
     (copy2 (db_path loc) cb w).2 = Some tt /\
     w' = say (CurrentDatabaseBackedUp (path_str cb))
            (with_fs <[ copy_target w (db_path loc) cb := File c m ]> w)).
Proof.
  unfold save_current. destruct (path_exists w (db_path loc)) eqn:Hex;
    [|intros [= <- <-]; tauto].
  unfold mbind, io_bind, lift.
  destruct (with_suffix (db_path loc) ".db.backup") as [cb|];
    [|intros [= <- <-]; right; left; by split_and!].
  destruct (copy2 (db_path loc) cb w) as [w1 r1] eqn:Hcopy.
  pose proof Hcopy as Hcopy'.
  apply copy2_inv in Hcopy
    as [(-> & c & m & Hsrc & Hne & Hw & ->)|(-> & ->)].
  - unfold io_say. intros [= <- <-]. right; right. split_and!; try done.
    exists cb, c, m. rewrite Hcopy'. by split_and!.
  - intros [= <- <-]. right; left. split_and!; try done.
    intros cb' [= <-]. by rewrite Hcopy'.
Qed.

(** C6 (amended): [restore_database] reports failure and changes no file
    when the backup path does not exist.  When it exists and there is a
    live database, the live database is first copied to the sibling
    [.db.backup] file; when that copy fails the restore is given up: the
    call reports failure and no file is changed.  After a successful
    restore the copy holds the database as it was before. *)
Theorem restore_database_safety_copy E loc backup_path w :
  let r := restore_database E loc backup_path w in
  (path_exists w backup_path = false ->
   r = (say BackupFileNotFound w, false)) /\
  (path_exists w backup_path = true ->
   path_exists w (db_path loc) = true ->
   (forall current_backup,
      with_suffix (db_path loc) ".db.backup" = Some current_backup ->
      (copy2 (db_path loc) current_backup w).2 = None) ->
   r = (say DatabaseRestoreFailed w, false)) /\
  (path_exists w backup_path = true ->
   r.2 = true ->
   forall c m,
     lookup_node w (db_path loc) = Some (File c m) ->
     exists current_backup,
       with_suffix (db_path loc) ".db.backup" = Some current_backup /\
       copy_target w (db_path loc) current_backup <> db_path loc /\
       fs r.1 !! copy_target w (db_path loc) current_backup
         = Some (File c m)).
Proof.
  intros r. subst r. unfold restore_database. split_and!.
  - by intros ->.
  - intros -> Hdb Hfail. simpl. unfold mbind, io_bind.
    destruct (save_current loc w) as [w1 r1] eqn:Hsave.
    apply save_current_inv in Hsave
      as [(Hex & _)|[(_ & -> & -> & _)
                   |(_ & _ & cb & c & m & Hcb & _ & _ & Hok & _)]].
    + by rewrite Hdb in Hex.
    + done.
    + specialize (Hfail cb Hcb). by rewrite Hfail in Hok.
  - intros -> Hok c m Hdb. simpl in Hok |- *. unfold mbind, io_bind in *.
    destruct (save_current loc w) as [w1 r1] eqn:Hsave.
    apply save_current_inv in Hsave
      as [(Hex & _)|[(_ & -> & _)
                   |(_ & -> & cb & c' & m' & Hcb & Hsrc & Hne & _ & ->)]].
    + unfold path_exists in Hex. by rewrite Hdb in Hex.
    + done.
    + rewrite Hdb in Hsrc. injection Hsrc as <- <-.
      exists cb. split_and!; try done.
      set (w1 := say _ (with_fs _ w)) in *.
      destruct (restore_from E loc backup_path w1) as [w2 [[]|]] eqn:Hstep;
        [|done].
      unfold io_say. simpl.
      erewrite (restore_from_frame E loc backup_path w1 w2 _ _ Hstep).
      * subst w1. simpl. by rewrite lookup_insert_eq.
      * subst w1. unfold is_dir, lookup_node in *. simpl.
        destruct (db_path loc) as [|x l] eqn:Hp; [done|].
        rewrite lookup_insert_ne by done. by rewrite Hdb.
      * done.
Qed.

(** A restore that succeeds: the safety copy holds the old database. *)
Lemma restore_safety_copy_witness :
  exists current_backup,
    with_suffix ["workflows.db"] ".db.backup" = Some current_backup /\
    copy_target w_restore ["workflows.db"] current_backup <> ["workflows.db"] /\
    fs (restore_database env0 loc0 ["backups"; "good.db"] w_restore).1
      !! copy_target w_restore ["workflows.db"] current_backup
      = Some (File (Database (Some (3, Some 2))) 9).
Proof.
  apply (proj2 (proj2 (restore_database_safety_copy env0 loc0
                         ["backups"; "good.db"] w_restore)));
    vm_compute; reflexivity.
Defined.


(** C6, as stated, fails: when the safety copy cannot be written the call
    reports failure and the live database is left as it was, although the
    copy from the backup would have succeeded. *)
Lemma restore_blocked_by_failed_safety_copy :
  let r := restore_database env0 loc0 ["backups"; "good.db"] w_protected_copy in
  (copy2 ["workflows.db"] ["workflows.db.backup"] w_protected_copy).2 = None /\
  (copy2 ["backups"; "good.db"] ["workflows.db"] w_protected_copy).2
    = Some tt /\
  r.2 = false /\
  fs r.1 !! ["workflows.db"] = Some (File (Database (Some (3, Some 2))) 9) /\
  fs r.1 !! ["workflows.db.backup"] = Some (File (Database None) 1) /\
  out r.1 = [DatabaseRestoreFailed].
Proof. vm_compute. by split_and!. Qed.

(** ** The full backup *)

Section FullBackup.

Variable E : env.
Variable loc : locations.

Lemma lookup_node_snoc w (d : path) x : lookup_node w (d ++ [x]) = fs w !! (d ++ [x]).
Proof. by destruct d. Qed.

Lemma parent_snoc (d : path) x : parent (d ++ [x]) = d.
Proof. apply removelast_last. Qed.

Lemma snoc_ne (d : path) x : d <> d ++ [x].
Proof.
  intros H. apply (f_equal length) in H. rewrite length_app in H. simpl in H.
  lia.
Qed.

Lemma writable_child w x :
  healthy loc w -> writable w (backup_dir loc ++ [x]) = true.
Proof.
  intros (Hdir & Hprot & Hnodir). unfold writable.
  rewrite parent_snoc, Hdir, Hprot. unfold is_dir. rewrite lookup_node_snoc.
  specialize (Hnodir (backup_dir loc ++ [x]) (parent_snoc _ _)).
  destruct (fs w !! (backup_dir loc ++ [x])) as [[|]|]; try done.
Qed.

Lemma healthy_ext w w' :
  fs w' = fs w -> protected w' = protected w -> healthy loc w -> healthy loc w'.
Proof.
  intros Hfs Hprot (Hdir & Hp & Hnodir). unfold healthy, is_dir, lookup_node in *.
  rewrite Hfs, Hprot. done.
Qed.

Lemma same_outside_ext w0 w w' :
  fs w' = fs w -> same_outside loc w0 w -> same_outside loc w0 w'.
Proof.
  intros Hfs H p Hp. rewrite <- (H p Hp). unfold lookup_node. by rewrite Hfs.
Qed.

Lemma healthy_insert w x c t :
  healthy loc w ->
  healthy loc (with_fs <[ backup_dir loc ++ [x] := File c t ]> w).
Proof.
  intros (Hdir & Hp & Hnodir). split_and!; [|done|].
  - unfold is_dir, lookup_node in *. simpl.
    destruct (backup_dir loc) as [|y l] eqn:Hb; [done|].
    rewrite lookup_insert_ne; [done|]. rewrite <- Hb. intros H.
    by apply (snoc_ne (backup_dir loc) x).
  - intros p Hpar. simpl. rewrite lookup_insert. case_decide; [done|].
    by apply Hnodir.
Qed.

Lemma healthy_delete w x :
  healthy loc w -> healthy loc (with_fs (delete (backup_dir loc ++ [x])) w).
Proof.
  intros (Hdir & Hp & Hnodir). split_and!; [|done|].
  - unfold is_dir, lookup_node in *. simpl.
    destruct (backup_dir loc) as [|y l] eqn:Hb; [done|].
    rewrite lookup_delete_ne; [done|]. rewrite <- Hb. intros H.
    by apply (snoc_ne (backup_dir loc) x).
  - intros p Hpar. simpl. rewrite lookup_delete. case_decide; [done|].
    by apply Hnodir.
Qed.

Lemma same_outside_insert w0 w x n :
  same_outside loc w0 w ->
  same_outside loc w0 (with_fs <[ backup_dir loc ++ [x] := n ]> w).
Proof.
  intros H p Hp. rewrite <- (H p Hp). unfold lookup_node. simpl.
  destruct p as [|y l]; [done|]. rewrite lookup_insert_ne; [done|].
  intros Heq. apply Hp. rewrite <- Heq. apply parent_snoc.
Qed.

Lemma same_outside_delete w0 w x :
  same_outside loc w0 w ->
  same_outside loc w0 (with_fs (delete (backup_dir loc ++ [x])) w).
Proof.
  intros H p Hp. rewrite <- (H p Hp). unfold lookup_node. simpl.
  destruct p as [|y l]; [done|]. rewrite lookup_delete_ne; [done|].
  intros Heq. apply Hp. rewrite <- Heq. apply parent_snoc.
Qed.

Lemma write_child w0 w x c :
  healthy loc w -> same_outside loc w0 w ->
  exists w',
    write_file E (backup_dir loc ++ [x]) c w = (w', Some tt) /\
    healthy loc w' /\ same_outside loc w0 w' /\
    reads w' = S (reads w) /\
    fs w' = <[ backup_dir loc ++ [x] := File c (clock E (reads w)) ]> (fs w).
Proof.
  intros Hh Hs. unfold write_file. rewrite (writable_child w x Hh).
  eexists. split; [done|]. split_and!; [| |done..].
  - apply (healthy_ext
             (with_fs <[ backup_dir loc ++ [x] := File c (clock E (reads w)) ]> w));
      [done..|by apply healthy_insert].
  - apply (same_outside_ext w0
             (with_fs <[ backup_dir loc ++ [x] := File c (clock E (reads w)) ]> w));
      [done|by apply same_outside_insert].
Qed.

Lemma read_config_files_frame files : forall w,
  fs (read_config_files E files w).1 = fs w /\
  protected (read_config_files E files w).1 = protected w /\
  reads (read_config_files E files w).1 = reads w.
Proof.
  induction files as [|f files IH]; intros w; [done|].
  cbn [read_config_files].
  destruct (lookup_node w [f]) as [[c m|]|].
  - destruct (is_text c).
    + specialize (IH w). revert IH.
      destruct (read_config_files E files w) as [w' l]. simpl. tauto.
    + apply (IH (say _ w)).
  - apply (IH (say _ w)).
  - apply IH.
Qed.

(** With a usable backup directory the database backup succeeds. *)
Lemma backup_database_healthy w dbc m :
  healthy loc w ->
  lookup_node w (db_path loc) = Some (File (Database dbc) m) ->
  parent (db_path loc) <> backup_dir loc ->
  exists p w',
    backup_database E loc w = (w', Some p) /\
    healthy loc w' /\ same_outside loc w w'.
Proof.
  intros Hh Hdb Hpar. unfold backup_database, path_exists.
  rewrite Hdb. cbn [negb create_timestamp].
  set (nm := "workflows_db_" +:+ strftime E (clock E (reads w)) +:+ ".db").
  unfold mbind, io_bind, sqlite_backup.
  change (lookup_node (tick w) (db_path loc)) with (lookup_node w (db_path loc)).
  rewrite Hdb. cbn [as_database].
  destruct (write_child w (tick w) nm (Database dbc))
    as (w1 & -> & Hh1 & Hs1 & _ & Hl1); [done..|].
  unfold lift, with_suffix. rewrite last_snoc, parent_snoc.
  change (String.eqb nm "") with false. cbn iota.
  unfold read_file. rewrite lookup_node_snoc, Hl1, lookup_insert_eq.
  destruct (write_child w w1 (stem nm +:+ ".db.gz") (Gzip (Database dbc)))
    as (w2 & -> & Hh2 & Hs2 & _ & Hl2); [done..|].
  unfold unlink, is_file. rewrite lookup_node_snoc.
  assert (exists c t, fs w2 !! (backup_dir loc ++ [nm]) = Some (File c t))
    as (c & t & ->).
  { rewrite Hl2, lookup_insert. case_decide; [by eexists _, _|].
    rewrite Hl1, lookup_insert_eq. by eexists _, _. }
  destruct Hh2 as (Hd2 & Hp2 & Hn2). rewrite Hp2.
  cbn [andb]. rewrite bool_decide_eq_true_2 by set_solver.
  unfold io_say. eexists _, _. split; [done|]. split.
  - apply (healthy_ext (with_fs (delete (backup_dir loc ++ [nm])) w2));
      [done..|by apply healthy_delete].
  - apply (same_outside_ext w (with_fs (delete (backup_dir loc ++ [nm])) w2));
      [done|by apply same_outside_delete].
Qed.

(** With a usable backup directory the configuration backup succeeds. *)
Lemma backup_config_healthy w0 w :
  healthy loc w -> same_outside loc w0 w ->
  exists p w',
    backup_config E loc w = (w', Some p) /\
    healthy loc w' /\ same_outside loc w0 w'.
Proof.
  intros Hh Hs. unfold backup_config. cbn [create_timestamp].
  pose proof (read_config_files_frame config_files (tick w)) as (Hf & Hp & _).
  destruct (read_config_files E config_files (tick w)) as [w1 files].
  cbn [fst] in Hf, Hp.
  assert (healthy loc w1) as Hh1 by (by apply (healthy_ext w)).
  assert (same_outside loc w0 w1) as Hs1 by (by apply (same_outside_ext w0 w)).
  unfold mbind, io_bind.
  set (nm := "config_" +:+ strftime E (clock E (reads w)) +:+ ".json").
  destruct (write_child w0 w1 nm
              (ConfigSnapshot (strftime E (clock E (reads w))) files))
    as (w2 & -> & Hh2 & Hs2 & _); [done..|].
  unfold io_say. eexists _, _. split; [done|]. split.
  - by apply (healthy_ext w2).
  - by apply (same_outside_ext w0 w2).
Qed.

Lemma get_backup_stats_frame w :
  fs (get_backup_stats E loc w).1 = fs w /\
  protected (get_backup_stats E loc w).1 = protected w /\
  reads (get_backup_stats E loc w).1 = reads w.
Proof.
  unfold get_backup_stats.
  by destruct (lookup_node w (db_path loc))
    as [[[| |[[total [act|]]|]| | | |] m|]|].
Qed.

Lemma writable_ext w w' p :
  fs w' = fs w -> protected w' = protected w -> writable w' p = writable w p.
Proof.
  intros Hf Hp. unfold writable, is_dir, lookup_node. by rewrite Hf, Hp.
Qed.

End FullBackup.

(** C8 (amended): [create_full_backup] runs the three backups one after
    the other whatever each of them returns, and records what they
    returned; it then writes the manifest with these components and the
    statistics when the manifest file can be written, and otherwise
    reports that the manifest could not be created and returns no manifest
    entry.  It always ends by reporting completion.  With a usable backup
    directory, a database and no workflow directory, the manifest is
    written with the workflows component absent and the database and
    configuration components present. *)
Theorem create_full_backup_manifest E loc w :
  let r := create_full_backup E loc w in
  let d := backup_database E loc (say FullBackupStarted w) in
  let f := backup_workflows E loc d.1 in
  let c := backup_config E loc f.1 in
  let timestamp := strftime E (clock E (reads c.1)) in
  let manifest_path :=
    backup_dir loc ++ ["backup_manifest_" +:+ timestamp +:+ ".json"] in
  let comps := {| database := d.2; workflows := f.2; config := c.2 |} in
  let written :=
    Manifest {| m_timestamp := timestamp;
                m_backup_type := "full";
                m_components := comps;
                m_stats := (get_backup_stats E loc (tick c.1)).2 |} in
  r_components r.2 = comps /\
  last (out r.1) = Some FullBackupCompleted /\
  (writable c.1 manifest_path = true ->
   r_manifest r.2 = Some (path_str manifest_path) /\
   fs r.1 !! manifest_path = Some (File written (clock E (S (reads c.1))))) /\
  (writable c.1 manifest_path = false ->
   r_manifest r.2 = None /\ fs r.1 = fs c.1 /\ ManifestFailed ∈ out r.1) /\
  (healthy loc w ->
   (exists dbc m, lookup_node w (db_path loc) = Some (File (Database dbc) m)) ->
   path_exists w (workflows_dir loc) = false ->
   parent (db_path loc) <> backup_dir loc ->
   parent (workflows_dir loc) <> backup_dir loc ->
   writable c.1 manifest_path = true /\
   exists db_backup config_backup,
     comps = {| database := Some db_backup;
                workflows := None;
                config := Some config_backup |}).
Proof.
  intros r d f c timestamp manifest_path comps written.
  pose proof (get_backup_stats_frame E loc (tick c.1)) as (Hsf & Hsp & Hsr).
  assert (r = let (w5, st) := get_backup_stats E loc (tick c.1) in
              match
                (_ ← write_file E manifest_path
                       (Manifest {| m_timestamp := timestamp;
                                    m_backup_type := "full";
                                    m_components := comps;
                                    m_stats := st |});
                 io_say (ManifestCreated (path_str manifest_path))) w5
              with
              | (w6, Some _) =>
                  (say FullBackupCompleted w6,
                   {| r_components := comps;
                      r_manifest := Some (path_str manifest_path) |})
              | (w6, None) =>
                  (say FullBackupCompleted (say ManifestFailed w6),
                   {| r_components := comps; r_manifest := None |})
              end) as Hr.
  { subst r comps manifest_path timestamp c f d. unfold create_full_backup.
    destruct (backup_database E loc (say FullBackupStarted w)) as [w1 db].
    cbn [fst snd].
    destruct (backup_workflows E loc w1) as [w2 wf]. cbn [fst snd].
    destruct (backup_config E loc w2) as [w3 cf]. cbn [fst snd].
    reflexivity. }
  subst written.
  destruct (get_backup_stats E loc (tick c.1)) as [w5 st]. cbn [fst snd] in *.
  unfold mbind, io_bind, write_file in Hr.
  rewrite (writable_ext c.1 w5 manifest_path) in Hr by done.
  rewrite Hsr in Hr. cbn [tick reads] in Hr.
  assert (healthy loc w ->
          (exists dbc m,
              lookup_node w (db_path loc) = Some (File (Database dbc) m)) ->
          path_exists w (workflows_dir loc) = false ->
          parent (db_path loc) <> backup_dir loc ->
          parent (workflows_dir loc) <> backup_dir loc ->
          writable c.1 manifest_path = true /\
          exists db_backup config_backup,
            comps = {| database := Some db_backup;
                       workflows := None;
                       config := Some config_backup |}) as Hscenario.
  { intros Hh (dbc & m & Hdb) Hwf Hpd Hpw.
    destruct (backup_database_healthy E loc (say FullBackupStarted w) dbc m)
      as (dbp & w1 & Hd & Hh1 & Hs1); [by apply (healthy_ext loc w)|done..|].
    assert (d = (w1, Some dbp)) as Hdeq by exact Hd.
    assert (f = (say WorkflowsNotFound w1, None)) as Hf.
    { unfold f. rewrite Hdeq. cbn [fst]. unfold backup_workflows.
      assert (path_exists w1 (workflows_dir loc) = false) as ->; [|done].
      unfold path_exists in *. by rewrite (Hs1 _ Hpw). }
    destruct (backup_config_healthy E loc (say FullBackupStarted w)
                (say WorkflowsNotFound w1))
      as (cfp & w3 & Hc & Hh3 & Hs3);
      [by apply (healthy_ext loc w1)|by apply (same_outside_ext loc _ w1)|].
    assert (c = (w3, Some cfp)) as Hceq by (unfold c; by rewrite Hf).
    split.
    - rewrite Hceq. by apply writable_child.
    - exists dbp, cfp. unfold comps. by rewrite Hceq, Hf, Hdeq. }
  destruct (writable c.1 manifest_path) eqn:Hw;
    cbv beta iota zeta delta [io_say] in Hr; rewrite Hr;
    cbn [fst snd r_components r_manifest].
  - split_and!; try done.
    + unfold say at 1. cbn [out]. by rewrite last_snoc.
    + intros _. split; [done|]. cbn [say with_fs tick fs].
      by rewrite lookup_insert_eq.
  - split_and!; try done.
    + unfold say at 1. cbn [out]. by rewrite last_snoc.
    + intros _. split_and!; [done|done|].
      unfold say. cbn [out]. rewrite !elem_of_app. left; right. by left.
Qed.

Lemma healthy_no_workflows : healthy loc0 w_no_workflows.
Proof.
  split_and!; [reflexivity..|]. intros p Hp Hl.
  unfold w_no_workflows, w_protected_manifest in Hl. cbn [fs] in Hl.
  rewrite lookup_insert in Hl. case_decide as H1; [by subst p|].
  rewrite lookup_insert in Hl. case_decide as H2; [done|].
  rewrite lookup_insert in Hl. case_decide as H3; [done|].
  rewrite lookup_singleton in Hl. by case_decide.
Qed.

(** A full backup with a database and no workflow directory. *)
Lemma full_backup_witness :
  exists db_backup config_backup,
    r_components (create_full_backup env0 loc0 w_no_workflows).2
      = {| database := Some db_backup;
           workflows := None;
           config := Some config_backup |}.
Proof.
  destruct (create_full_backup_manifest env0 loc0 w_no_workflows)
    as (Hcomps & _ & _ & _ & Hscenario).
  destruct Hscenario as (_ & db_backup & config_backup & Heq).
  - exact healthy_no_workflows.
  - by eexists _, _.
  - reflexivity.
  - discriminate.
  - discriminate.
  - exists db_backup, config_backup. by rewrite Hcomps.
Defined.


(** C8, as stated, fails: when the manifest file cannot be written the
    database and configuration backups are made, the failure is reported
    and no manifest is written: the file of that name is the old one. *)
Lemma full_backup_without_manifest :
  let r := create_full_backup env0 loc0 w_protected_manifest in
  r.2 = {| r_components :=
             {| database := Some "backups/workflows_db_20240101_120000.db.gz";
                workflows := None;
                config := Some "backups/config_20240101_120000.json" |};
           r_manifest := None |} /\
  fs r.1 !! ["backups"; "backup_manifest_20240101_120000.json"]
    = Some (File (Text "{}") 1) /\
  out r.1 =
    [ FullBackupStarted;
      DatabaseBackupCreated "backups/workflows_db_20240101_120000.db.gz";
      WorkflowsNotFound;
      ConfigBackupCreated "backups/config_20240101_120000.json";
      ManifestFailed;
      FullBackupCompleted ].
Proof. vm_compute. by split_and!. Qed.

(** * Further properties of the backup manager *)

Import Scenarios.

(** ** File names and suffixes *)

Lemma string_app_cons c s t : String c s +:+ t = String c (s +:+ t).
Proof. reflexivity. Qed.

Lemma string_app_nil t : "" +:+ t = t.
Proof. reflexivity. Qed.

Lemma string_length_app s t :
  String.length (s +:+ t) = String.length s + String.length t.
Proof.
  induction s as [|c s IH]; [done|].
  rewrite string_app_cons. simpl. by rewrite IH.
Qed.

Lemma string_app_assoc s t u : (s +:+ t) +:+ u = s +:+ (t +:+ u).
Proof.
  induction s as [|c s IH]; [done|]. rewrite !string_app_cons. by rewrite IH.
Qed.

Lemma substring_all t : String.substring 0 (String.length t) t = t.
Proof. induction t as [|c t IH]; simpl; [done|by rewrite IH]. Qed.

Lemma substring_app_r s t n :
  String.substring (String.length s) n (s +:+ t) = String.substring 0 n t.
Proof.
  induction s as [|c s IH]; [done|]. rewrite string_app_cons. exact IH.
Qed.

Lemma substring_app_l s t :
  String.substring 0 (String.length s) (s +:+ t) = s.
Proof.
  induction s as [|c s IH]; [by destruct t|].
  rewrite string_app_cons. simpl. by rewrite IH.
Qed.

Lemma rfind_dot_app s t : forall i found,
  rfind_dot (s +:+ t) i found
    = rfind_dot t (i + String.length s) (rfind_dot s i found).
Proof.
  induction s as [|c s IH]; intros i found.
  - rewrite string_app_nil. simpl. by rewrite Nat.add_0_r.
  - rewrite string_app_cons. simpl. rewrite IH. by rewrite Nat.add_succ_r.
Qed.

(** A name that ends with a dot and a non-empty extension without dots has
    that extension as its suffix and the rest as its stem. *)
Lemma suffix_app s ext :
  s <> "" -> ext <> "" ->
  (forall i found, rfind_dot ext i found = found) ->
  suffix (s +:+ String "." ext) = String "." ext /\
  stem (s +:+ String "." ext) = s.
Proof.
  intros Hs Hext Hdot.
  assert (suffix (s +:+ String "." ext) = String "." ext) as Hsuf.
  { unfold suffix. rewrite rfind_dot_app. cbn [rfind_dot].
    change (Ascii.eqb "." ".") with true. cbv iota. rewrite Hdot.
    rewrite string_length_app. cbn [String.length plus].
    assert (0 < String.length s) as Hlen by (destruct s; [done|simpl; lia]).
    assert (0 < String.length ext) as Hlen' by (destruct ext; [done|simpl; lia]).
    destruct (Nat.ltb_spec 0 (String.length s)) as [_|]; [|lia].
    destruct (Nat.ltb_spec (String.length s)
                (String.length s + S (String.length ext) - 1)) as [_|]; [|lia].
    cbn [andb].
    replace (String.length s + S (String.length ext) - String.length s)
      with (String.length (String "." ext)) by (simpl; lia).
    by rewrite substring_app_r, substring_all. }
  split; [done|]. unfold stem. rewrite Hsuf, string_length_app.
  replace (String.length s + String.length (String "." ext)
           - String.length (String "." ext)) with (String.length s) by lia.
  apply substring_app_l.
Qed.

Lemma with_suffix_snoc (d : path) s ext new :
  s <> "" -> ext <> "" ->
  (forall i found, rfind_dot ext i found = found) ->
  with_suffix (d ++ [s +:+ String "." ext]) new = Some (d ++ [s +:+ new]).
Proof.
  intros Hs Hext Hdot. unfold with_suffix, parent.
  rewrite last_snoc, removelast_last.
  destruct (suffix_app s ext Hs Hext Hdot) as [_ ->].
  destruct (String.eqb_spec (s +:+ String "." ext) "") as [Heq|_]; [|done].
  destruct s; [done|discriminate].
Qed.

(** ** The database backup *)

Section DatabaseBackup.

Variable E : env.
Variable loc : locations.

Lemma db_backup_name ts :
  "workflows_db_" +:+ ts +:+ ".db" = ("workflows_db_" +:+ ts) +:+ String "." "db".
Proof. by rewrite string_app_assoc. Qed.

Lemma db_backup_with_suffix ts :
  with_suffix (backup_dir loc ++ ["workflows_db_" +:+ ts +:+ ".db"]) ".db.gz"
    = Some (backup_dir loc ++ ["workflows_db_" +:+ ts +:+ ".db.gz"]).
Proof.
  rewrite db_backup_name, with_suffix_snoc by done.
  by rewrite string_app_assoc.
Qed.

Lemma db_backup_names_differ ts :
  backup_dir loc ++ ["workflows_db_" +:+ ts +:+ ".db"]
    <> backup_dir loc ++ ["workflows_db_" +:+ ts +:+ ".db.gz"].
Proof.
  intros H. apply app_inv_head in H. injection H as H.
  rewrite <- !string_app_assoc in H. by apply String.app_inj in H.
Qed.

(** The world after a database backup that meets no obstacle. *)
Lemma backup_database_run w c m d :
  healthy loc w ->
  lookup_node w (db_path loc) = Some (File c m) ->
  as_database c = Some d ->
  let ts := strftime E (clock E (reads w)) in
  let gz := backup_dir loc ++ ["workflows_db_" +:+ ts +:+ ".db.gz"] in
  let tmp := backup_dir loc ++ ["workflows_db_" +:+ ts +:+ ".db"] in
  exists w' t1 t2,
    backup_database E loc w = (w', Some (path_str gz)) /\
    fs w' = delete tmp (<[ gz := File (Gzip (Database d)) t2 ]>
                          (<[ tmp := File (Database d) t1 ]> (fs w))) /\
    protected w' = protected w /\
    out w' = out w ++ [DatabaseBackupCreated (path_str gz)] /\
    healthy loc w' /\ same_outside loc w w'.
Proof.
  intros Hh Hdb Hc ts gz tmp. unfold backup_database, path_exists.
  rewrite Hdb. cbn [negb create_timestamp]. fold ts. fold tmp.
  unfold mbind, io_bind, sqlite_backup.
  change (lookup_node (tick w) (db_path loc)) with (lookup_node w (db_path loc)).
  rewrite Hdb, Hc.
  destruct (write_child E loc w (tick w) ("workflows_db_" +:+ ts +:+ ".db")
              (Database d))
    as (w1 & Hw1 & Hh1 & Hs1 & _ & Hl1); [done..|].
  fold tmp in Hw1, Hl1. rewrite Hw1.
  unfold lift. unfold tmp at 1. rewrite db_backup_with_suffix. fold gz.
  unfold read_file. unfold tmp at 1. rewrite lookup_node_snoc. fold tmp.
  rewrite Hl1, lookup_insert_eq.
  destruct (write_child E loc w w1 ("workflows_db_" +:+ ts +:+ ".db.gz")
              (Gzip (Database d)))
    as (w2 & Hw2 & Hh2 & Hs2 & _ & Hl2); [done..|].
  fold gz in Hw2, Hl2. rewrite Hw2.
  unfold unlink, is_file. unfold tmp at 1. rewrite lookup_node_snoc. fold tmp.
  assert (fs w2 !! tmp = Some (File (Database d) (clock E (reads (tick w)))))
    as Htmp.
  { rewrite Hl2, lookup_insert_ne by (intros H; by apply (db_backup_names_differ ts)).
    by rewrite Hl1, lookup_insert_eq. }
  rewrite Htmp. destruct Hh2 as (Hd2 & Hp2 & Hn2). rewrite Hp2.
  cbn [andb]. rewrite bool_decide_eq_true_2 by set_solver.
  unfold io_say. eexists _, _, _. split; [reflexivity|].
  destruct Hh as (Hd0 & Hp0 & Hn0).
  split_and!.
  - cbn [say with_fs fs]. by rewrite Hl2, Hl1.
  - cbn [say with_fs protected]. by rewrite Hp2.
  - cbn [say with_fs out].
    assert (out w2 = out w) as ->; [|done].
    apply write_file_inv in Hw2 as [(_ & _ & ->)|(? & _)]; [|done].
    apply write_file_inv in Hw1 as [(_ & _ & ->)|(? & _)]; [|done]. done.
  - apply (healthy_ext loc (with_fs (delete tmp) w2)); [done..|].
    by apply healthy_delete.
  - apply (same_outside_ext loc w (with_fs (delete tmp) w2)); [done|].
    by apply same_outside_delete.
Qed.

End DatabaseBackup.

(** A world whose backup directory is listed without directories and where
    nothing is protected is healthy. *)
Lemma healthy_by_listing loc w :
  is_dir w (backup_dir loc) = true ->
  protected w = ∅ ->
  forallb (fun pn : path * node =>
             negb (bool_decide (parent pn.1 = backup_dir loc)) ||
             match pn.2 with Dir => false | File _ _ => true end)
          (map_to_list (fs w)) = true ->
  healthy loc w.
Proof.
  intros Hd Hp Hall. split_and!; [done..|]. intros p Hpar Hl.
  rewrite forallb_forall in Hall.
  specialize (Hall (p, Dir)). cbn [fst snd] in Hall.
  rewrite bool_decide_eq_true_2 in Hall by done.
  discriminate Hall. apply list_elem_of_In. by apply elem_of_map_to_list.
Qed.

Lemma healthy_with_workflows : healthy loc0 w_with_workflows.
Proof. apply healthy_by_listing; vm_compute; reflexivity. Qed.

(** X1: with a usable backup directory and a database kept outside it,
    [backup_database] returns the path of the compressed backup; that file
    holds the compressed copy of the database, the uncompressed
    intermediate is gone, every other path is as before and one line is
    printed. *)
Theorem backup_database_keeps_only_the_compressed_copy E loc w c m d :
  healthy loc w ->
  lookup_node w (db_path loc) = Some (File c m) ->
  as_database c = Some d ->
  parent (db_path loc) <> backup_dir loc ->
  let ts := strftime E (clock E (reads w)) in
  let compressed := backup_dir loc ++ ["workflows_db_" +:+ ts +:+ ".db.gz"] in
  let intermediate := backup_dir loc ++ ["workflows_db_" +:+ ts +:+ ".db"] in
  let r := backup_database E loc w in
  r.2 = Some (path_str compressed) /\
  (exists t, fs r.1 !! compressed = Some (File (Gzip (Database d)) t)) /\
  fs r.1 !! intermediate = None /\
  (forall p, p <> compressed -> p <> intermediate -> fs r.1 !! p = fs w !! p) /\
  out r.1 = out w ++ [DatabaseBackupCreated (path_str compressed)].
Proof.
  intros Hh Hdb Hc _ ts gz tmp r.
  destruct (backup_database_run E loc w c m d Hh Hdb Hc)
    as (w' & t1 & t2 & Hrun & Hfs & _ & Hout & _).
  fold ts in Hrun, Hfs, Hout. fold gz in Hrun, Hfs, Hout. fold tmp in Hfs.
  subst r. rewrite Hrun. cbn [fst snd]. rewrite Hfs.
  assert (tmp <> gz) as Hne by apply db_backup_names_differ.
  split_and!; [done| | | |done].
  - exists t2. by rewrite lookup_delete_ne, lookup_insert_eq.
  - by rewrite lookup_delete_eq.
  - intros p Hp1 Hp2. by rewrite lookup_delete_ne, !lookup_insert_ne.
Qed.

(** A database backup in a directory that holds no backup yet. *)
Lemma backup_database_witness :
  let r := backup_database env0 loc0 w_with_workflows in
  r.2 = Some "backups/workflows_db_20240101_120000.db.gz" /\
  (exists t,
     fs r.1 !! ["backups"; "workflows_db_20240101_120000.db.gz"]
       = Some (File (Gzip (Database (Some (3, Some 2)))) t)) /\
  fs r.1 !! ["backups"; "workflows_db_20240101_120000.db"] = None.
Proof.
  destruct (backup_database_keeps_only_the_compressed_copy env0 loc0
              w_with_workflows (Database (Some (3, Some 2))) 9
              (Some (3, Some 2)))
    as (H1 & H2 & H3 & _).
  - exact healthy_with_workflows.
  - reflexivity.
  - reflexivity.
  - discriminate.
  - split_and!; [exact H1|exact H2|exact H3].
Defined.

Lemma writable_insert_file w p q c t :
  q <> p -> q <> parent p ->
  writable (with_fs <[ q := File c t ]> w) p = writable w p.
Proof.
  intros Hp Hpar. unfold writable, is_dir, lookup_node. cbn [with_fs fs protected].
  destruct p as [|x l]; [done|].
  rewrite (lookup_insert_ne _ q (x :: l)) by done.
  destruct (parent (x :: l)) as [|y l'] eqn:Hpp; [done|].
  by rewrite lookup_insert_ne.
Qed.

(** X2: when the compressed file cannot be written, for example because a
    read-only backup of the same second is in the way, [backup_database]
    reports failure and returns nothing, and the uncompressed copy it has
    already made stays in the backup directory: the failure branch removes
    nothing. *)
Theorem failed_compression_leaves_uncompressed_copy E loc w c m d :
  lookup_node w (db_path loc) = Some (File c m) ->
  as_database c = Some d ->
  let ts := strftime E (clock E (reads w)) in
  let compressed := backup_dir loc ++ ["workflows_db_" +:+ ts +:+ ".db.gz"] in
  let intermediate := backup_dir loc ++ ["workflows_db_" +:+ ts +:+ ".db"] in
  writable w intermediate = true ->
  writable w compressed = false ->
  let r := backup_database E loc w in
  r.2 = None /\
  fs r.1 = <[ intermediate := File (Database d) (clock E (S (reads w))) ]> (fs w) /\
  out r.1 = out w ++ [DatabaseBackupFailed].
Proof.
  intros Hdb Hc ts gz tmp Hwt Hwg r.
  assert (r = (say DatabaseBackupFailed
                 (tick (with_fs <[ tmp := File (Database d)
                                            (clock E (S (reads w))) ]>
                          (tick w))), None)) as ->; [|done].
  subst r. unfold backup_database, path_exists.
  rewrite Hdb. cbn [negb create_timestamp]. fold ts. fold tmp.
  unfold mbind, io_bind, sqlite_backup.
  change (lookup_node (tick w) (db_path loc)) with (lookup_node w (db_path loc)).
  rewrite Hdb, Hc. unfold write_file at 1.
  rewrite (writable_ext w (tick w)) by done. rewrite Hwt.
  unfold lift. unfold tmp at 1. rewrite db_backup_with_suffix. fold gz.
  unfold read_file. unfold tmp at 2. rewrite lookup_node_snoc. fold tmp.
  cbn [tick with_fs fs]. rewrite lookup_insert_eq.
  unfold write_file.
  match goal with
  | |- context [writable ?w1 gz] =>
      assert (writable w1 gz = false) as ->
  end.
  { rewrite <- Hwg.
    rewrite <- (writable_insert_file w gz tmp (Database d)
                  (clock E (S (reads w)))).
    - by apply writable_ext.
    - apply db_backup_names_differ.
    - unfold gz. rewrite parent_snoc. unfold tmp. intros H.
      symmetry in H. by apply snoc_ne in H. }
  done.
Qed.

(** A read-only backup of the same second is in the way. *)
Lemma failed_compression_witness :
  let r := backup_database env0 loc0 w_protected_gz in
  r.2 = None /\
  fs r.1 = <[ ["backups"; "workflows_db_20240101_120000.db"] :=
                File (Database (Some (3, Some 2))) 1000000 ]>
             (fs w_protected_gz) /\
  out r.1 = [DatabaseBackupFailed].
Proof.
  apply (failed_compression_leaves_uncompressed_copy env0 loc0 w_protected_gz
           (Database (Some (3, Some 2))) 9 (Some (3, Some 2)));
    vm_compute; reflexivity.
Defined.

(** ** The archive of the workflow files *)

Lemma string_app_nil_r s : s +:+ "" = s.
Proof. induction s as [|c s IH]; [done|]. by rewrite string_app_cons, IH. Qed.

Lemma archive_base_name (d : path) ts :
  with_suffix (d ++ ["workflows_files_" +:+ ts +:+ ".tar.gz"]) ""
    = Some (d ++ ["workflows_files_" +:+ ts +:+ ".tar"]).
Proof.
  assert ("workflows_files_" +:+ ts +:+ ".tar.gz"
          = ("workflows_files_" +:+ ts +:+ ".tar") +:+ String "." "gz") as ->
    by (by rewrite !string_app_assoc).
  rewrite with_suffix_snoc; [by rewrite string_app_nil_r|done..].
Qed.

Lemma archive_names_differ (d : path) ts :
  d ++ ["workflows_files_" +:+ ts +:+ ".tar.gz"]
    <> d ++ ["workflows_files_" +:+ ts +:+ ".tar.tar.gz"].
Proof.
  intros H. apply app_inv_head in H. injection H as H.
  rewrite <- !string_app_assoc in H. by apply String.app_inj in H.
Qed.

(** The world after a workflow backup that meets no obstacle. *)
Lemma backup_workflows_run E loc w :
  healthy loc w ->
  path_exists w (workflows_dir loc) = true ->
  let ts := strftime E (clock E (reads w)) in
  let returned := backup_dir loc ++ ["workflows_files_" +:+ ts +:+ ".tar.gz"] in
  let written :=
    backup_dir loc ++ ["workflows_files_" +:+ ts +:+ ".tar.tar.gz"] in
  backup_workflows E loc w =
    (say (WorkflowsBackupCreated (path_str returned))
       (tick (with_fs
                <[ written :=
                     File (Archive (name (workflows_dir loc))
                             (files_below w (workflows_dir loc)))
                          (clock E (S (reads w))) ]>
                (tick w))),
     Some (path_str returned)).
Proof.
  intros Hh Hex ts returned written. unfold backup_workflows. rewrite Hex.
  cbn [negb create_timestamp]. fold ts. fold returned.
  unfold mbind, io_bind, lift. unfold returned at 1.
  rewrite archive_base_name. unfold make_archive.
  rewrite parent_snoc. unfold name at 1. rewrite last_snoc.
  cbn [default]. unfold id.
  assert (("workflows_files_" +:+ ts +:+ ".tar") +:+ ".tar.gz"
          = "workflows_files_" +:+ ts +:+ ".tar.tar.gz") as ->
    by (by rewrite !string_app_assoc).
  fold written. unfold write_file.
  rewrite (writable_ext w (tick w)) by done.
  unfold written at 1. rewrite (writable_child loc w) by done.
  reflexivity.
Qed.

(** X3: with a usable backup directory and an existing workflow
    directory, [backup_workflows] writes the archive of the files below
    that directory to a file whose name ends in [.tar.tar.gz], because
    [make_archive] appends the extension to a base name that still ends
    in [.tar]; the path it prints and returns ends in [.tar.gz] and is
    not written: what was or was not at that path before is unchanged. *)
Theorem backup_workflows_returns_a_path_it_does_not_write E loc w :
  healthy loc w ->
  path_exists w (workflows_dir loc) = true ->
  let ts := strftime E (clock E (reads w)) in
  let returned := backup_dir loc ++ ["workflows_files_" +:+ ts +:+ ".tar.gz"] in
  let written :=
    backup_dir loc ++ ["workflows_files_" +:+ ts +:+ ".tar.tar.gz"] in
  let r := backup_workflows E loc w in
  r.2 = Some (path_str returned) /\
  returned <> written /\
  fs r.1 !! written
    = Some (File (Archive (name (workflows_dir loc))
                    (files_below w (workflows_dir loc)))
              (clock E (S (reads w)))) /\
  (forall p, p <> written -> fs r.1 !! p = fs w !! p) /\
  out r.1 = out w ++ [WorkflowsBackupCreated (path_str returned)].
Proof.
  intros Hh Hex ts returned written r. subst r.
  rewrite (backup_workflows_run E loc w Hh Hex). fold ts returned written.
  cbn [fst snd say tick with_fs fs out]. split_and!; try done.
  - apply archive_names_differ.
  - by rewrite lookup_insert_eq.
  - intros p Hp. by rewrite lookup_insert_ne.
Qed.

(** A workflow directory with a file and a subdirectory. *)
Lemma backup_workflows_witness :
  let r := backup_workflows env0 loc0 w_with_workflows in
  r.2 = Some "backups/workflows_files_20240101_120000.tar.gz" /\
  fs r.1 !! ["backups"; "workflows_files_20240101_120000.tar.gz"] = None /\
  is_Some (fs r.1 !! ["backups"; "workflows_files_20240101_120000.tar.tar.gz"]).
Proof.
  destruct (backup_workflows_returns_a_path_it_does_not_write env0 loc0
              w_with_workflows healthy_with_workflows)
    as (H1 & H2 & H3 & H4 & _).
  - reflexivity.
  - split_and!.
    + exact H1.
    + etrans; [exact (H4 _ H2)|reflexivity].
    + eexists. exact H3.
Defined.

(** ** The configuration snapshot *)

(** The loop over the configuration files in closed form: the entries
    are those of the files that exist and can be read as text, in the
    order of the list. *)
Lemma read_config_files_entries E files : forall w,
  (read_config_files E files w).2 =
  omap (fun f =>
          match fs w !! [f] with
          | Some (File c m) =>
              if is_text c then Some (f, (c, size_of E (File c m), m)) else None
          | _ => None
          end) files.
Proof.
  induction files as [|f files IH]; intros w; [done|].
  cbn [read_config_files omap list_omap lookup_node].
  destruct (fs w !! [f]) as [[c m|]|] eqn:Hf.
  - destruct (is_text c).
    + specialize (IH w). destruct (read_config_files E files w) as [w' l].
      cbn [snd] in *. by rewrite IH.
    + apply (IH (say _ w)).
  - apply (IH (say _ w)).
  - apply IH.
Qed.

(** X4: [backup_config] depends on the configuration files only for what
    it records: it writes its snapshot whenever the snapshot file can be
    written, and the snapshot then lists, in the order of the fixed list
    of five names, exactly those that exist in the current directory and
    can be read as text, each with its content, size and date.  No other
    path is changed.  When the snapshot file cannot be written the call
    returns nothing and changes no file. *)
Theorem backup_config_snapshot E loc w :
  let ts := strftime E (clock E (reads w)) in
  let snapshot := backup_dir loc ++ ["config_" +:+ ts +:+ ".json"] in
  let r := backup_config E loc w in
  (writable w snapshot = true ->
   r.2 = Some (path_str snapshot) /\
   (exists files,
      fs r.1 !! snapshot
        = Some (File (ConfigSnapshot ts files) (clock E (S (reads w)))) /\
      files.*1 =
        filter (fun f => match fs w !! [f] with
                         | Some (File c _) => is_text c
                         | _ => false
                         end = true) config_files /\
      forall f c sz m,
        (f, (c, sz, m)) ∈ files ->
        fs w !! [f] = Some (File c m) /\ sz = size_of E (File c m)) /\
   forall p, p <> snapshot -> fs r.1 !! p = fs w !! p) /\
  (writable w snapshot = false ->
   r.2 = None /\ fs r.1 = fs w /\ last (out r.1) = Some ConfigBackupFailed).
Proof.
  intros ts snapshot r.
  pose proof (read_config_files_frame E config_files (tick w)) as (Hf & Hp & Hr).
  pose proof (read_config_files_entries E config_files (tick w)) as Hent.
  assert (r = let (w1, files) := read_config_files E config_files (tick w) in
              match
                (_ ← write_file E snapshot (ConfigSnapshot ts files);
                 _ ← io_say (ConfigBackupCreated (path_str snapshot));
                 mret (path_str snapshot)) w1
              with
              | (w2, Some p) => (w2, Some p)
              | (w2, None) => (say ConfigBackupFailed w2, None)
              end) as ->.
  { subst r. unfold backup_config. cbn [create_timestamp]. reflexivity. }
  destruct (read_config_files E config_files (tick w)) as [w1 files].
  cbn [fst snd] in Hf, Hp, Hr, Hent.
  unfold mbind, io_bind, write_file.
  rewrite (writable_ext (tick w) w1) by done.
  rewrite (writable_ext w (tick w)) by done.
  split; intros ->.
  - cbn [fst snd io_say say tick with_fs fs mret io_ret]. split_and!.
    + done.
    + exists files. rewrite lookup_insert_eq, Hr. split_and!; [done| |].
      * rewrite Hent. cbn [tick fs]. clear.
        induction config_files as [|f l IH]; [done|].
        cbn [omap list_omap]. rewrite filter_cons.
        destruct (fs w !! [f]) as [[c m|]|]; [|by rewrite decide_False..].
        destruct (is_text c).
        -- rewrite decide_True by done. cbn [fmap list_fmap fst]. by rewrite IH.
        -- by rewrite decide_False.
      * intros f c sz m Hin. rewrite Hent in Hin.
        apply list_elem_of_omap in Hin as (f' & _ & Hf').
        cbn [tick fs] in Hf'.
        destruct (fs w !! [f']) as [[c' m'|]|] eqn:Hl; [|done..].
        destruct (is_text c'); [|done]. by simplify_eq.
    + intros p Hne. rewrite lookup_insert_ne by done. by rewrite Hf.
  - cbn [fst snd say out fs]. split_and!; [done|by rewrite Hf|].
    by rewrite last_snoc.
Qed.

(** Of the five configuration files only [requirements.txt] exists. *)
Lemma backup_config_witness :
  let r := backup_config env0 loc0 w_no_workflows in
  r.2 = Some "backups/config_20240101_120000.json" /\
  fs r.1 !! ["backups"; "config_20240101_120000.json"]
    = Some (File (ConfigSnapshot "20240101_120000"
                    [("requirements.txt", (Text "flask", 0%Z, 3%Z))])
              1000000).
Proof.
  destruct (proj1 (backup_config_snapshot env0 loc0 w_no_workflows))
    as (H1 & _ & _).
  - reflexivity.
  - split; [exact H1|]. vm_compute. reflexivity.
Defined.

(** ** Restoring: what ends up where *)

Lemma last_Some_snoc {A} (l : list A) x : last l = Some x -> l = removelast l ++ [x].
Proof.
  intros H. apply last_Some in H as [l' ->]. by rewrite removelast_last.
Qed.

(** The safety copy is a sibling of the database file and never the
    database file itself. *)
Lemma with_suffix_backup_sibling p cb :
  with_suffix p ".db.backup" = Some cb ->
  cb <> p /\ parent cb = parent p /\ cb <> [] /\ cb <> parent p.
Proof.
  unfold with_suffix. destruct (last p) as [nm|] eqn:Hlast; [|done].
  destruct (String.eqb nm ""); [done|]. intros [= <-].
  apply last_Some_snoc in Hlast. fold (parent p) in Hlast.
  split_and!.
  - rewrite Hlast at 2. intros H. apply app_inv_head in H. injection H as H.
    assert (stem nm = stem nm +:+ ".db") as Hstem.
    { rewrite <- H at 1.
      assert (stem nm +:+ ".db.backup"
              = (stem nm +:+ ".db") +:+ String "." "backup") as ->
        by (by rewrite string_app_assoc).
      apply suffix_app; [|done..].
      intros Hnil. apply (f_equal String.length) in Hnil.
      rewrite string_length_app in Hnil. simpl in Hnil. lia. }
    apply (f_equal String.length) in Hstem.
    rewrite string_length_app in Hstem. simpl in Hstem. lia.
  - apply removelast_last.
  - by destruct (parent p).
  - intros H. symmetry in H. by apply snoc_ne in H.
Qed.

Lemma lookup_node_insert_ne w q n p :
  p <> q -> lookup_node (with_fs <[ q := n ]> w) p = lookup_node w p.
Proof.
  intros Hne. destruct p as [|x l]; [done|]. cbn [lookup_node with_fs fs].
  by rewrite lookup_insert_ne.
Qed.

Lemma lookup_node_insert_eq w q n :
  q <> [] -> lookup_node (with_fs <[ q := n ]> w) q = Some n.
Proof.
  intros Hne. destruct q as [|x l]; [done|]. cbn [lookup_node with_fs fs].
  by rewrite lookup_insert_eq.
Qed.

(** The world after the safety copy has been made. *)
Lemma save_current_ready loc w cb :
  restore_ready loc w cb ->
  exists w1,
    save_current loc w = (w1, Some tt) /\
    protected w1 = ∅ /\ reads w1 = reads w /\
    (forall p, p <> cb -> lookup_node w1 p = lookup_node w p) /\
    lookup_node w1 cb =
      match lookup_node w (db_path loc) with
      | Some (File c m) => Some (File c m)
      | _ => lookup_node w cb
      end /\
    out w1 = out w ++
      match lookup_node w (db_path loc) with
      | Some _ => [CurrentDatabaseBackedUp (path_str cb)]
      | None => []
      end.
Proof.
  intros (Hprot & Hpar & Hdb & Hcb & Hcbdir).
  destruct (with_suffix_backup_sibling _ _ Hcb) as (Hne & Hpc & Hnil & Hnp).
  unfold save_current, path_exists.
  destruct (lookup_node w (db_path loc)) as [[c m|]|] eqn:Hl.
  - unfold mbind, io_bind, lift. rewrite Hcb. unfold copy2, copy_target.
    rewrite Hl, Hcbdir. rewrite bool_decide_eq_false_2 by done.
    assert (writable w cb = true) as ->.
    { unfold writable. rewrite Hpc, Hpar, Hcbdir, Hprot.
      by rewrite bool_decide_eq_true_2 by set_solver. }
    unfold io_say. eexists. split; [reflexivity|]. split_and!; try done.
    + intros p Hp. by apply lookup_node_insert_ne.
    + by apply lookup_node_insert_eq.
  - unfold is_dir in Hdb. by rewrite Hl in Hdb.
  - exists w. split_and!; try done. by rewrite app_nil_r.
Qed.

(** After the safety copy the live database can still be written. *)
Lemma db_writable_after_save loc w w1 cb :
  restore_ready loc w cb ->
  protected w1 = ∅ ->
  (forall p, p <> cb -> lookup_node w1 p = lookup_node w p) ->
  writable w1 (db_path loc) = true /\ is_dir w1 (db_path loc) = false.
Proof.
  intros (Hprot & Hpar & Hdb & Hcb & Hcbdir) Hp1 Hsame.
  destruct (with_suffix_backup_sibling _ _ Hcb) as (Hne & Hpc & Hnil & Hnp).
  assert (is_dir w1 (db_path loc) = false) as Hd1.
  { unfold is_dir in *. by rewrite Hsame. }
  split; [|done]. unfold writable. rewrite Hd1, Hp1.
  unfold is_dir in *. rewrite Hsame by done.
  by destruct (lookup_node w (parent (db_path loc))) as [[]|].
Qed.

Lemma parent_ne_self (p : path) : p <> [] -> parent p <> p.
Proof.
  intros Hp H. destruct (last p) as [x|] eqn:Hl.
  - apply last_Some_snoc in Hl. fold (parent p) in Hl. rewrite Hl in H at 2.
    by apply snoc_ne in H.
  - apply last_None in Hl. done.
Qed.

Lemma writable_insert_self w p c t :
  writable w p = true -> writable (with_fs <[ p := File c t ]> w) p = true.
Proof.
  intros Hw. pose proof (writable_nonempty _ _ Hw) as Hp.
  unfold writable, is_dir in *.
  rewrite lookup_node_insert_eq by done.
  rewrite lookup_node_insert_ne by (by apply parent_ne_self).
  cbn [with_fs protected].
  destruct (lookup_node w (parent p)) as [[]|]; try done.
  destruct (lookup_node w p) as [[]|]; try done.
Qed.

(** The restore step for a backup that is not compressed. *)
Lemma restore_from_plain E loc w backup_path c m :
  String.eqb (suffix (name backup_path)) ".gz" = false ->
  lookup_node w backup_path = Some (File c m) ->
  backup_path <> db_path loc ->
  writable w (db_path loc) = true ->
  is_dir w (db_path loc) = false ->
  restore_from E loc backup_path w
    = (with_fs <[ db_path loc := File c m ]> w, Some tt).
Proof.
  intros Hsuf Hl Hne Hw Hd. unfold restore_from. rewrite Hsuf.
  unfold copy2, copy_target. rewrite Hl, Hd.
  by rewrite bool_decide_eq_false_2, Hw.
Qed.

(** The restore step for a compressed backup: the live database is
    emptied before the backup is unpacked. *)
Lemma restore_from_compressed E loc w backup_path c m :
  String.eqb (suffix (name backup_path)) ".gz" = true ->
  lookup_node w backup_path = Some (File c m) ->
  backup_path <> db_path loc ->
  writable w (db_path loc) = true ->
  let emptied :=
    tick (with_fs <[ db_path loc := File (Binary "") (clock E (reads w)) ]> w) in
  restore_from E loc backup_path w =
    match gunzip c with
    | Some data =>
        (tick (with_fs <[ db_path loc := File data (clock E (S (reads w))) ]>
                 emptied), Some tt)
    | None => (emptied, None)
    end.
Proof.
  intros Hsuf Hl Hne Hw emptied. unfold restore_from. rewrite Hsuf.
  unfold mbind, io_bind, read_file at 1. rewrite Hl.
  unfold write_file at 1. rewrite Hw. fold emptied.
  unfold read_file.
  assert (lookup_node emptied backup_path = Some (File c m)) as ->.
  { unfold emptied.
    change (lookup_node (tick ?w') ?p) with (lookup_node w' p).
    by rewrite lookup_node_insert_ne. }
  unfold lift. destruct (gunzip c) as [data|]; [|done].
  unfold write_file.
  assert (writable emptied (db_path loc) = true) as ->; [|done].
  unfold emptied. rewrite (writable_ext (with_fs _ w) (tick _)) by done.
  by apply writable_insert_self.
Qed.

(** A restore in a place that is ready gets past the safety copy. *)
Lemma restore_database_ready E loc w backup_path cb c m :
  restore_ready loc w cb ->
  lookup_node w backup_path = Some (File c m) ->
  backup_path <> cb ->
  exists w1,
    restore_database E loc backup_path w =
      match restore_from E loc backup_path w1 with
      | (w2, Some _) => (say DatabaseRestored w2, true)
      | (w2, None) => (say DatabaseRestoreFailed w2, false)
      end /\
    reads w1 = reads w /\
    (forall p, p <> cb -> lookup_node w1 p = lookup_node w p) /\
    lookup_node w1 cb =
      match lookup_node w (db_path loc) with
      | Some (File c m) => Some (File c m)
      | _ => lookup_node w cb
      end /\
    out w1 = out w ++
      match lookup_node w (db_path loc) with
      | Some _ => [CurrentDatabaseBackedUp (path_str cb)]
      | None => []
      end /\
    lookup_node w1 backup_path = Some (File c m) /\
    writable w1 (db_path loc) = true /\
    is_dir w1 (db_path loc) = false.
Proof.
  intros Hready Hl Hne.
  destruct (save_current_ready loc w cb Hready)
    as (w1 & Hsave & Hp1 & Hr1 & Hsame & Hcb1 & Hout1).
  destruct (db_writable_after_save loc w w1 cb Hready Hp1 Hsame) as [Hw1 Hd1].
  exists w1. split_and!; try done.
  - unfold restore_database, path_exists. rewrite Hl. cbn [negb].
    unfold mbind, io_bind. rewrite Hsave.
    by destruct (restore_from E loc backup_path w1) as [w2 [[]|]].
  - by rewrite Hsame.
Qed.

(** X5: restoring from a backup that is not compressed, in a place that
    is ready: the call succeeds, the live database becomes a copy of the
    backup with the backup's date, the safety copy holds the database as
    it was (when there was none, no safety copy is made), and no other
    path changes. *)
Theorem restore_copies_plain_backup E loc w backup_path cb c m :
  restore_ready loc w cb ->
  lookup_node w backup_path = Some (File c m) ->
  String.eqb (suffix (name backup_path)) ".gz" = false ->
  backup_path <> db_path loc ->
  backup_path <> cb ->
  let r := restore_database E loc backup_path w in
  r.2 = true /\
  lookup_node r.1 (db_path loc) = Some (File c m) /\
  lookup_node r.1 cb =
    match lookup_node w (db_path loc) with
    | Some old => Some old
    | None => lookup_node w cb
    end /\
  (forall p, p <> db_path loc -> p <> cb ->
             lookup_node r.1 p = lookup_node w p) /\
  out r.1 = out w ++
    match lookup_node w (db_path loc) with
    | Some _ => [CurrentDatabaseBackedUp (path_str cb)]
    | None => []
    end ++ [DatabaseRestored].
Proof.
  intros Hready Hl Hsuf Hdb Hcb r.
  destruct (restore_database_ready E loc w backup_path cb c m Hready Hl Hcb)
    as (w1 & Hrun & _ & Hsame & Hcb1 & Hout1 & Hl1 & Hw1 & Hd1).
  subst r. rewrite Hrun.
  rewrite (restore_from_plain E loc w1 backup_path c m) by done.
  cbn [fst snd].
  change (lookup_node (say ?e ?w') ?p) with (lookup_node w' p).
  destruct Hready as (_ & _ & Hdbdir & Hsuffix & _).
  destruct (with_suffix_backup_sibling _ _ Hsuffix) as (Hne & _).
  pose proof (writable_nonempty _ _ Hw1) as Hnil.
  split_and!.
  - done.
  - by apply lookup_node_insert_eq.
  - rewrite lookup_node_insert_ne by done. rewrite Hcb1.
    unfold is_dir in Hdbdir.
    by destruct (lookup_node w (db_path loc)) as [[]|].
  - intros p Hp1 Hp2. rewrite lookup_node_insert_ne by done. by apply Hsame.
  - cbn [say out with_fs]. rewrite Hout1. by rewrite <- app_assoc.
Qed.

(** The backup [good.db] replaces the live database. *)
Lemma restore_plain_witness :
  let r := restore_database env0 loc0 ["backups"; "good.db"] w_restore in
  r.2 = true /\
  lookup_node r.1 ["workflows.db"] = Some (File (Database (Some (5, Some 5))) 7) /\
  lookup_node r.1 ["workflows.db.backup"]
    = Some (File (Database (Some (3, Some 2))) 9).
Proof.
  destruct (restore_copies_plain_backup env0 loc0 w_restore
              ["backups"; "good.db"] ["workflows.db.backup"]
              (Database (Some (5, Some 5))) 7)
    as (H1 & H2 & H3 & _).
  - vm_compute. by split_and!.
  - reflexivity.
  - reflexivity.
  - discriminate.
  - discriminate.
  - split_and!; [exact H1|exact H2|exact H3].
Defined.

(** X6: restoring from a compressed backup, in a place that is ready:
    the call succeeds and the live database holds what the backup
    unpacks to, as a new file; the safety copy holds the database as it
    was, and no other path changes. *)
Theorem restore_unpacks_compressed_backup E loc w backup_path cb c m data :
  restore_ready loc w cb ->
  lookup_node w backup_path = Some (File c m) ->
  String.eqb (suffix (name backup_path)) ".gz" = true ->
  gunzip c = Some data ->
  backup_path <> db_path loc ->
  backup_path <> cb ->
  let r := restore_database E loc backup_path w in
  r.2 = true /\
  lookup_node r.1 (db_path loc)
    = Some (File data (clock E (S (reads w)))) /\
  lookup_node r.1 cb =
    match lookup_node w (db_path loc) with
    | Some old => Some old
    | None => lookup_node w cb
    end /\
  (forall p, p <> db_path loc -> p <> cb ->
             lookup_node r.1 p = lookup_node w p).
Proof.
  intros Hready Hl Hsuf Hgz Hdb Hcb r.
  destruct (restore_database_ready E loc w backup_path cb c m Hready Hl Hcb)
    as (w1 & Hrun & Hr1 & Hsame & Hcb1 & Hout1 & Hl1 & Hw1 & Hd1).
  subst r. rewrite Hrun.
  rewrite (restore_from_compressed E loc w1 backup_path c m) by done.
  rewrite Hgz. cbn [fst snd].
  change (lookup_node (say ?e ?w') ?p) with (lookup_node w' p).
  change (lookup_node (tick ?w') ?p) with (lookup_node w' p).
  destruct Hready as (_ & _ & Hdbdir & Hsuffix & _).
  destruct (with_suffix_backup_sibling _ _ Hsuffix) as (Hne & _).
  pose proof (writable_nonempty _ _ Hw1) as Hnil.
  split_and!.
  - done.
  - rewrite lookup_node_insert_eq by done. by rewrite Hr1.
  - rewrite lookup_node_insert_ne by done.
    change (lookup_node (tick ?w') ?p) with (lookup_node w' p).
    rewrite lookup_node_insert_ne by done. rewrite Hcb1.
    unfold is_dir in Hdbdir.
    by destruct (lookup_node w (db_path loc)) as [[]|].
  - intros p Hp1 Hp2. rewrite lookup_node_insert_ne by done.
    change (lookup_node (tick ?w') ?p) with (lookup_node w' p).
    rewrite lookup_node_insert_ne by done. by apply Hsame.
Qed.

(** A compressed backup is restored where there is no live database. *)
Lemma restore_compressed_witness :
  let r := restore_database env_day100 loc0
             ["backups"; "workflows_db_old.db.gz"] w_old_and_new in
  r.2 = true /\
  lookup_node r.1 ["workflows.db"] = Some (File (Database None) (100 * day)) /\
  lookup_node r.1 ["workflows.db.backup"] = None.
Proof.
  destruct (restore_unpacks_compressed_backup env_day100 loc0 w_old_and_new
              ["backups"; "workflows_db_old.db.gz"] ["workflows.db.backup"]
              (Gzip (Database None)) (10 * day) (Database None))
    as (H1 & H2 & H3 & _).
  - vm_compute. by split_and!.
  - reflexivity.
  - reflexivity.
  - reflexivity.
  - discriminate.
  - discriminate.
  - split_and!; [exact H1|exact H2|exact H3].
Defined.

(** X7: restoring from a file whose name ends in [.gz] but which is not
    a gzip stream loses the content of the live database: the file is
    opened for writing, and so emptied, before the first byte of the
    backup is read.  The call reports failure; the old content survives
    only in the safety copy. *)
Theorem restore_from_bad_archive_empties_database E loc w backup_path cb c m :
  restore_ready loc w cb ->
  lookup_node w backup_path = Some (File c m) ->
  String.eqb (suffix (name backup_path)) ".gz" = true ->
  gunzip c = None ->
  backup_path <> db_path loc ->
  backup_path <> cb ->
  let r := restore_database E loc backup_path w in
  r.2 = false /\
  lookup_node r.1 (db_path loc)
    = Some (File (Binary "") (clock E (reads w))) /\
  (forall old, lookup_node w (db_path loc) = Some old ->
               lookup_node r.1 cb = Some old) /\
  last (out r.1) = Some DatabaseRestoreFailed.
Proof.
  intros Hready Hl Hsuf Hgz Hdb Hcb r.
  destruct (restore_database_ready E loc w backup_path cb c m Hready Hl Hcb)
    as (w1 & Hrun & Hr1 & Hsame & Hcb1 & Hout1 & Hl1 & Hw1 & Hd1).
  subst r. rewrite Hrun.
  rewrite (restore_from_compressed E loc w1 backup_path c m) by done.
  rewrite Hgz. cbn [fst snd].
  change (lookup_node (say ?e ?w') ?p) with (lookup_node w' p).
  change (lookup_node (tick ?w') ?p) with (lookup_node w' p).
  destruct Hready as (_ & _ & Hdbdir & Hsuffix & _).
  destruct (with_suffix_backup_sibling _ _ Hsuffix) as (Hne & _).
  pose proof (writable_nonempty _ _ Hw1) as Hnil.
  split_and!.
  - done.
  - rewrite lookup_node_insert_eq by done. by rewrite Hr1.
  - intros old Hold. rewrite lookup_node_insert_ne by done. rewrite Hcb1, Hold.
    unfold is_dir in Hdbdir. rewrite Hold in Hdbdir. by destruct old.
  - cbn [say out]. by rewrite last_snoc.
Qed.

(** The live database is emptied by a restore from a broken archive. *)
Lemma restore_bad_archive_witness :
  let r := restore_database env0 loc0 ["backups"; "broken.db.gz"] w_broken_gz in
  r.2 = false /\
  lookup_node r.1 ["workflows.db"] = Some (File (Binary "") 0) /\
  lookup_node r.1 ["workflows.db.backup"]
    = Some (File (Database (Some (3, Some 2))) 9).
Proof.
  destruct (restore_from_bad_archive_empties_database env0 loc0 w_broken_gz
              ["backups"; "broken.db.gz"] ["workflows.db.backup"]
              (Text "not a gzip stream") 7)
    as (H1 & H2 & H3 & _).
  - vm_compute. by split_and!.
  - reflexivity.
  - reflexivity.
  - reflexivity.
  - discriminate.
  - discriminate.
  - split_and!; [exact H1|exact H2|exact (H3 _ eq_refl)].
Defined.

Lemma suffix_of_safety_copy p cb :
  with_suffix p ".db.backup" = Some cb ->
  String.eqb (suffix (name cb)) ".gz" = false.
Proof.
  unfold with_suffix. destruct (last p) as [nm|]; [|done].
  destruct (String.eqb nm ""); [done|]. intros [= <-].
  unfold name. rewrite last_snoc. cbn [default from_option]. unfold id.
  assert (stem nm +:+ ".db.backup"
          = (stem nm +:+ ".db") +:+ String "." "backup") as ->
    by (by rewrite string_app_assoc).
  destruct (suffix_app (stem nm +:+ ".db") "backup") as [-> _]; [|done..].
  intros Hnil. apply (f_equal String.length) in Hnil.
  rewrite string_length_app in Hnil. simpl in Hnil. lia.
Qed.

(** X8: the safety copy cannot be used to undo a restore.  When the file
    given to [restore_database] is the safety copy itself, the first step
    overwrites it with the live database, and what is then copied back is
    the live database: the call reports success, the live database is as
    it was, and what the safety copy held is lost. *)
Theorem restoring_the_safety_copy_restores_nothing E loc w cb c m :
  restore_ready loc w cb ->
  lookup_node w (db_path loc) = Some (File c m) ->
  path_exists w cb = true ->
  let r := restore_database E loc cb w in
  r.2 = true /\
  lookup_node r.1 (db_path loc) = Some (File c m) /\
  lookup_node r.1 cb = Some (File c m) /\
  (forall p, p <> db_path loc -> p <> cb -> lookup_node r.1 p = lookup_node w p).
Proof.
  intros Hready Hdb Hex r.
  destruct (save_current_ready loc w cb Hready)
    as (w1 & Hsave & Hp1 & Hr1 & Hsame & Hcb1 & Hout1).
  destruct (db_writable_after_save loc w w1 cb Hready Hp1 Hsame) as [Hw1 Hd1].
  rewrite Hdb in Hcb1.
  pose proof Hready as (_ & _ & _ & Hsuffix & _).
  destruct (with_suffix_backup_sibling _ _ Hsuffix) as (Hne & _ & Hnil & _).
  assert (r = (say DatabaseRestored
                 (with_fs <[ db_path loc := File c m ]> w1), true)) as ->.
  { subst r. unfold restore_database. rewrite Hex. cbn [negb].
    unfold mbind, io_bind. rewrite Hsave.
    by rewrite (restore_from_plain E loc w1 cb c m)
      by (done || by eapply suffix_of_safety_copy). }
  cbn [fst snd].
  change (lookup_node (say ?e ?w') ?p) with (lookup_node w' p).
  pose proof (writable_nonempty _ _ Hw1) as Hnil'.
  split_and!; [done| | |].
  - by apply lookup_node_insert_eq.
  - by rewrite lookup_node_insert_ne.
  - intros p Hp1' Hp2. rewrite lookup_node_insert_ne by done. by apply Hsame.
Qed.

(** The earlier safety copy is lost and the database stays as it is. *)
Lemma restoring_the_safety_copy_witness :
  let r := restore_database env0 loc0 ["workflows.db.backup"] w_restore in
  lookup_node w_restore ["workflows.db.backup"] = Some (File (Database None) 1) /\
  r.2 = true /\
  lookup_node r.1 ["workflows.db"] = Some (File (Database (Some (3, Some 2))) 9) /\
  lookup_node r.1 ["workflows.db.backup"]
    = Some (File (Database (Some (3, Some 2))) 9).
Proof.
  destruct (restoring_the_safety_copy_restores_nothing env0 loc0 w_restore
              ["workflows.db.backup"] (Database (Some (3, Some 2))) 9)
    as (H1 & H2 & H3 & _).
  - vm_compute. by split_and!.
  - reflexivity.
  - reflexivity.
  - split_and!; [reflexivity|exact H1|exact H2|exact H3].
Defined.

(** ** Backup and restore together *)

Lemma suffix_of_compressed_backup d ts :
  String.eqb (suffix (name (d ++ ["workflows_db_" +:+ ts +:+ ".db.gz"]))) ".gz"
    = true.
Proof.
  unfold name. rewrite last_snoc. cbn [default from_option]. unfold id.
  assert ("workflows_db_" +:+ ts +:+ ".db.gz"
          = ("workflows_db_" +:+ ts +:+ ".db") +:+ String "." "gz") as ->
    by (by rewrite !string_app_assoc).
  by destruct (suffix_app ("workflows_db_" +:+ ts +:+ ".db") "gz") as [-> _].
Qed.

(** X9: a database backup followed by a restore from the path that the
    backup returned brings the database back: with a usable backup
    directory and a database place that is ready, the restore succeeds,
    the live database holds the rows that were backed up, and the safety
    copy holds the file that was live. *)
Theorem backup_then_restore_round_trip E loc w cb c m d :
  healthy loc w ->
  restore_ready loc w cb ->
  lookup_node w (db_path loc) = Some (File c m) ->
  as_database c = Some d ->
  parent (db_path loc) <> backup_dir loc ->
  let b := backup_database E loc w in
  exists compressed,
    b.2 = Some (path_str compressed) /\
    let r := restore_database E loc compressed b.1 in
    r.2 = true /\
    (exists t, lookup_node r.1 (db_path loc) = Some (File (Database d) t)) /\
    lookup_node r.1 cb = Some (File c m).
Proof.
  intros Hh Hready Hdb Hc Hpar b.
  destruct (backup_database_run E loc w c m d Hh Hdb Hc)
    as (w' & t1 & t2 & Hrun & Hfs & Hprot & _ & Hh' & _).
  set (ts := strftime E (clock E (reads w))) in *.
  set (gz := backup_dir loc ++ ["workflows_db_" +:+ ts +:+ ".db.gz"]) in *.
  set (tmp := backup_dir loc ++ ["workflows_db_" +:+ ts +:+ ".db"]) in *.
  subst b. rewrite Hrun. exists gz. split; [done|]. cbn [fst snd].
  pose proof Hready as (Hp0 & Hpd & Hdd & Hsuffix & Hcbd).
  destruct (with_suffix_backup_sibling _ _ Hsuffix) as (Hne & Hpc & Hnil & Hnp).
  assert (forall p, parent p <> backup_dir loc ->
                    lookup_node w' p = lookup_node w p) as Hout.
  { intros p Hp. destruct p as [|x l]; [done|]. cbn [lookup_node].
    rewrite Hfs, lookup_delete_ne, !lookup_insert_ne; [done|..];
      intros Heq; apply Hp; rewrite <- Heq; apply parent_snoc. }
  assert (lookup_node w' (parent (db_path loc))
          = lookup_node w (parent (db_path loc))) as Hpd'.
  { destruct (parent (db_path loc)) as [|x l] eqn:Hq; [done|].
    cbn [lookup_node]. destruct Hh as (_ & _ & Hnodir).
    unfold is_dir in Hpd. cbn [lookup_node] in Hpd.
    assert (forall q, parent q = backup_dir loc -> q <> x :: l) as Hq'.
    { intros q Hqp Heq. rewrite <- Heq in Hpd.
      destruct (fs w !! q) as [[]|] eqn:Ht; try done.
      by apply (Hnodir q Hqp). }
    rewrite Hfs, lookup_delete_ne, !lookup_insert_ne; [done|..];
      apply Hq'; apply parent_snoc. }
  assert (restore_ready loc w' cb) as Hready'.
  { unfold restore_ready, is_dir in *. rewrite Hprot, Hpd'.
    rewrite !Hout by congruence. done. }
  assert (lookup_node w' gz = Some (File (Gzip (Database d)) t2)) as Hgz.
  { unfold gz at 1. rewrite lookup_node_snoc. fold gz.
    rewrite Hfs, lookup_delete_ne, lookup_insert_eq; [done|].
    apply db_backup_names_differ. }
  assert (gz <> db_path loc) as Hgd.
  { intros Heq. apply Hpar. rewrite <- Heq. apply parent_snoc. }
  assert (gz <> cb) as Hgc.
  { intros Heq. apply Hpar. rewrite <- Hpc, <- Heq. apply parent_snoc. }
  destruct (restore_database_ready E loc w' gz cb _ _ Hready' Hgz Hgc)
    as (w1 & Hres & Hr1 & Hsame & Hcb1 & _ & Hl1 & Hw1 & Hd1).
  rewrite Hres.
  rewrite (restore_from_compressed E loc w1 gz _ _
             (suffix_of_compressed_backup _ _) Hl1 Hgd Hw1).
  cbn [gunzip fst snd].
  change (lookup_node (say ?e ?w0) ?p) with (lookup_node w0 p).
  change (lookup_node (tick ?w0) ?p) with (lookup_node w0 p).
  pose proof (writable_nonempty _ _ Hw1) as Hnil'.
  split_and!; [done|by eexists; apply lookup_node_insert_eq|].
  rewrite lookup_node_insert_ne by done.
  change (lookup_node (tick ?w0) ?p) with (lookup_node w0 p).
  rewrite lookup_node_insert_ne by done.
  rewrite Hcb1, Hout by done. by rewrite Hdb.
Qed.

(** Backup and restore of the example database. *)
Lemma round_trip_witness :
  let b := backup_database env0 loc0 w_with_workflows in
  exists compressed,
    b.2 = Some (path_str compressed) /\
    let r := restore_database env0 loc0 compressed b.1 in
    r.2 = true /\
    (exists t,
       lookup_node r.1 ["workflows.db"]
         = Some (File (Database (Some (3, Some 2))) t)) /\
    lookup_node r.1 ["workflows.db.backup"]
      = Some (File (Database (Some (3, Some 2))) 9).
Proof.
  apply (backup_then_restore_round_trip env0 loc0 w_with_workflows
           ["workflows.db.backup"] (Database (Some (3, Some 2))) 9
           (Some (3, Some 2))).
  - exact healthy_with_workflows.
  - vm_compute. by split_and!.
  - reflexivity.
  - reflexivity.
  - discriminate.
Defined.

(** ** The names of the artifacts and their types *)

Lemma prefix_app p a b :
  String.prefix p a = true -> String.prefix p (a +:+ b) = true.
Proof.
  revert a. induction p as [|c p IH]; intros a H;
    [by destruct (a +:+ b)|].
  destruct a as [|c' a]; [done|]. rewrite string_app_cons. simpl in *.
  destruct (ascii_dec c c'); [by apply IH|done].
Qed.

Lemma contains_app_l p a b :
  PyStr.contains p a = true -> PyStr.contains p (a +:+ b) = true.
Proof.
  induction a as [|c a IH]; intros H.
  - simpl in H. rewrite orb_false_r in H. destruct p; [|done].
    rewrite string_app_nil. by destruct b.
  - rewrite string_app_cons. cbn [PyStr.contains] in *.
    apply orb_true_iff in H as [H|H].
    + apply (prefix_app _ _ b) in H. rewrite string_app_cons in H.
      by rewrite H.
    + rewrite (IH H). by rewrite orb_true_r.
Qed.

Lemma prefix_chars c p s :
  In c (String.list_ascii_of_string p) -> String.prefix p s = true ->
  In c (String.list_ascii_of_string s).
Proof.
  revert s. induction p as [|c' p IH]; intros s Hin H; [done|].
  destruct s as [|c'' s]; [done|]. simpl in *.
  destruct (ascii_dec c' c'') as [->|]; [|done].
  destruct Hin as [->|Hin]; [by left|right; by apply IH].
Qed.

(** A string that contains [p] has every character of [p]. *)
Lemma contains_chars c p s :
  In c (String.list_ascii_of_string p) -> PyStr.contains p s = true ->
  In c (String.list_ascii_of_string s).
Proof.
  intros Hin. induction s as [|c' s IH]; intros H.
  - simpl in H. rewrite orb_false_r in H. by destruct p.
  - cbn [PyStr.contains] in H. apply orb_true_iff in H as [H|H].
    + by eapply prefix_chars.
    + right. by apply IH.
Qed.

Lemma chars_app a b :
  String.list_ascii_of_string (a +:+ b)
    = (String.list_ascii_of_string a ++ String.list_ascii_of_string b)%list.
Proof.
  induction a as [|c a IH]; [done|]. rewrite string_app_cons. simpl.
  by rewrite IH.
Qed.

(** A character that is neither a digit nor an underscore and occurs in
    neither the head nor the tail of a name does not occur in the name
    with a timestamp in between. *)
Lemma absent_from_name c head ts tail :
  timestamp_text ts = true ->
  timestamp_char c = false ->
  existsb (Ascii.eqb c) (String.list_ascii_of_string head) = false ->
  existsb (Ascii.eqb c) (String.list_ascii_of_string tail) = false ->
  ~ In c (String.list_ascii_of_string (head +:+ ts +:+ tail)).
Proof.
  intros Hts Hc Hhead Htail. rewrite !chars_app, !in_app_iff.
  assert (forall l, existsb (Ascii.eqb c) l = false -> ~ In c l) as Hno.
  { intros l Hl Hin. apply not_true_iff_false in Hl. apply Hl.
    apply existsb_exists. exists c. split; [done|apply Ascii.eqb_refl]. }
  intros [H|[H|H]]; [by apply (Hno _ Hhead)| |by apply (Hno _ Htail)].
  unfold timestamp_text in Hts. rewrite forallb_forall in Hts.
  apply Hts in H. congruence.
Qed.

Lemma not_contained c p head ts tail :
  In c (String.list_ascii_of_string p) ->
  timestamp_text ts = true ->
  timestamp_char c = false ->
  existsb (Ascii.eqb c) (String.list_ascii_of_string head) = false ->
  existsb (Ascii.eqb c) (String.list_ascii_of_string tail) = false ->
  PyStr.contains p (head +:+ ts +:+ tail) = false.
Proof.
  intros Hin Hts Hc Hhead Htail.
  destruct (PyStr.contains p (head +:+ ts +:+ tail)) eqn:H; [|done].
  apply (contains_chars c) in H; [|done].
  by apply absent_from_name in H.
Qed.

(** X10: [get_backup_type] gives every file that the manager writes its
    own kind, whatever the timestamp: the compressed database backup and
    a left-over uncompressed one are "database", the archive of the
    workflow files is "workflows" under the name it is written to as
    under the name that is returned, the configuration snapshot is
    "configuration" and the manifest is "manifest". *)
Theorem artifact_names_are_typed_by_kind ts :
  timestamp_text ts = true ->
  get_backup_type ("workflows_db_" +:+ ts +:+ ".db.gz") = "database" /\
  get_backup_type ("workflows_db_" +:+ ts +:+ ".db") = "database" /\
  get_backup_type ("workflows_files_" +:+ ts +:+ ".tar.tar.gz") = "workflows" /\
  get_backup_type ("workflows_files_" +:+ ts +:+ ".tar.gz") = "workflows" /\
  get_backup_type ("config_" +:+ ts +:+ ".json") = "configuration" /\
  get_backup_type ("backup_manifest_" +:+ ts +:+ ".json") = "manifest".
Proof.
  intros Hts. unfold get_backup_type. split_and!.
  - by rewrite (contains_app_l "db_" "workflows_db_").
  - by rewrite (contains_app_l "db_" "workflows_db_").
  - rewrite (not_contained "d" "db_" "workflows_files_" ts ".tar.tar.gz")
      by (done || by left).
    by rewrite (contains_app_l "files_" "workflows_files_").
  - rewrite (not_contained "d" "db_" "workflows_files_" ts ".tar.gz")
      by (done || by left).
    by rewrite (contains_app_l "files_" "workflows_files_").
  - rewrite (not_contained "d" "db_" "config_" ts ".json")
      by (done || by left).
    rewrite (not_contained "l" "files_" "config_" ts ".json")
      by (done || (right; right; by left)).
    by rewrite (contains_app_l "config_" "config_").
  - rewrite (not_contained "d" "db_" "backup_manifest_" ts ".json")
      by (done || by left).
    rewrite (not_contained "l" "files_" "backup_manifest_" ts ".json")
      by (done || (right; right; by left)).
    rewrite (not_contained "g" "config_" "backup_manifest_" ts ".json")
      by (done || (do 5 right; by left)).
    by rewrite (contains_app_l "manifest_" "backup_manifest_").
Qed.

(** The names of the first second of 2024. *)
Lemma artifact_names_witness :
  get_backup_type "workflows_db_20240101_120000.db.gz" = "database" /\
  get_backup_type "workflows_files_20240101_120000.tar.tar.gz" = "workflows" /\
  get_backup_type "config_20240101_120000.json" = "configuration" /\
  get_backup_type "backup_manifest_20240101_120000.json" = "manifest".
Proof.
  destruct (artifact_names_are_typed_by_kind "20240101_120000")
    as (H1 & _ & H3 & _ & H5 & H6).
  - reflexivity.
  - split_and!; [exact H1|exact H3|exact H5|exact H6].
Defined.

(** ** What the backup operations leave alone *)

Section Frames.

Variable E : env.
Variable loc : locations.

Lemma write_file_frame p c w q :
  q <> p -> fs (write_file E p c w).1 !! q = fs w !! q.
Proof.
  intros Hq. unfold write_file. destruct (writable w p); [|done].
  cbn [fst tick with_fs fs]. by rewrite lookup_insert_ne.
Qed.

Lemma unlink_frame p w q : q <> p -> fs (unlink p w).1 !! q = fs w !! q.
Proof.
  intros Hq. unfold unlink.
  destruct (is_file w p && bool_decide (p ∉ protected w)); [|done].
  cbn [fst with_fs fs]. by rewrite lookup_delete_ne.
Qed.

(** [backup_database] writes to its two files only. *)
Lemma backup_database_frame w q :
  let ts := strftime E (clock E (reads w)) in
  q <> backup_dir loc ++ ["workflows_db_" +:+ ts +:+ ".db.gz"] ->
  q <> backup_dir loc ++ ["workflows_db_" +:+ ts +:+ ".db"] ->
  fs (backup_database E loc w).1 !! q = fs w !! q.
Proof.
  intros ts Hgz Htmp. unfold backup_database.
  destruct (path_exists w (db_path loc)); [|done].
  cbn [negb create_timestamp]. fold ts.
  set (tmp := backup_dir loc ++ ["workflows_db_" +:+ ts +:+ ".db"]) in *.
  set (gz := backup_dir loc ++ ["workflows_db_" +:+ ts +:+ ".db.gz"]) in *.
  unfold mbind, io_bind, sqlite_backup.
  destruct (lookup_node (tick w) (db_path loc)) as [[c m|]|]; [|done..].
  destruct (as_database c) as [d|]; [|done].
  pose proof (write_file_frame tmp (Database d) (tick w) q Htmp) as H1.
  destruct (write_file E tmp (Database d) (tick w)) as [w1 [[]|]];
    simpl in H1; [|done].
  unfold lift. unfold tmp at 1. rewrite db_backup_with_suffix. fold gz.
  destruct (read_file tmp w1) as [w2 [data|]] eqn:H2;
    apply read_file_inv in H2 as ->; [|done].
  pose proof (write_file_frame gz (Gzip data) w1 q Hgz) as H3.
  destruct (write_file E gz (Gzip data) w1) as [w3 [[]|]];
    simpl in H3; [|simpl; congruence].
  pose proof (unlink_frame tmp w3 q Htmp) as H4.
  destruct (unlink tmp w3) as [w4 [[]|]]; simpl in H4 |- *; congruence.
Qed.

(** [backup_workflows] writes to its archive only. *)
Lemma backup_workflows_frame w q :
  let ts := strftime E (clock E (reads w)) in
  q <> backup_dir loc ++ ["workflows_files_" +:+ ts +:+ ".tar.tar.gz"] ->
  fs (backup_workflows E loc w).1 !! q = fs w !! q.
Proof.
  intros ts Hq. unfold backup_workflows.
  destruct (path_exists w (workflows_dir loc)); [|done].
  cbn [negb create_timestamp]. fold ts.
  unfold mbind, io_bind, lift. rewrite archive_base_name.
  unfold make_archive. rewrite parent_snoc. unfold name at 1.
  rewrite last_snoc. cbn [default from_option]. unfold id.
  assert (("workflows_files_" +:+ ts +:+ ".tar") +:+ ".tar.gz"
          = "workflows_files_" +:+ ts +:+ ".tar.tar.gz") as ->
    by (by rewrite !string_app_assoc).
  match goal with
  | |- context [write_file E ?p ?c ?w0] =>
      pose proof (write_file_frame p c w0 q Hq) as H1;
      destruct (write_file E p c w0) as [w1 [[]|]]
  end; simpl in H1 |- *; congruence.
Qed.

(** [backup_config] writes to its snapshot only. *)
Lemma backup_config_frame w q :
  let ts := strftime E (clock E (reads w)) in
  q <> backup_dir loc ++ ["config_" +:+ ts +:+ ".json"] ->
  fs (backup_config E loc w).1 !! q = fs w !! q.
Proof.
  intros ts Hq. unfold backup_config. cbn [create_timestamp]. fold ts.
  pose proof (read_config_files_frame E config_files (tick w)) as (Hf & _).
  destruct (read_config_files E config_files (tick w)) as [w1 files].
  simpl in Hf. unfold mbind, io_bind.
  match goal with
  | |- context [write_file E ?p ?c ?w0] =>
      pose proof (write_file_frame p c w0 q Hq) as H1;
      destruct (write_file E p c w0) as [w2 [[]|]]
  end; simpl in H1 |- *; congruence.
Qed.

Lemma child_outside (x : string) q :
  parent q <> backup_dir loc -> q <> backup_dir loc ++ [x].
Proof. intros Hq ->. apply Hq, parent_snoc. Qed.

End Frames.

(** X11: whatever the state of the world and whichever of its steps
    fail, [create_full_backup] changes nothing outside the backup
    directory: every path that does not lie directly in it, such as the
    database, the workflow files and the configuration files when they
    are kept elsewhere, is afterwards as it was before.  The same holds
    for each of the three backups on its own. *)
Theorem backups_change_only_the_backup_directory E loc w :
  same_outside loc w (backup_database E loc w).1 /\
  same_outside loc w (backup_workflows E loc w).1 /\
  same_outside loc w (backup_config E loc w).1 /\
  same_outside loc w (create_full_backup E loc w).1.
Proof.
  assert (forall w, same_outside loc w (backup_database E loc w).1) as Hdb.
  { intros w0 p Hp. destruct p as [|x l]; [done|]. cbn [lookup_node].
    apply backup_database_frame; by apply child_outside. }
  assert (forall w, same_outside loc w (backup_workflows E loc w).1) as Hwf.
  { intros w0 p Hp. destruct p as [|x l]; [done|]. cbn [lookup_node].
    apply backup_workflows_frame; by apply child_outside. }
  assert (forall w, same_outside loc w (backup_config E loc w).1) as Hcf.
  { intros w0 p Hp. destruct p as [|x l]; [done|]. cbn [lookup_node].
    apply backup_config_frame; by apply child_outside. }
  split_and!; [done..|].
  intros p Hp. unfold create_full_backup.
  pose proof (Hdb (say FullBackupStarted w) p Hp) as H1.
  destruct (backup_database E loc (say FullBackupStarted w)) as [w1 db].
  pose proof (Hwf w1 p Hp) as H2.
  destruct (backup_workflows E loc w1) as [w2 wf].
  pose proof (Hcf w2 p Hp) as H3.
  destruct (backup_config E loc w2) as [w3 cf].
  cbn [fst create_timestamp] in *.
  pose proof (get_backup_stats_frame E loc (tick w3)) as (Hs & _).
  destruct (get_backup_stats E loc (tick w3)) as [w4 st]. cbn [fst] in Hs.
  unfold mbind, io_bind.
  assert (lookup_node w4 p = lookup_node w p) as H4.
  { destruct p; [done|]. cbn [lookup_node] in *. simpl in *. congruence. }
  destruct p as [|x l]; [by destruct (write_file _ _ _ _) as [? [[]|]]|].
  cbn [lookup_node] in *.
  match goal with
  | |- context [write_file E ?q ?c ?w0] =>
      pose proof (write_file_frame E q c w0 (x :: l)
                    (child_outside loc _ _ Hp)) as H5;
      destruct (write_file E q c w0) as [w5 [[]|]]
  end; simpl in H5 |- *; congruence.
Qed.

(** A full backup leaves the database as it is. *)
Lemma backups_frame_witness :
  lookup_node (create_full_backup env0 loc0 w_with_workflows).1 ["workflows.db"]
    = lookup_node w_with_workflows ["workflows.db"].
Proof.
  apply (proj2 (proj2 (proj2
           (backups_change_only_the_backup_directory env0 loc0
              w_with_workflows)))).
  discriminate.
Defined.

(** ** The manifest and the archive *)

Ltac names_differ :=
  let H := fresh in
  intros H; apply app_inv_head in H; discriminate H.

Lemma archive_is_not_db_backup (d : path) ts ts' tail :
  d ++ ["workflows_files_" +:+ ts +:+ ".tar.gz"]
    <> d ++ ["workflows_db_" +:+ ts' +:+ tail].
Proof. names_differ. Qed.

Lemma archive_is_not_snapshot (d : path) ts ts' :
  d ++ ["workflows_files_" +:+ ts +:+ ".tar.gz"]
    <> d ++ ["config_" +:+ ts' +:+ ".json"].
Proof. names_differ. Qed.

Lemma archive_is_not_manifest (d : path) ts ts' :
  d ++ ["workflows_files_" +:+ ts +:+ ".tar.gz"]
    <> d ++ ["backup_manifest_" +:+ ts' +:+ ".json"].
Proof. names_differ. Qed.

(** X12: a full backup of a database and a workflow directory into an
    empty, usable backup directory writes a manifest whose workflows
    entry names a file that does not exist: the archive is on disk under
    another name (see X3), and nothing is at the recorded path. *)
Theorem full_backup_records_a_missing_archive E loc w c m d :
  healthy loc w ->
  (forall p, parent p = backup_dir loc -> fs w !! p = None) ->
  lookup_node w (db_path loc) = Some (File c m) ->
  as_database c = Some d ->
  path_exists w (workflows_dir loc) = true ->
  parent (db_path loc) <> backup_dir loc ->
  parent (workflows_dir loc) <> backup_dir loc ->
  let r := create_full_backup E loc w in
  exists returned manifest_path mf t,
    workflows (r_components r.2) = Some (path_str returned) /\
    parent returned = backup_dir loc /\
    fs r.1 !! returned = None /\
    r_manifest r.2 = Some (path_str manifest_path) /\
    fs r.1 !! manifest_path = Some (File (Manifest mf) t) /\
    workflows (m_components mf) = Some (path_str returned).
Proof.
  intros Hh Hempty Hdb Hc Hwf Hpd Hpw r.
  set (w0 := say FullBackupStarted w).
  assert (healthy loc w0) as Hh0 by (by apply (healthy_ext loc w)).
  destruct (backup_database_run E loc w0 c m d Hh0 Hdb Hc)
    as (w1 & t1 & t2 & Hrun1 & _ & _ & _ & Hh1 & Hs1).
  assert (path_exists w1 (workflows_dir loc) = true) as Hwf1.
  { unfold path_exists in *. by rewrite (Hs1 _ Hpw). }
  pose proof (backup_workflows_run E loc w1 Hh1 Hwf1) as Hrun2.
  cbv zeta in Hrun2.
  set (ts2 := strftime E (clock E (reads w1))) in *.
  set (returned :=
         backup_dir loc ++ ["workflows_files_" +:+ ts2 +:+ ".tar.gz"]) in *.
  set (written :=
         backup_dir loc ++ ["workflows_files_" +:+ ts2 +:+ ".tar.tar.gz"]) in *.
  set (w2 := say (WorkflowsBackupCreated (path_str returned))
               (tick (with_fs <[ written := _ ]> (tick w1)))) in *.
  assert (healthy loc w2) as Hh2.
  { apply (healthy_ext loc (with_fs <[ written := File
             (Archive (name (workflows_dir loc))
                (files_below w1 (workflows_dir loc)))
             (clock E (S (reads w1))) ]> w1)); [done..|].
    by apply healthy_insert. }
  destruct (backup_config_healthy E loc w2 w2 Hh2) as (cfp & w3 & Hrun3 & Hh3 & _);
    [done|].
  assert (fs w3 !! returned = None) as Hret3.
  { change w3 with (w3, Some cfp).1. rewrite <- Hrun3.
    rewrite backup_config_frame by apply archive_is_not_snapshot.
    subst w2. cbn [say tick with_fs fs].
    rewrite lookup_insert_ne
      by (intros H; symmetry in H; by apply archive_names_differ in H).
    change w1 with (w1, Some (path_str
      (backup_dir loc ++ ["workflows_db_" +:+ strftime E (clock E (reads w0))
                          +:+ ".db.gz"]))).1.
    rewrite <- Hrun1.
    rewrite backup_database_frame by apply archive_is_not_db_backup.
    apply Hempty, parent_snoc. }
  set (ts4 := strftime E (clock E (reads w3))).
  set (manifest_path :=
         backup_dir loc ++ ["backup_manifest_" +:+ ts4 +:+ ".json"]).
  pose proof (get_backup_stats_frame E loc (tick w3)) as (Hsf & Hsp & Hsr).
  destruct (get_backup_stats E loc (tick w3)) as [w4 st] eqn:Hstats.
  cbn [fst] in Hsf, Hsp, Hsr.
  assert (writable w4 manifest_path = true) as Hwm.
  { rewrite (writable_ext (tick w3) w4) by done.
    rewrite (writable_ext w3 (tick w3)) by done. by apply writable_child. }
  exists returned, manifest_path. eexists _, _.
  subst r. unfold create_full_backup. fold w0. rewrite Hrun1, Hrun2, Hrun3.
  cbn [create_timestamp]. fold ts4. fold manifest_path. rewrite Hstats.
  unfold mbind, io_bind, write_file. rewrite Hwm.
  cbn [io_say fst snd r_components r_manifest workflows say tick with_fs fs].
  split_and!; [done|apply parent_snoc| |done|by rewrite lookup_insert_eq|done].
  rewrite lookup_insert_ne
    by (intros H; symmetry in H; by apply archive_is_not_manifest in H).
  by rewrite Hsf.
Qed.

Lemma empty_by_listing (d : path) w :
  forallb (fun pn : path * node => negb (bool_decide (parent pn.1 = d)))
          (map_to_list (fs w)) = true ->
  forall p, parent p = d -> fs w !! p = None.
Proof.
  intros Hall p Hp. destruct (fs w !! p) as [n|] eqn:Hl; [|done].
  rewrite forallb_forall in Hall. specialize (Hall (p, n)).
  cbn [fst] in Hall. rewrite bool_decide_eq_true_2 in Hall by done.
  discriminate Hall. apply list_elem_of_In. by apply elem_of_map_to_list.
Qed.

(** A first full backup of the example database and workflow files. *)
Lemma full_backup_missing_archive_witness :
  let r := create_full_backup env0 loc0 w_with_workflows in
  exists returned manifest_path mf t,
    workflows (r_components r.2) = Some (path_str returned) /\
    parent returned = ["backups"] /\
    fs r.1 !! returned = None /\
    r_manifest r.2 = Some (path_str manifest_path) /\
    fs r.1 !! manifest_path = Some (File (Manifest mf) t) /\
    workflows (m_components mf) = Some (path_str returned).
Proof.
  apply (full_backup_records_a_missing_archive env0 loc0 w_with_workflows
           (Database (Some (3, Some 2))) 9 (Some (3, Some 2))).
  - exact healthy_with_workflows.
  - apply empty_by_listing. vm_compute. reflexivity.
  - reflexivity.
  - reflexivity.
  - reflexivity.
  - discriminate.
  - discriminate.
Defined.

(** ** Listing after a cleanup *)

Lemma elem_of_list_backups E loc w i :
  i ∈ list_backups E loc w <->
  exists p c m,
    fs w !! p = Some (File c m) /\ p <> [] /\ parent p = backup_dir loc /\
    i = {| bi_name := name p;
           bi_path := path_str p;
           bi_size := size_of E (File c m);
           bi_created := m;
           bi_type := get_backup_type (name p) |}.
Proof.
  unfold list_backups. rewrite sorted_desc_perm, list_elem_of_omap. split.
  - intros ([p n] & Hin%elem_of_glob_star & Hi).
    unfold backup_info_of in Hi. simpl in Hi.
    destruct n as [c m|]; [|done]. injection Hi as <-.
    exists p, c, m. tauto.
  - intros (p & c & m & Hfs & Hp & Hd & ->). exists (p, File c m).
    split; [by apply elem_of_glob_star|done].
Qed.

(** What [cleanup_old_backups] leaves of a file directly below the
    backup directory. *)
Lemma cleanup_keeps_file E loc keep_days w p c m :
  p <> [] -> parent p = backup_dir loc ->
  let cutoff_date := (clock E (reads w) - keep_days * day)%Z in
  fs (cleanup_old_backups E loc keep_days w).1 !! p = Some (File c m) <->
  fs w !! p = Some (File c m) /\ ((cutoff_date <= m)%Z \/ p ∈ protected w).
Proof.
  intros Hp Hpar cutoff_date. unfold cleanup_old_backups. fold cutoff_date.
  set (entries := glob_star (tick w) (backup_dir loc)).
  pose proof (cleanup_loop_spec cutoff_date entries (tick w) 0
                (NoDup_glob_star w (backup_dir loc))) as Hloop.
  destruct Hloop as (_ & _ & _ & _ & _ & H6).
  { intros p' n Hin%elem_of_glob_star. simpl. tauto. }
  rewrite (deletions_ext (tick w) w) in H6 by done.
  destruct (cleanup_loop cutoff_date entries (tick w) 0) as [w' k].
  cbn [fst snd say fs] in *.
  specialize (H6 p). rewrite elem_of_deletions in H6.
  destruct H6 as [Hdel Hkeep]. cbn [tick fs] in Hkeep.
  destruct (fs w !! p) as [n|] eqn:Hn.
  - destruct (doomed w cutoff_date (p, n)) eqn:Hdm.
    + rewrite Hdel.
      * split; [done|]. intros [[= ->] Hkept].
        unfold doomed, expired in Hdm. cbn [fst snd] in Hdm.
        apply andb_prop in Hdm as [Hm%Z.ltb_lt Hprot%bool_decide_eq_true].
        destruct Hkept; [lia|done].
      * exists n. split; [|done]. apply elem_of_glob_star. by split_and!.
    + rewrite Hkeep.
      * split; [|tauto]. intros [= ->]. split; [done|].
        unfold doomed, expired in Hdm. cbn [fst snd] in Hdm.
        apply andb_false_iff in Hdm as [Hm%Z.ltb_ge|Hprot%bool_decide_eq_false].
        -- by left.
        -- right. by destruct (decide (p ∈ protected w)).
      * intros (n' & Hin%elem_of_glob_star & Hd').
        destruct Hin as (Hn' & _ & _). cbn [tick fs] in Hn'. congruence.
  - rewrite Hkeep.
    + split; [done|by intros [? _]].
    + intros (n' & Hin%elem_of_glob_star & Hd').
      destruct Hin as (Hn' & _ & _). cbn [tick fs] in Hn'. congruence.
Qed.

(** X13: after [cleanup_old_backups], [list_backups] shows exactly the
    earlier entries that are dated at or after the cutoff or could not be
    removed; when every file can be removed these are the earlier entries
    that are not older than the cutoff. *)
Theorem list_after_cleanup E loc keep_days w :
  let cutoff_date := (clock E (reads w) - keep_days * day)%Z in
  let w' := (cleanup_old_backups E loc keep_days w).1 in
  (forall i,
     i ∈ list_backups E loc w' <->
     exists p c m,
       fs w !! p = Some (File c m) /\ p <> [] /\ parent p = backup_dir loc /\
       ((cutoff_date <= m)%Z \/ p ∈ protected w) /\
       i = {| bi_name := name p;
              bi_path := path_str p;
              bi_size := size_of E (File c m);
              bi_created := m;
              bi_type := get_backup_type (name p) |}) /\
  (protected w = ∅ ->
   forall i,
     i ∈ list_backups E loc w' <->
     i ∈ list_backups E loc w /\ (cutoff_date <= bi_created i)%Z).
Proof.
  intros cutoff_date w'.
  assert (forall i,
     i ∈ list_backups E loc w' <->
     exists p c m,
       fs w !! p = Some (File c m) /\ p <> [] /\ parent p = backup_dir loc /\
       ((cutoff_date <= m)%Z \/ p ∈ protected w) /\
       i = {| bi_name := name p;
              bi_path := path_str p;
              bi_size := size_of E (File c m);
              bi_created := m;
              bi_type := get_backup_type (name p) |}) as Hlist.
  { intros i. rewrite elem_of_list_backups. split.
    - intros (p & c & m & Hl & Hp & Hpar & ->).
      apply cleanup_keeps_file in Hl as [Hl Hk]; [|done..].
      by exists p, c, m.
    - intros (p & c & m & Hl & Hp & Hpar & Hk & ->).
      exists p, c, m. split_and!; try done.
      by apply cleanup_keeps_file. }
  split; [done|]. intros Hprot i. rewrite Hlist, elem_of_list_backups. split.
  - intros (p & c & m & Hl & Hp & Hpar & [Hk|Hk] & ->).
    + split; [by exists p, c, m|done].
    + rewrite Hprot in Hk. by apply elem_of_empty in Hk.
  - intros [(p & c & m & Hl & Hp & Hpar & ->) Hk].
    exists p, c, m. split_and!; try done. by left.
Qed.

(** Of a backup of day 10 and one of day 90, the latter is listed after
    a cleanup on day 100 that keeps thirty days. *)
Lemma list_after_cleanup_witness :
  {| bi_name := "config_new.json";
     bi_path := "backups/config_new.json";
     bi_size := 0;
     bi_created := 90 * day;
     bi_type := "configuration" |}
  ∈ list_backups env_day100 loc0
      (cleanup_old_backups env_day100 loc0 30 w_old_and_new).1.
Proof.
  apply (proj2 (list_after_cleanup env_day100 loc0 30 w_old_and_new) eq_refl).
  split.
  - apply elem_of_list_backups.
    exists ["backups"; "config_new.json"], (Text "{}"), (90 * day)%Z.
    by split_and!.
  - vm_compute. discriminate.
Defined.

(** * Further properties of the organizer *)

Section Provenance.

Variable so : gset string -> list string.

Lemma foldl_put_lookup l : forall t p c,
  foldl put t l !! p = Some c -> (p, c) ∈ l \/ t !! p = Some c.
Proof.
  induction l as [|[q d] l IH]; intros t p c H; [by right|].
  simpl in H. apply IH in H as [H|H]; [left; by right|].
  unfold put in H. cbn [fst snd] in H. rewrite lookup_insert in H.
  case_decide as Hq; [|by right]. injection H as ->. subst q. left. by left.
Qed.

Lemma elem_of_copies axis buckets files p c :
  (p, c) ∈ copies so axis buckets files -> placed so axis buckets files p c.
Proof.
  induction files as [|[n0 c0] rest IH]; [by intros ?%elem_of_nil|].
  cbn [copies]. rewrite placed_cons.
  destruct (analyze_workflow so n0 c0) as [[md|]|e] eqn:Ha;
    [|by right; apply IH|by intros ?%elem_of_nil].
  rewrite elem_of_app. intros [H|H]; [|by right; apply IH].
  apply list_elem_of_fmap in H as (b & [= -> ->] & Hb).
  left. split; [done|]. by exists md, b.
Qed.

(** What a loop leaves in the tree, whether it runs to its end or not. *)
Lemma organize_loop_sound axis buckets files st p c :
  tree (organize_loop so axis buckets files st).1 !! p = Some c ->
  placed so axis buckets files p c \/ tree st !! p = Some c.
Proof.
  rewrite tree_organize_loop. intros [H|H]%foldl_put_lookup; [|by right].
  left. by apply elem_of_copies.
Qed.

End Provenance.

(** What [organize_all] leaves in the tree, whether it runs to its end or
    not. *)
Lemma organize_all_sound so files st p c :
  tree (organize_all so files st).1 !! p = Some c ->
  exists axis buckets name md bucket,
    (axis, buckets) ∈ axes /\
    (name, c) ∈ files /\
    analyze_workflow so name c = Returned (Some md) /\
    bucket ∈ buckets md /\
    p = bucket_path axis bucket name.
Proof.
  assert (forall axis buckets,
            (axis, buckets) ∈ axes ->
            placed so axis buckets files p c ->
            exists axis buckets name md bucket,
              (axis, buckets) ∈ axes /\
              (name, c) ∈ files /\
              analyze_workflow so name c = Returned (Some md) /\
              bucket ∈ buckets md /\
              p = bucket_path axis bucket name) as Hplaced.
  { intros axis buckets Hax (name & md & b & Hin & Ha & Hb & ->).
    by exists axis, buckets, name, md, b. }
  unfold organize_all, organize_by_category, organize_by_complexity,
    organize_by_trigger, organize_by_integration.
  pose proof (organize_loop_sound so "category" category_buckets files
                {| tree := ∅; Organizer.stats := Organizer.stats st |} p c) as H1.
  cbn [tree] in H1. rewrite lookup_empty in H1.
  destruct (organize_loop so "category" category_buckets files _)
    as [st1 [e|]]; cbn [fst] in *.
  { intros [H|H]%H1; [|done].
    eapply Hplaced; [|exact H]; unfold axes; by repeat constructor. }
  pose proof (organize_loop_sound so "complexity" complexity_buckets files
                st1 p c) as H2.
  destruct (organize_loop so "complexity" complexity_buckets files st1)
    as [st2 [e|]]; cbn [fst] in *.
  { intros [H|[H|H]%H1]%H2; [| |done].
    - eapply Hplaced; [|exact H]; unfold axes; by repeat constructor.
    - eapply Hplaced; [|exact H]; unfold axes; by repeat constructor. }
  pose proof (organize_loop_sound so "trigger" trigger_buckets files
                st2 p c) as H3.
  destruct (organize_loop so "trigger" trigger_buckets files st2)
    as [st3 [e|]]; cbn [fst] in *.
  { intros [H|[H|[H|H]%H1]%H2]%H3; [| | |done].
    - eapply Hplaced; [|exact H]; unfold axes; by repeat constructor.
    - eapply Hplaced; [|exact H]; unfold axes; by repeat constructor.
    - eapply Hplaced; [|exact H]; unfold axes; by repeat constructor. }
  intros [H|[H|[H|[H|H]%H1]%H2]%H3]%organize_loop_sound;
    [| | | |done].
  - eapply Hplaced; [|exact H]; unfold axes; by repeat constructor.
  - eapply Hplaced; [|exact H]; unfold axes; by repeat constructor.
  - eapply Hplaced; [|exact H]; unfold axes; by repeat constructor.
  - eapply Hplaced; [|exact H]; unfold axes; by repeat constructor.
Qed.



(** ** Bucket names *)

(** [safe_name] works character by character. *)
Lemma safe_name_chars i :
  String.list_ascii_of_string (safe_name i) =
  List.map (fun c =>
              let c1 := PyStr.lower_char c in
              let c2 := if Ascii.eqb c1 " " then "_"%char else c1 in
              if Ascii.eqb c2 "." then "_"%char else c2)
           (String.list_ascii_of_string i).
Proof.
  unfold safe_name. induction i as [|c i IH]; [done|].
  cbn [PyStr.lower PyStr.replace_char String.list_ascii_of_string List.map].
  by rewrite IH.
Qed.

Lemma string_of_chars_inj s t :
  String.list_ascii_of_string s = String.list_ascii_of_string t -> s = t.
Proof.
  revert t. induction s as [|c s IH]; intros [|c' t]; simpl; try done.
  intros [= -> H]. by rewrite (IH _ H).
Qed.

Lemma all_ascii (P : ascii -> bool) :
  forallb P ((fun n => ascii_of_nat n) <$> seq 0 256) = true ->
  forall c, P c = true.
Proof.
  intros Hall c. rewrite forallb_forall in Hall. apply Hall.
  apply list_elem_of_In, list_elem_of_fmap. exists (nat_of_ascii c). split.
  - by rewrite ascii_nat_embedding.
  - apply elem_of_seq. pose proof (nat_ascii_bounded c). lia.
Qed.

(** X15: the name of an integration bucket has as many characters as the
    integration name and holds no space, no dot and no upper-case letter;
    making such a name safe again changes nothing.  A slash is kept: the
    name is not made free of path separators. *)
Theorem safe_name_is_normalised i :
  String.length (safe_name i) = String.length i /\
  safe_name (safe_name i) = safe_name i /\
  (forall c, In c (String.list_ascii_of_string (safe_name i)) ->
             c <> " "%char /\ c <> "."%char /\ PyStr.is_upper c = false) /\
  (In "/"%char (String.list_ascii_of_string (safe_name i)) <->
   In "/"%char (String.list_ascii_of_string i)).
Proof.
  split_and!.
  - unfold safe_name. induction i as [|c i IH]; [done|].
    cbn [PyStr.lower PyStr.replace_char String.length]. by rewrite IH.
  - apply string_of_chars_inj. rewrite !safe_name_chars, List.map_map.
    apply List.map_ext. intros c. revert c. 
    assert (forall c, (fun c =>
              Ascii.eqb
                (let c1 := PyStr.lower_char
                     (let c1 := PyStr.lower_char c in
                      let c2 := if Ascii.eqb c1 " " then "_"%char else c1 in
                      if Ascii.eqb c2 "." then "_"%char else c2) in
                 let c2 := if Ascii.eqb c1 " " then "_"%char else c1 in
                 if Ascii.eqb c2 "." then "_"%char else c2)
                (let c1 := PyStr.lower_char c in
                 let c2 := if Ascii.eqb c1 " " then "_"%char else c1 in
                 if Ascii.eqb c2 "." then "_"%char else c2)) c = true) as H
      by (apply all_ascii; vm_compute; reflexivity).
    intros c. by apply Ascii.eqb_eq, H.
  - intros c. rewrite safe_name_chars, in_map_iff. intros (c0 & <- & _).
    assert (forall c, (fun c =>
              let r := (let c1 := PyStr.lower_char c in
                        let c2 := if Ascii.eqb c1 " " then "_"%char else c1 in
                        if Ascii.eqb c2 "." then "_"%char else c2) in
              negb (Ascii.eqb r " ") && negb (Ascii.eqb r ".")
              && negb (PyStr.is_upper r)) c = true) as H
      by (apply all_ascii; vm_compute; reflexivity).
    specialize (H c0). cbv beta zeta in H.
    apply andb_prop in H as [[H1 H2]%andb_prop H3].
    apply negb_true_iff in H1, H2, H3. apply Ascii.eqb_neq in H1, H2.
    done.
  - rewrite safe_name_chars, in_map_iff.
    assert (forall c, (fun c =>
              let r := (let c1 := PyStr.lower_char c in
                        let c2 := if Ascii.eqb c1 " " then "_"%char else c1 in
                        if Ascii.eqb c2 "." then "_"%char else c2) in
              Bool.eqb (Ascii.eqb r "/") (Ascii.eqb c "/")) c = true) as H
      by (apply all_ascii; vm_compute; reflexivity).
    split.
    + intros (c0 & Hc0 & Hin). specialize (H c0). cbv beta zeta in H.
      apply Bool.eqb_prop in H.
      pose proof (proj2 (Ascii.eqb_eq _ _) Hc0) as Hr.
      assert (Ascii.eqb c0 "/" = true) as Hc
        by exact (eq_trans (eq_sym H) Hr).
      apply Ascii.eqb_eq in Hc. by subst.
    + intros Hin. exists "/"%char. split; [reflexivity|done].
Qed.

Lemma first_group_category ty c i :
  first_group category_groups ty = Some (c, i) ->
  c ∈ ["messaging"; "database"; "ai_ml"; "email"; "storage"; "development";
       "api"].
Proof.
  unfold category_groups. cbn [first_group].
  repeat (destruct (PyStr.contains_any _ ty);
          [intros [= <- <-]; by repeat constructor|]).
  done.
Qed.

Lemma acc_categories_foldl tys : forall a x,
  x ∈ acc_categories (foldl node_step a tys) ->
  x ∈ acc_categories a \/
  x ∈ ["messaging"; "database"; "ai_ml"; "email"; "storage"; "development";
       "api"].
Proof.
  induction tys as [|ty tys IH]; intros a x H; [by left|].
  cbn [foldl] in H. apply IH in H as [H|H]; [|by right].
  rewrite acc_categories_node_step in H.
  destruct (first_group category_groups ty) as [[c i]|] eqn:Hg; [|by left].
  apply elem_of_union in H as [H|H]; [by left|].
  apply elem_of_singleton in H as ->. right. by eapply first_group_category.
Qed.



(** A name with a space, a dot and capitals. *)
Lemma safe_name_witness :
  safe_name "My Service.v2" = "my_service_v2" /\
  ("m"%char <> " "%char /\ "m"%char <> "."%char /\ PyStr.is_upper "m" = false).
Proof.
  split; [reflexivity|].
  apply (proj1 (proj2 (proj2 (safe_name_is_normalised "My Service.v2")))).
  vm_compute. by left.
Defined.

(** ** The trigger type as a function of the kinds of nodes *)

Lemma resolve_trigger_kinds tys :
  match resolve_trigger tys with
  | Manual =>
      Forall (fun ty => sets_unconditionally ty = false /\
                        PyStr.contains "trigger" ty = false) tys
  | Triggered =>
      Forall (fun ty => sets_unconditionally ty = false) tys /\
      Exists (fun ty => PyStr.contains "trigger" ty = true) tys
  | Webhook | Scheduled =>
      Exists (fun ty => sets_unconditionally ty = true) tys
  end.
Proof.
  induction tys as [|ty tys IH] using rev_ind; [by constructor|].
  rewrite resolve_trigger_snoc.
  destruct (sets_unconditionally ty) eqn:Hu.
  - rewrite (trigger_step_sets _ _ Hu).
    destruct (PyStr.contains "webhook" ty);
      apply Exists_app; right; by constructor.
  - unfold trigger_step. unfold sets_unconditionally in Hu.
    apply orb_false_elim in Hu as [Hu Hs]. apply orb_false_elim in Hu as [Hw Hc].
    rewrite Hw, Hc, Hs. cbn [orb].
    assert (sets_unconditionally ty = false) as Hu
      by (unfold sets_unconditionally; by rewrite Hw, Hc, Hs).
    destruct (PyStr.contains "trigger" ty) eqn:Ht;
      destruct (resolve_trigger tys); cbn [andb].
    + split.
      * apply Forall_app. split; [|by repeat constructor].
        eapply Forall_impl; [exact IH|]. by intros ? [? _].
      * apply Exists_app. right. by constructor.
    + apply Exists_app. by left.
    + apply Exists_app. by left.
    + destruct IH as [IH1 IH2]. split.
      * apply Forall_app. split; [done|by repeat constructor].
      * apply Exists_app. by left.
    + apply Forall_app. split; [done|by repeat constructor].
    + apply Exists_app. by left.
    + apply Exists_app. by left.
    + destruct IH as [IH1 IH2]. split.
      * apply Forall_app. split; [done|by repeat constructor].
      * apply Exists_app. by left.
Qed.

Lemma Forall_Exists_clash {A} (P Q : A -> Prop) l :
  Forall P l -> Exists Q l -> (forall x, P x -> Q x -> False) -> False.
Proof.
  intros HP HQ Hclash. apply Exists_exists in HQ as (x & Hin & HQ).
  rewrite Forall_forall in HP. eauto.
Qed.

(** X17: the trigger type of an analysed document is decided by the
    kinds of its nodes.  It is Manual exactly when no node type contains
    "webhook", "cron", "schedule" or "trigger"; Triggered exactly when
    some node type contains "trigger" and none contains "webhook", "cron"
    or "schedule", wherever these nodes stand; Webhook or Scheduled
    exactly when some node type contains one of those three. *)
Theorem trigger_type_by_the_kinds_of_nodes so name content md :
  analyze_workflow so name content = Returned (Some md) ->
  exists data nodes tys,
    content = JsonText data /\
    py_get data "nodes" (JArr []) = Returned nodes /\
    node_types (py_iter nodes) = Returned tys /\
    (trigger_type md = Manual <->
     Forall (fun ty => sets_unconditionally ty = false /\
                       PyStr.contains "trigger" ty = false) tys) /\
    (trigger_type md = Triggered <->
     Forall (fun ty => sets_unconditionally ty = false) tys /\
     Exists (fun ty => PyStr.contains "trigger" ty = true) tys) /\
    (trigger_type md = Webhook \/ trigger_type md = Scheduled <->
     Exists (fun ty => sets_unconditionally ty = true) tys).
Proof.
  intros H. apply analyze_workflow_inv in H as (data & -> & H).
  apply analyze_data_inv in H as (nodes & act & tys & Hn & _ & _ & Ht & Hmd).
  exists data, nodes, tys. split_and!; try done.
  all: rewrite Hmd; cbn [trigger_type].
  all: pose proof (resolve_trigger_kinds tys) as Hk.
  - split; [by intros Heq; rewrite Heq in Hk|].
    intros Hall. destruct (resolve_trigger tys); [done|exfalso..].
    + eapply (Forall_Exists_clash _ _ _ Hall Hk). intros ? [? _] ?. congruence.
    + eapply (Forall_Exists_clash _ _ _ Hall Hk). intros ? [? _] ?. congruence.
    + destruct Hk as [_ Hk].
      eapply (Forall_Exists_clash _ _ _ Hall Hk). intros ? [_ ?] ?. congruence.
  - split; [by intros Heq; rewrite Heq in Hk|].
    intros [Hall Hex]. destruct (resolve_trigger tys); [exfalso..|done].
    + eapply (Forall_Exists_clash _ _ _ Hk Hex). intros ? [_ ?] ?. congruence.
    + eapply (Forall_Exists_clash _ _ _ Hall Hk). intros ? ? ?. congruence.
    + eapply (Forall_Exists_clash _ _ _ Hall Hk). intros ? ? ?. congruence.
  - split.
    + by intros [Heq|Heq]; rewrite Heq in Hk.
    + intros Hex. destruct (resolve_trigger tys); [exfalso|by left|by right|exfalso].
      * eapply (Forall_Exists_clash _ _ _ Hk Hex). intros ? [? _] ?. congruence.
      * destruct Hk as [Hk _].
        eapply (Forall_Exists_clash _ _ _ Hk Hex). intros ? ? ?. congruence.
Qed.

(** A schedule node and a manual trigger: not Triggered, since a node
    type contains "schedule". *)
Lemma trigger_kinds_witness :
  exists data nodes tys,
    schedule_then_trigger = JsonText data /\
    py_get data "nodes" (JArr []) = Returned nodes /\
    node_types (py_iter nodes) = Returned tys /\
    Exists (fun ty => sets_unconditionally ty = true) tys.
Proof.
  destruct (trigger_type_by_the_kinds_of_nodes elements "a.json"
              schedule_then_trigger
              {| filename := "a.json"; active := JBool false; node_count := 2;
                 trigger_type := Scheduled; integrations := [];
                 categories := []; complexity := low |})
    as (data & nodes & tys & H1 & H2 & H3 & _ & _ & H6).
  - vm_compute. reflexivity.
  - exists data, nodes, tys. split_and!; [exact H1|exact H2|exact H3|].
    apply H6. right. reflexivity.
Defined.

(** ** Which documents can be analysed *)

Lemma node_type_of_spec node :
  match node_type_of node with
  | Returned ty =>
      exists fields s,
        node = JObj fields /\ dict_get "type" fields (JStr "") = JStr s /\
        ty = PyStr.lower s
  | Raised e =>
      e = AttributeError /\
      ~ exists fields s,
          node = JObj fields /\ dict_get "type" fields (JStr "") = JStr s
  end.
Proof.
  unfold node_type_of, py_get.
  destruct node as [| | | | | |fields]; cbn [mbind outcome_bind];
    try (split; [done|]; by intros (? & ? & ? & _)).
  unfold py_lower.
  destruct (dict_get "type" fields (JStr "")) as [| | | |s| |] eqn:Ht;
    try (split; [done|]; intros (? & ? & [= <-] & ?); congruence).
  by exists fields, s.
Qed.

Lemma node_loop_spec nodes : forall a,
  match node_loop a nodes with
  | Returned _ =>
      Forall (fun node =>
                exists fields s,
                  node = JObj fields /\
                  dict_get "type" fields (JStr "") = JStr s) nodes
  | Raised e =>
      e = AttributeError /\
      Exists (fun node =>
                ~ exists fields s,
                    node = JObj fields /\
                    dict_get "type" fields (JStr "") = JStr s) nodes
  end.
Proof.
  induction nodes as [|node rest IH]; intros a; [by constructor|].
  cbn [node_loop]. pose proof (node_type_of_spec node) as Hn.
  destruct (node_type_of node) as [ty|e]; cbn [mbind outcome_bind].
  - specialize (IH (node_step a ty)).
    destruct (node_loop (node_step a ty) rest) as [a'|e'].
    + constructor; [|done]. destruct Hn as (fields & s & ? & ? & _).
      by exists fields, s.
    + destruct IH as [-> IH]. split; [done|]. by apply Exists_cons_tl.
  - destruct Hn as [-> Hn]. split; [done|]. by apply Exists_cons_hd.
Qed.

(** X18: the analysis of a parsed document returns metadata exactly when
    the document is an object whose ["nodes"] entry, an empty list when
    absent, is a list of objects whose ["type"] entry, an empty string
    when absent, is a string (or is an empty string or an empty object,
    which have nothing to iterate over).  Otherwise it raises: a
    TypeError exactly when the document is an object whose ["nodes"]
    entry is null, a boolean or a number, and an AttributeError in every
    other case. *)
Theorem analysis_fails_exactly_on_malformed_documents so name data :
  let typed := fun node =>
    exists fields s,
      node = JObj fields /\ dict_get "type" fields (JStr "") = JStr s in
  let well_formed :=
    exists fields,
      data = JObj fields /\
      match dict_get "nodes" fields (JArr []) with
      | JArr items => Forall typed items
      | JStr s => s = ""
      | JObj entries => entries = []
      | _ => False
      end in
  let unsized :=
    exists fields,
      data = JObj fields /\
      match dict_get "nodes" fields (JArr []) with
      | JNull | JBool _ | JInt _ | JFloat _ => True
      | _ => False
      end in
  ((exists md, analyze_data so name data = Returned md) <-> well_formed) /\
  (analyze_data so name data = Raised TypeError <-> unsized) /\
  (analyze_data so name data = Raised AttributeError <->
   ~ well_formed /\ ~ unsized) /\
  analyze_data so name data <> Raised OSError.
Proof.
  intros typed well_formed unsized. unfold analyze_data, py_get.
  destruct data as [| | | | | |fields]; cbn [mbind outcome_bind];
    try (split_and!; [split; [by intros [? ?]|by intros (? & ? & _)]
                     |split; [done|by intros (? & ? & _)]
                     |split; [intros _; split; by intros (? & ? & _)|done]
                     |done]).
  destruct (dict_get "nodes" fields (JArr [])) as [| | | |s|items|entries]
    eqn:Hnodes; cbn [py_len py_iter mbind outcome_bind].
  1-4: split_and!;
    [split; [by intros [? ?]
            |intros (f & [= <-] & H); by rewrite Hnodes in H]
    |split; [intros _; exists fields; by rewrite Hnodes|done]
    |split; [done|intros [_ H]; exfalso; apply H; exists fields;
                  by rewrite Hnodes]
    |done].
  - (* a string *)
    destruct s as [|ch s].
    + cbn [chars node_loop mbind outcome_bind]. split_and!.
      * split; [|by eexists]. intros _. exists fields. by rewrite Hnodes.
      * split; [done|]. intros (f & [= <-] & H). by rewrite Hnodes in H.
      * split; [done|]. intros [H _]. exfalso. apply H. exists fields.
        by rewrite Hnodes.
      * done.
    + cbn [chars node_loop node_type_of py_get mbind outcome_bind].
      split_and!.
      * split; [by intros [? ?]|].
        intros (f & [= <-] & H). by rewrite Hnodes in H.
      * split; [done|]. intros (f & [= <-] & H). by rewrite Hnodes in H.
      * split; [|done]. intros _. split.
        -- intros (f & [= <-] & H). by rewrite Hnodes in H.
        -- intros (f & [= <-] & H). by rewrite Hnodes in H.
      * done.
  - (* a list *)
    pose proof (node_loop_spec items acc_init) as Hloop.
    destruct (node_loop acc_init items) as [a|e]; cbn [mbind outcome_bind].
    + split_and!.
      * split; [|by eexists]. intros _. exists fields. by rewrite Hnodes.
      * split; [done|]. intros (f & [= <-] & H). by rewrite Hnodes in H.
      * split; [done|]. intros [H _]. exfalso. apply H. exists fields.
        by rewrite Hnodes.
      * done.
    + destruct Hloop as [-> Hbad]. split_and!.
      * split; [by intros [? ?]|].
        intros (f & [= <-] & H). rewrite Hnodes in H. exfalso.
        eapply (Forall_Exists_clash _ _ _ H Hbad). by intros ? ? ?.
      * split; [done|]. intros (f & [= <-] & H). by rewrite Hnodes in H.
      * split; [|done]. intros _. split.
        -- intros (f & [= <-] & H). rewrite Hnodes in H.
           eapply (Forall_Exists_clash _ _ _ H Hbad). by intros ? ? ?.
        -- intros (f & [= <-] & H). by rewrite Hnodes in H.
      * done.
  - (* an object *)
    destruct entries as [|[k v] entries].
    + cbn [fmap list_fmap node_loop mbind outcome_bind]. split_and!.
      * split; [|by eexists]. intros _. exists fields. by rewrite Hnodes.
      * split; [done|]. intros (f & [= <-] & H). by rewrite Hnodes in H.
      * split; [done|]. intros [H _]. exfalso. apply H. exists fields.
        by rewrite Hnodes.
      * done.
    + cbn [fmap list_fmap node_loop node_type_of py_get mbind outcome_bind].
      split_and!.
      * split; [by intros [? ?]|].
        intros (f & [= <-] & H). by rewrite Hnodes in H.
      * split; [done|]. intros (f & [= <-] & H). by rewrite Hnodes in H.
      * split; [|done]. intros _. split.
        -- intros (f & [= <-] & H). by rewrite Hnodes in H.
        -- intros (f & [= <-] & H). by rewrite Hnodes in H.
      * done.
Qed.

(** A document whose nodes are null. *)
Lemma analysis_domain_witness :
  analyze_data elements "a.json" (JObj [("nodes", JNull)]) = Raised TypeError.
Proof.
  apply (proj2 (proj1 (proj2
           (analysis_fails_exactly_on_malformed_documents elements "a.json"
              (JObj [("nodes", JNull)]))))).
  exists [("nodes", JNull)]. split; [reflexivity|exact I].
Defined.

Lemma enumerates_empty so : enumerates so -> so ∅ = [].
Proof.
  intros H. apply Permutation_nil_r. rewrite (H ∅). by rewrite elements_empty.
Qed.

(** X19: a document without nodes, be it that the ["nodes"] entry is
    absent, an empty list, an empty string or an empty object, is
    analysed as a workflow of no nodes, Manual and of low complexity,
    without categories and integrations, and is filed under
    [uncategorized], [no_integration], [low] and [manual]. *)
Theorem document_without_nodes_goes_to_the_default_buckets so name fields :
  enumerates so ->
  dict_get "nodes" fields (JArr []) = JArr [] \/
  dict_get "nodes" fields (JArr []) = JStr "" \/
  dict_get "nodes" fields (JArr []) = JObj [] ->
  exists md,
    analyze_workflow so name (JsonText (JObj fields)) = Returned (Some md) /\
    node_count md = 0 /\
    trigger_type md = Manual /\
    complexity md = low /\
    categories md = [] /\
    integrations md = [] /\
    category_buckets md = ["uncategorized"] /\
    integration_buckets md = ["no_integration"] /\
    complexity_buckets md = ["low"] /\
    trigger_buckets md = ["manual"].
Proof.
  intros Hso Hnodes. pose proof (enumerates_empty so Hso) as Hempty.
  eexists. split.
  - unfold analyze_workflow, analyze_data, py_get.
    cbn [mbind outcome_bind].
    destruct Hnodes as [->|[->| ->]]; cbn [py_len py_iter chars fmap list_fmap
      node_loop mbind outcome_bind length String.length]; reflexivity.
  - cbn [node_count trigger_type complexity categories integrations
         acc_init acc_trigger acc_categories acc_integrations].
    unfold category_buckets, integration_buckets, complexity_buckets,
      trigger_buckets.
    cbn [categories integrations complexity trigger_type acc_init acc_trigger
         acc_categories acc_integrations].
    rewrite Hempty. by split_and!.
Qed.

(** A document that is an empty object. *)
Lemma document_without_nodes_witness :
  exists md,
    analyze_workflow elements "a.json" (JsonText (JObj [])) = Returned (Some md) /\
    category_buckets md = ["uncategorized"] /\
    integration_buckets md = ["no_integration"] /\
    complexity_buckets md = ["low"] /\
    trigger_buckets md = ["manual"].
Proof.
  destruct (document_without_nodes_goes_to_the_default_buckets elements
              "a.json" [] enumerates_elements)
    as (md & H1 & _ & _ & _ & _ & _ & H2 & H3 & H4 & H5).
  - left. reflexivity.
  - exists md. split_and!; [exact H1|exact H2|exact H3|exact H4|exact H5].
Defined.

(** ** Categories and integrations together *)

Lemma first_group_with_integration ty c :
  first_group category_groups ty = Some (c, true) ->
  c ∈ ["messaging"; "database"; "ai_ml"; "email"; "storage"; "development"].
Proof.
  unfold category_groups. cbn [first_group].
  repeat (destruct (PyStr.contains_any _ ty);
          [intros [= <-]; by repeat constructor|]).
  done.
Qed.

Lemma node_step_grows a ty :
  acc_categories a ⊆ acc_categories (node_step a ty) /\
  size (acc_categories (node_step a ty)) <= S (size (acc_categories a)) /\
  size (acc_integrations (node_step a ty)) <= S (size (acc_integrations a)) /\
  ((exists i, i ∈ acc_integrations (node_step a ty)) ->
   (exists i, i ∈ acc_integrations a) \/
   exists c,
     c ∈ acc_categories (node_step a ty) /\
     c ∈ ["messaging"; "database"; "ai_ml"; "email"; "storage";
          "development"]).
Proof.
  rewrite acc_categories_node_step, acc_integrations_node_step.
  assert (forall (s : gset string) x, size (s ∪ {[ x ]}) <= S (size s)) as Hsz.
  { intros s x. rewrite size_union_alt.
    assert (size ({[ x ]} ∖ s) <= 1); [|lia].
    rewrite <- (size_singleton (C:=gset string) x). apply subseteq_size.
    by intros y [Hy _]%elem_of_difference. }
  destruct (first_group category_groups ty) as [[c [|]]|] eqn:Hg.
  - split_and!; [apply union_subseteq_l|apply Hsz..|].
    intros _. right. exists c. split; [by apply elem_of_union_r, elem_of_singleton|].
    by eapply first_group_with_integration.
  - split_and!; [apply union_subseteq_l|apply Hsz|lia|]. intros H. by left.
  - split_and!; [done|lia|lia|]. intros H. by left.
Qed.

Lemma foldl_node_step_grows tys : forall a,
  acc_categories a ⊆ acc_categories (foldl node_step a tys) /\
  size (acc_categories (foldl node_step a tys))
    <= size (acc_categories a) + length tys /\
  size (acc_integrations (foldl node_step a tys))
    <= size (acc_integrations a) + length tys /\
  ((exists i, i ∈ acc_integrations (foldl node_step a tys)) ->
   (exists i, i ∈ acc_integrations a) \/
   exists c,
     c ∈ acc_categories (foldl node_step a tys) /\
     c ∈ ["messaging"; "database"; "ai_ml"; "email"; "storage";
          "development"]).
Proof.
  induction tys as [|ty tys IH]; intros a.
  - simpl. split_and!; [done|lia|lia|]. intros H. by left.
  - cbn [foldl length].
    destruct (IH (node_step a ty)) as (H1 & H2 & H3 & H4).
    destruct (node_step_grows a ty) as (G1 & G2 & G3 & G4).
    split_and!; [by etrans|lia|lia|].
    intros H. destruct (H4 H) as [H'|H']; [|by right].
    destruct (G4 H') as [H''|(c & Hc & Hsix)]; [by left|].
    right. exists c. split; [by apply H1|done].
Qed.

Lemma node_types_length nodes tys :
  node_types nodes = Returned tys -> length tys = length nodes.
Proof.
  revert tys. induction nodes as [|node rest IH]; intros tys; simpl.
  - by intros [= <-].
  - destruct (node_type_of node) as [ty|]; [|done]. simpl.
    destruct (node_types rest) as [tys'|]; [|done]. simpl.
    intros [= <-]. simpl. by rewrite (IH tys').
Qed.

Lemma py_iter_length nodes n :
  py_len nodes = Returned n -> length (py_iter nodes) = n.
Proof.
  destruct nodes as [| | | |s|items|entries]; simpl; try done.
  - intros [= <-]. induction s as [|c s IH]; [done|]. simpl. by rewrite IH.
  - by intros [= <-].
  - intros [= <-]. by rewrite length_fmap.
Qed.

(** X20: the categories and the integrations of an analysed document:
    there are at most as many of each as the document has nodes, and at
    most seven categories; and a document with an integration has one of
    the six categories of services, so that a document whose only
    category is [api] has no integration. *)
Theorem integrations_come_with_a_service_category so name content md :
  enumerates so ->
  analyze_workflow so name content = Returned (Some md) ->
  length (categories md) <= node_count md /\
  length (categories md) <= 7 /\
  length (integrations md) <= node_count md /\
  (integrations md <> [] ->
   exists c,
     c ∈ categories md /\
     c ∈ ["messaging"; "database"; "ai_ml"; "email"; "storage";
          "development"]).
Proof.
  intros Hso H. apply analyze_workflow_inv in H as (data & -> & H).
  apply analyze_data_inv in H
    as (nodes & act & tys & _ & _ & Hlen & Htys & Hmd).
  apply node_types_length in Htys. rewrite (py_iter_length _ _ Hlen) in Htys.
  destruct (foldl_node_step_grows tys acc_init) as (_ & H2 & H3 & H4).
  cbn [acc_init acc_categories acc_integrations] in H2, H3, H4.
  rewrite size_empty in H2, H3.
  set (a := foldl node_step acc_init tys) in *.
  assert (length (categories md) = size (acc_categories a)) as Hc.
  { rewrite Hmd. cbn [categories]. rewrite (Hso _). done. }
  assert (length (integrations md) = size (acc_integrations a)) as Hi.
  { rewrite Hmd. cbn [integrations]. rewrite (Hso _). done. }
  split_and!.
  - lia.
  - rewrite Hc.
    assert (acc_categories a ⊆
            list_to_set ["messaging"; "database"; "ai_ml"; "email"; "storage";
                         "development"; "api"]) as Hsub.
    { intros x Hx. apply elem_of_list_to_set.
      apply acc_categories_foldl in Hx as [Hx|Hx]; [|done].
      by apply elem_of_empty in Hx. }
    apply subseteq_size in Hsub. etrans; [exact Hsub|].
    rewrite size_list_to_set; [done|].
    repeat (apply NoDup_cons; split;
            [rewrite ?elem_of_cons, elem_of_nil; intros H;
             repeat (destruct H as [H|H]; [discriminate H|]); done|]).
    constructor.
  - lia.
  - intros Hne. destruct H4 as [(i & Hi')|(c & Hc' & Hsix)].
    + destruct (integrations md) as [|i l] eqn:Hl; [done|].
      exists i. apply (enumerates_elem_of so); [done|].
      rewrite Hmd in Hl. cbn [integrations] in Hl. fold a in Hl.
      rewrite Hl. by left.
    + by apply elem_of_empty in Hi'.
    + exists c. split; [|done]. rewrite Hmd. cbn [categories].
      by apply enumerates_elem_of.
Qed.

(** The example with a Slack node and a GitHub node. *)
Lemma integrations_witness :
  exists c,
    c ∈ categories
          {| filename := "a.json"; active := JBool false; node_count := 2;
             trigger_type := Manual;
             integrations := elements (∅ ∪ {[ "Slack" ]} ∪ {[ "GitHub" ]}
                                        : gset string);
             categories := elements (∅ ∪ {[ "messaging" ]} ∪ {[ "development" ]}
                                       : gset string);
             complexity := low |} /\
    c ∈ ["messaging"; "database"; "ai_ml"; "email"; "storage"; "development"].
Proof.
  eapply (integrations_come_with_a_service_category elements "a.json"
            slack_github _ enumerates_elements).
  - vm_compute. reflexivity.
  - vm_compute. discriminate.
Defined.

(** * The counters, the report and the index files *)

Import Documents.

(** ** The counters *)

Section Counters.

Variable so : gset string -> list string.

Lemma bump_lookup key st k :
  default 0 (bump key st !! k)
    = default 0 (st !! k) + (if bool_decide (k = key) then 1 else 0).
Proof.
  unfold bump. case_bool_decide as Hk.
  - subst k. rewrite lookup_insert_eq. simpl. lia.
  - rewrite lookup_insert_ne by done. lia.
Qed.

Lemma bump_is_Some key st k :
  is_Some (bump key st !! k) <-> is_Some (st !! k) \/ k = key.
Proof.
  unfold bump. destruct (decide (k = key)) as [->|Hk].
  - rewrite lookup_insert_eq. split; [by right|by eexists].
  - rewrite lookup_insert_ne by done. split; [by left|by intros [|]].
Qed.

Lemma counter_key_inj axis b1 b2 :
  axis +:+ "_" +:+ b1 = axis +:+ "_" +:+ b2 -> b1 = b2.
Proof. intros H. apply String.app_inj in H. by injection H. Qed.

Lemma stats_foldl_copy axis n c bs : forall st k,
  default 0 (Organizer.stats (foldl (copy_to axis n c) st bs) !! k)
    = default 0 (Organizer.stats st !! k)
      + length (filter (fun b => axis +:+ "_" +:+ b = k) bs) /\
  (is_Some (Organizer.stats (foldl (copy_to axis n c) st bs) !! k) <->
   is_Some (Organizer.stats st !! k) \/
   exists b, b ∈ bs /\ k = axis +:+ "_" +:+ b).
Proof.
  induction bs as [|b bs IH]; intros st k.
  - simpl. split; [lia|]. split; [by left|].
    intros [H|(b & Hb & _)]; [done|by apply elem_of_nil in Hb].
  - cbn [foldl]. destruct (IH (copy_to axis n c st b) k) as [-> ->].
    cbn [copy_to Organizer.stats]. rewrite bump_lookup, bump_is_Some.
    rewrite filter_cons. split.
    + case_bool_decide as Hk; case_decide as Hk'; simpl; try lia; congruence.
    + split.
      * intros [[H|H]|(b' & Hb' & Hk)]; [by left|right..].
        -- exists b. split; [by left|done].
        -- exists b'. split; [by right|done].
      * intros [H|(b' & Hb' & Hk)]; [by left; left|].
        apply elem_of_cons in Hb' as [->|Hb']; [left; by right|].
        right. by exists b'.
Qed.

(** The counters after a loop that runs to its end. *)
Lemma stats_organize_loop axis buckets files : forall st k,
  no_raise so files ->
  default 0 (Organizer.stats (organize_loop so axis buckets files st).1 !! k)
    = default 0 (Organizer.stats st !! k)
      + sum_list
          ((fun nc : string * file_content =>
              match analyze_workflow so nc.1 nc.2 with
              | Returned (Some md) =>
                  length (filter (fun b => axis +:+ "_" +:+ b = k) (buckets md))
              | _ => 0
              end) <$> files) /\
  (is_Some (Organizer.stats (organize_loop so axis buckets files st).1 !! k) <->
   is_Some (Organizer.stats st !! k) \/
   exists n c md b,
     (n, c) ∈ files /\ analyze_workflow so n c = Returned (Some md) /\
     b ∈ buckets md /\ k = axis +:+ "_" +:+ b).
Proof.
  induction files as [|[n0 c0] rest IH]; intros st k Hnr.
  - simpl. split; [lia|]. split; [by left|].
    intros [H|(n & c & md & b & Hin & _)]; [done|by apply elem_of_nil in Hin].
  - apply no_raise_cons in Hnr as [Hn0 Hnr]. cbn [organize_loop].
    cbn [fmap list_fmap sum_list sum_list_with fst snd].
    destruct (analyze_workflow so n0 c0) as [[md0|]|e] eqn:Ha;
      [| |by destruct (Hn0 e)].
    + destruct (IH (foldl (copy_to axis n0 c0) st (buckets md0)) k Hnr)
        as [-> ->].
      destruct (stats_foldl_copy axis n0 c0 (buckets md0) st k) as [-> ->].
      split; [unfold id; lia|]. split.
      * intros [[H|(b & Hb & Hk)]|(n & c & md & b & Hin & Hmd & Hb & Hk)].
        -- by left.
        -- right. exists n0, c0, md0, b. split_and!; try done. by left.
        -- right. exists n, c, md, b. split_and!; try done. by right.
      * intros [H|(n & c & md & b & Hin & Hmd & Hb & Hk)]; [by left; left|].
        apply elem_of_cons in Hin as [[= -> ->]|Hin].
        -- rewrite Ha in Hmd. injection Hmd as <-. left; right. by exists b.
        -- right. by exists n, c, md, b.
    + destruct (IH st k Hnr) as [-> ->]. split; [unfold id; lia|]. split.
      * intros [H|(n & c & md & b & Hin & Hmd & Hb & Hk)]; [by left|].
        right. exists n, c, md, b. split_and!; try done. by right.
      * intros [H|(n & c & md & b & Hin & Hmd & Hb & Hk)]; [by left|].
        apply elem_of_cons in Hin as [[= -> ->]|Hin]; [congruence|].
        right. by exists n, c, md, b.
Qed.

End Counters.

(** ** The order of strings and [sorted] *)

Lemma string_compare_refl s : String.compare s s = Eq.
Proof.
  induction s as [|c s IH]; [done|]. simpl.
  unfold Ascii.compare. by rewrite N.compare_refl.
Qed.

Lemma string_leb_refl s : String.leb s s = true.
Proof. unfold String.leb. by rewrite string_compare_refl. Qed.

Lemma string_compare_trans s1 : forall s2 s3,
  String.compare s1 s2 <> Gt -> String.compare s2 s3 <> Gt ->
  String.compare s1 s3 <> Gt.
Proof.
  induction s1 as [|c1 s1 IH]; intros [|c2 s2] [|c3 s3]; simpl; try done.
  unfold Ascii.compare.
  destruct (N.compare_spec (N_of_ascii c1) (N_of_ascii c2)) as [H12|H12|H12];
    destruct (N.compare_spec (N_of_ascii c2) (N_of_ascii c3)) as [H23|H23|H23];
    destruct (N.compare_spec (N_of_ascii c1) (N_of_ascii c3)) as [H13|H13|H13];
    try done; try lia.
  apply IH.
Qed.

Lemma string_leb_trans s1 s2 s3 :
  String.leb s1 s2 = true -> String.leb s2 s3 = true -> String.leb s1 s3 = true.
Proof.
  unfold String.leb. intros H12 H23.
  pose proof (string_compare_trans s1 s2 s3) as H.
  destruct (String.compare s1 s2); try done;
    destruct (String.compare s2 s3); try done;
    destruct (String.compare s1 s3); try done; by destruct H.
Qed.

Lemma string_leb_app p a b : String.leb (p +:+ a) (p +:+ b) = String.leb a b.
Proof.
  unfold String.leb. induction p as [|c p IH]; [done|].
  rewrite !string_app_cons. simpl. unfold Ascii.compare.
  by rewrite N.compare_refl.
Qed.

#[local] Instance string_leb_antisymm :
  AntiSymm eq (fun a b => String.leb a b = true).
Proof. intros a b. apply String.leb_antisym. Qed.

Lemma insert_sorted_perm x l : insert_sorted x l ≡ₚ x :: l.
Proof.
  induction l as [|y l IH]; [done|]. simpl.
  destruct (String.leb x y); [done|]. by rewrite IH, Permutation_swap.
Qed.

Lemma py_sorted_perm l : py_sorted l ≡ₚ l.
Proof.
  induction l as [|x l IH]; [done|]. simpl.
  by rewrite insert_sorted_perm, IH.
Qed.

Lemma insert_sorted_sorted x l :
  StronglySorted (fun a b => String.leb a b = true) l ->
  StronglySorted (fun a b => String.leb a b = true) (insert_sorted x l).
Proof.
  induction 1 as [|y l Hl IH Hy]; [by repeat constructor|]. simpl.
  destruct (String.leb x y) eqn:Hxy.
  - constructor; [by constructor|]. constructor; [done|].
    eapply Forall_impl; [exact Hy|]. intros z Hz. simpl in Hz.
    by eapply string_leb_trans.
  - constructor; [done|]. rewrite insert_sorted_perm. constructor; [|done].
    destruct (String.leb_total x y); congruence.
Qed.

Lemma py_sorted_sorted l :
  StronglySorted (fun a b => String.leb a b = true) (py_sorted l).
Proof.
  induction l as [|x l IH]; simpl; [constructor|by apply insert_sorted_sorted].
Qed.

(** Sorting does not depend on the order of the input. *)
Lemma py_sorted_canonical l1 l2 : l1 ≡ₚ l2 -> py_sorted l1 = py_sorted l2.
Proof.
  intros H. apply (StronglySorted_unique (fun a b => String.leb a b = true));
    [apply py_sorted_sorted..|]. by rewrite !py_sorted_perm.
Qed.

Lemma insert_sorted_app p x l :
  insert_sorted (p +:+ x) (String.append p <$> l)
    = String.append p <$> insert_sorted x l.
Proof.
  induction l as [|y l IH]; [done|]. cbn [fmap list_fmap insert_sorted].
  rewrite string_leb_app. destruct (String.leb x y); [done|].
  cbn [fmap list_fmap]. f_equal. exact IH.
Qed.

(** Sorting keys with a common prefix sorts what follows the prefix. *)
Lemma py_sorted_app p l :
  py_sorted (String.append p <$> l) = String.append p <$> py_sorted l.
Proof.
  induction l as [|x l IH]; [done|]. cbn [fmap list_fmap py_sorted foldr].
  fold (py_sorted (String.append p <$> l)). fold (py_sorted l).
  rewrite IH. apply insert_sorted_app.
Qed.

(** ** The counters after a complete run *)

Section CountersOfARun.

Variable so : gset string -> list string.

Lemma organize_loop_completes axis buckets files : forall st,
  no_raise so files -> (organize_loop so axis buckets files st).2 = None.
Proof.
  induction files as [|[n c] rest IH]; intros st Hnr; [done|].
  apply no_raise_cons in Hnr as [Hn Hnr]. cbn [organize_loop].
  destruct (analyze_workflow so n c) as [[md|]|e]; [by apply IH..|].
  by destruct (Hn e).
Qed.

(** The copies of a loop that bump the counter [k]. *)
Lemma hits_of_key axis buckets files b :
  sum_list
    ((fun nc : string * file_content =>
        match analyze_workflow so nc.1 nc.2 with
        | Returned (Some md) =>
            length (filter (fun b' => axis +:+ "_" +:+ b' = axis +:+ "_" +:+ b)
                      (buckets md))
        | _ => 0
        end) <$> files)
  = bucket_hits so buckets files b.
Proof.
  unfold bucket_hits. f_equal. apply list_fmap_ext. intros _ [n c] _.
  cbn [fst snd]. destruct (analyze_workflow so n c) as [[md|]|]; [|done..].
  induction (buckets md) as [|b' l IH]; [done|]. rewrite !filter_cons.
  destruct (decide (b' = b)) as [->|Hne].
  - rewrite decide_True by done. simpl. by rewrite IH.
  - rewrite decide_False; [done|]. by intros ?%counter_key_inj.
Qed.

Lemma hits_of_other_axis axis buckets files k :
  (forall b, axis +:+ "_" +:+ b <> k) ->
  sum_list
    ((fun nc : string * file_content =>
        match analyze_workflow so nc.1 nc.2 with
        | Returned (Some md) =>
            length (filter (fun b' => axis +:+ "_" +:+ b' = k) (buckets md))
        | _ => 0
        end) <$> files) = 0.
Proof.
  intros Hk. induction files as [|[n c] rest IH]; [done|].
  cbn [fmap list_fmap sum_list sum_list_with fst snd].
  fold (sum_list_with (A:=nat) id). rewrite IH.
  destruct (analyze_workflow so n c) as [[md|]|]; [|done..].
  induction (buckets md) as [|b' l IHl]; [done|]. rewrite filter_cons.
  rewrite decide_False by apply Hk. exact IHl.
Qed.

Lemma axis_of_key axis1 b1 axis2 b2 buckets1 buckets2 :
  (axis1, buckets1) ∈ axes -> (axis2, buckets2) ∈ axes ->
  axis1 +:+ "_" +:+ b1 = axis2 +:+ "_" +:+ b2 -> axis1 = axis2.
Proof.
  unfold axes. intros H1 H2.
  repeat (apply elem_of_cons in H1 as [[= -> ->]|H1]);
    try (by apply elem_of_nil in H1);
    repeat (apply elem_of_cons in H2 as [[= -> ->]|H2]);
    try (by apply elem_of_nil in H2); done.
Qed.

(** The counters after a run of [organize_all] that no file ends. *)
Lemma stats_organize_all files st axis buckets b :
  no_raise so files -> (axis, buckets) ∈ axes ->
  let st' := (organize_all so files st).1 in
  let k := axis +:+ "_" +:+ b in
  default 0 (Organizer.stats st' !! k)
    = default 0 (Organizer.stats st !! k) + bucket_hits so buckets files b /\
  (is_Some (Organizer.stats st' !! k) <->
   is_Some (Organizer.stats st !! k) \/
   exists n c md,
     (n, c) ∈ files /\ analyze_workflow so n c = Returned (Some md) /\
     b ∈ buckets md).
Proof.
  intros Hnr Hax st' k. subst st'.
  unfold organize_all, organize_by_category, organize_by_complexity,
    organize_by_trigger, organize_by_integration.
  set (st0 := {| tree := ∅; Organizer.stats := Organizer.stats st |}).
  pose proof (organize_loop_completes "category" category_buckets files st0 Hnr)
    as Hc1.
  pose proof (stats_organize_loop so "category" category_buckets files st0 k Hnr)
    as [Hv1 Hs1].
  destruct (organize_loop so "category" category_buckets files st0)
    as [st1 r1]. cbn [fst snd] in *. subst r1.
  pose proof (organize_loop_completes "complexity" complexity_buckets files st1
                Hnr) as Hc2.
  pose proof (stats_organize_loop so "complexity" complexity_buckets files st1 k
                Hnr) as [Hv2 Hs2].
  destruct (organize_loop so "complexity" complexity_buckets files st1)
    as [st2 r2]. cbn [fst snd] in *. subst r2.
  pose proof (organize_loop_completes "trigger" trigger_buckets files st2 Hnr)
    as Hc3.
  pose proof (stats_organize_loop so "trigger" trigger_buckets files st2 k Hnr)
    as [Hv3 Hs3].
  destruct (organize_loop so "trigger" trigger_buckets files st2)
    as [st3 r3]. cbn [fst snd] in *. subst r3.
  pose proof (stats_organize_loop so "integration" integration_buckets files
                st3 k Hnr) as [Hv4 Hs4].
  rewrite Hv4, Hv3, Hv2, Hv1, Hs4, Hs3, Hs2, Hs1. clear Hv1 Hv2 Hv3 Hv4.
  clear Hs1 Hs2 Hs3 Hs4. cbn [st0 Organizer.stats].
  unfold axes in Hax.
  repeat (apply elem_of_cons in Hax as [[= -> ->]|Hax]);
    [| | | |by apply elem_of_nil in Hax].
  all: subst k.
  all: rewrite ?hits_of_key.
  all: rewrite ?hits_of_other_axis by (intros b' H; discriminate H).
  all: split; [lia|].
  all: split.
  all: try (intros [[[[H|H]|H]|H]|H]; [by left|..];
            destruct H as (n & c & md & b' & Hin & Hmd & Hb & Heq);
            first [discriminate Heq
                  |apply counter_key_inj in Heq as <-; right;
                   by exists n, c, md]).
  all: intros [H|(n & c & md & Hin & Hmd & Hb)]; [by repeat left|].
  - left; left; left; right. by exists n, c, md, b.
  - left; left; right. by exists n, c, md, b.
  - left; right. by exists n, c, md, b.
  - right. by exists n, c, md, b.
Qed.

End CountersOfARun.

Lemma no_raise_two_files so : no_raise so two_files.
Proof.
  intros n c e Hin. unfold two_files in Hin.
  repeat (apply elem_of_cons in Hin as [[= -> ->]|Hin]);
    [| |by apply elem_of_nil in Hin].
  - unfold slack_github. by rewrite analyze_workflow_of_eq.
  - unfold webhook_only. by rewrite analyze_workflow_of_eq.
Qed.



(** ** The report *)

Lemma prefix_app_inv p k :
  String.prefix p k = true -> exists b, k = p +:+ b.
Proof.
  revert k. induction p as [|c p IH]; intros k H; [by exists k|].
  destruct k as [|c' k]; [done|]. simpl in H.
  destruct (ascii_dec c c') as [->|]; [|done].
  destruct (IH k H) as [b ->]. by exists b.
Qed.

Lemma prefix_app_self p b : String.prefix p (p +:+ b) = true.
Proof.
  induction p as [|c p IH]; [by destruct b|].
  rewrite string_app_cons. simpl. by destruct (ascii_dec c c).
Qed.

Section Report.

Variable so : gset string -> list string.

Lemma elem_of_used_buckets buckets files b :
  b ∈ used_buckets so buckets files <->
  exists n c md,
    (n, c) ∈ files /\ analyze_workflow so n c = Returned (Some md) /\
    b ∈ buckets md.
Proof.
  unfold used_buckets. rewrite elem_of_remove_dups, list_elem_of_bind. split.
  - intros ([n c] & Hb & Hin). cbn [fst snd] in Hb.
    destruct (analyze_workflow so n c) as [[md|]|] eqn:Ha;
      [|by apply elem_of_nil in Hb..].
    by exists n, c, md.
  - intros (n & c & md & Hin & Ha & Hb). exists (n, c). cbn [fst snd].
    by rewrite Ha.
Qed.

(** The keys of an axis after a run that started without counters. *)
Lemma counter_keys_of_run files st axis buckets :
  no_raise so files -> (axis, buckets) ∈ axes ->
  Organizer.stats st = ∅ ->
  counter_keys (axis +:+ "_") (Organizer.stats (organize_all so files st).1)
    ≡ₚ String.append (axis +:+ "_") <$> used_buckets so buckets files.
Proof.
  intros Hnr Hax Hfresh. apply NoDup_Permutation.
  - unfold counter_keys. apply NoDup_filter, NoDup_fst_map_to_list.
  - apply (NoDup_fmap_2 _), NoDup_remove_dups.
  - intros k. unfold counter_keys.
    rewrite list_elem_of_filter, !list_elem_of_fmap. split.
    + intros [Hp ([k' v] & -> & Hin%elem_of_map_to_list)]. cbn [fst] in *.
      apply prefix_app_inv in Hp as [b ->]. exists b. split; [done|].
      rewrite string_app_assoc in Hin.
      destruct (stats_organize_all so files st axis buckets b Hnr Hax)
        as [_ Hs].
      cbv zeta in Hs. apply elem_of_used_buckets.
      destruct (proj1 Hs (mk_is_Some _ _ Hin)) as [Hold|Hnew]; [|done].
      rewrite Hfresh, lookup_empty in Hold. by destruct Hold.
    + intros (b & -> & Hb%elem_of_used_buckets). split.
      * apply prefix_app_self.
      * destruct (stats_organize_all so files st axis buckets b Hnr Hax)
          as [_ Hs]. cbv zeta in Hs.
        destruct (proj2 Hs (or_intror Hb)) as [v Hv].
        exists ((axis +:+ "_") +:+ b, v). split; [done|].
        apply elem_of_map_to_list. by rewrite string_app_assoc.
Qed.

(** A section of the report after such a run. *)
Lemma report_section_of_run heading files st axis buckets :
  no_raise so files -> (axis, buckets) ∈ axes ->
  Organizer.stats st = ∅ ->
  report_section heading (axis +:+ "_")
    (Organizer.stats (organize_all so files st).1)
  = match used_buckets so buckets files with
    | [] => []
    | _ =>
        [(heading,
          (fun b => (display_name (axis +:+ "_") (axis +:+ "_" +:+ b),
                     bucket_hits so buckets files b))
            <$> py_sorted (used_buckets so buckets files))]
    end.
Proof.
  intros Hnr Hax Hfresh.
  pose proof (counter_keys_of_run files st axis buckets Hnr Hax Hfresh) as Hk.
  unfold report_section.
  destruct (used_buckets so buckets files) as [|b0 used] eqn:Hused.
  - apply Permutation_nil_r in Hk. by rewrite Hk.
  - destruct (counter_keys _ _) as [|k ks] eqn:Hkeys.
    { symmetry in Hk. by apply Permutation_nil_r in Hk. }
    f_equal. f_equal. rewrite (py_sorted_canonical _ _ Hk), py_sorted_app.
    rewrite <- list_fmap_compose. apply list_fmap_ext. intros _ b _.
    cbn [compose]. rewrite string_app_assoc. f_equal.
    destruct (stats_organize_all so files st axis buckets b Hnr Hax) as [Hv _].
    cbv zeta in Hv. rewrite Hv, Hfresh, lookup_empty. done.
Qed.

End Report.



(** ** The index files *)

Lemma below_spec d : forall p r, below d p = Some r <-> p = d ++ r.
Proof.
  induction d as [|x d IH]; intros p r; simpl.
  - split; [by intros [= ->]|by intros ->].
  - destruct p as [|y p]; [done|].
    destruct (String.eqb_spec x y) as [->|Hne].
    + rewrite IH. split; [by intros ->|by intros [= ->]].
    + split; [done|]. intros [= ? _]. congruence.
Qed.

Lemma elem_of_iterdir t d x :
  x ∈ iterdir t d <-> exists rest c, t !! (d ++ x :: rest) = Some c.
Proof.
  unfold iterdir. rewrite elem_of_remove_dups, list_elem_of_omap. split.
  - intros (p & Hp & Hx).
    apply list_elem_of_fmap in Hp as ([p' c] & -> & Hin%elem_of_map_to_list).
    cbn [fst] in Hx. destruct (below d p') as [[|y rest]|] eqn:Hb; [done| |done].
    injection Hx as ->. apply below_spec in Hb as ->. by exists rest, c.
  - intros (rest & c & Hl). exists (d ++ x :: rest). split.
    + apply list_elem_of_fmap. exists (d ++ x :: rest, c). split; [done|].
      by apply elem_of_map_to_list.
    + by rewrite (proj2 (below_spec d _ (x :: rest)) eq_refl).
Qed.

Lemma NoDup_filter_fst {A B} (P : A * B -> Prop) `{!forall x, Decision (P x)}
    (l : list (A * B)) :
  NoDup l.*1 -> NoDup (filter P l).*1.
Proof.
  induction l as [|x l IH]; [done|]. cbn [fmap list_fmap].
  intros [Hx Hl]%NoDup_cons. rewrite filter_cons. case_decide.
  - cbn [fmap list_fmap]. apply NoDup_cons. split; [|by apply IH].
    intros (x' & Heq & Hin%list_elem_of_filter)%list_elem_of_fmap.
    apply Hx, list_elem_of_fmap. exists x'. tauto.
  - by apply IH.
Qed.

Section IndexFiles.

Variable so : gset string -> list string.
Variable files : list (string * file_content).
Variable t : gmap (list string) file_content.

Hypothesis Hnd : NoDup files.*1.
Hypothesis Hjson : Forall (fun nc => Backup.ends_with ".json" nc.1 = true) files.
Hypothesis Hspec : forall p c,
  t !! p = Some c <->
  exists axis buckets,
    (axis, buckets) ∈ axes /\ placed so axis buckets files p c.

Lemma elem_of_bucket_members buckets b n :
  n ∈ bucket_members so buckets files b <->
  exists c md,
    (n, c) ∈ files /\ analyze_workflow so n c = Returned (Some md) /\
    b ∈ buckets md.
Proof.
  unfold bucket_members, copied_to. rewrite list_elem_of_fmap. split.
  - intros ([n' c] & -> & [Hc Hin]%list_elem_of_filter). cbn [fst snd] in *.
    destruct (analyze_workflow so n' c) as [[md|]|] eqn:Ha; [|done..].
    apply bool_decide_eq_true in Hc. by exists c, md.
  - intros (c & md & Hin & Ha & Hb). exists (n, c). split; [done|].
    apply list_elem_of_filter. split; [|done]. cbn [fst snd]. rewrite Ha.
    by apply bool_decide_eq_true.
Qed.

Lemma tree_below_bucket axis buckets b n rest c :
  (axis, buckets) ∈ axes ->
  t !! (["by_" +:+ axis; b] ++ n :: rest) = Some c ->
  rest = [] /\
  exists md,
    (n, c) ∈ files /\ analyze_workflow so n c = Returned (Some md) /\
    b ∈ buckets md.
Proof.
  intros Hax (axis' & buckets' & Hax' & n' & md & b' & Hin & Ha & Hb & Heq)
    %Hspec.
  unfold bucket_path in Heq. cbn [app] in Heq.
  injection Heq as Haxis -> -> ->. apply String.app_inj in Haxis as <-.
  rewrite (axes_functional _ _ _ Hax Hax'). split; [done|]. by exists md.
Qed.

Lemma iterdir_bucket axis buckets b n :
  (axis, buckets) ∈ axes ->
  n ∈ iterdir t ["by_" +:+ axis; b] <-> n ∈ bucket_members so buckets files b.
Proof.
  intros Hax. rewrite elem_of_iterdir, elem_of_bucket_members. split.
  - intros (rest & c & Hl).
    apply (tree_below_bucket _ buckets) in Hl as (_ & md & ?); [|done].
    by exists c, md.
  - intros (c & md & Hin & Ha & Hb). exists [], c. apply Hspec.
    exists axis, buckets. split; [done|]. by exists n, md, b.
Qed.

Lemma glob_json_bucket axis buckets b :
  (axis, buckets) ∈ axes ->
  glob_json t ["by_" +:+ axis; b] ≡ₚ bucket_members so buckets files b.
Proof.
  intros Hax. apply NoDup_Permutation.
  - unfold glob_json, iterdir. apply NoDup_filter, NoDup_remove_dups.
  - unfold bucket_members. by apply NoDup_filter_fst.
  - intros n. unfold glob_json.
    rewrite list_elem_of_filter, (iterdir_bucket axis buckets) by done.
    split; [tauto|]. intros Hn. split; [|done].
    apply elem_of_bucket_members in Hn as (c & md & Hin & _).
    rewrite Forall_forall in Hjson. apply (Hjson (n, c) Hin).
Qed.

Lemma iterdir_axis axis buckets b :
  (axis, buckets) ∈ axes ->
  b ∈ iterdir t ["by_" +:+ axis] <-> bucket_members so buckets files b <> [].
Proof.
  intros Hax. rewrite elem_of_iterdir. split.
  - intros ([|n rest] & c & Hl).
    + apply Hspec in Hl as (? & ? & _ & ? & ? & ? & _ & _ & _ & Heq).
      discriminate Heq.
    + apply (tree_below_bucket axis buckets b n rest c Hax) in Hl
        as (_ & md & Hin & Ha & Hb).
      intros Hnil.
      assert (n ∈ bucket_members so buckets files b) as Hn
        by (apply elem_of_bucket_members; by exists c, md).
      rewrite Hnil in Hn. by apply elem_of_nil in Hn.
  - intros Hne. destruct (bucket_members so buckets files b) as [|n l] eqn:Hm;
      [done|].
    assert (n ∈ bucket_members so buckets files b) as Hn
      by (rewrite Hm; by left).
    apply elem_of_bucket_members in Hn as (c & md & Hin & Ha & Hb).
    exists [n], c. apply Hspec. exists axis, buckets. split; [done|].
    by exists n, md, b.
Qed.

(** The index file of a bucket. *)
Lemma index_of_bucket axis buckets b :
  (axis, buckets) ∈ axes ->
  create_index_files t !! ["by_" +:+ axis; b; "README.md"] =
    match bucket_members so buckets files b with
    | [] => None
    | _ =>
        Some {| idx_title := PyStr.title (PyStr.replace_char "_" " " b);
                idx_total := length (bucket_members so buckets files b);
                idx_links := py_sorted (bucket_members so buckets files b) |}
    end.
Proof.
  intros Hax.
  assert ("by_" +:+ axis ∈ org_types) as Horg.
  { unfold axes in Hax. unfold org_types.
    repeat (apply elem_of_cons in Hax as [[= -> ->]|Hax]);
      [by repeat constructor..|by apply elem_of_nil in Hax]. }
  pose proof (glob_json_bucket axis buckets b Hax) as Hglob.
  pose proof (iterdir_axis axis buckets b Hax) as Hdir.
  unfold create_index_files.
  destruct (bucket_members so buckets files b) as [|n l] eqn:Hm.
  - apply not_elem_of_list_to_map. intros Hin.
    apply list_elem_of_fmap in Hin as ([p doc] & Hp & Hin). cbn [fst] in Hp.
    subst p.
    apply list_elem_of_bind in Hin as (org & Hin & _).
    apply list_elem_of_bind in Hin as (b' & Hin & Hb').
    destruct (has_entries t [org; b']); [|by apply elem_of_nil in Hin].
    apply list_elem_of_singleton in Hin. injection Hin as <- <- _.
    by apply Hdir in Hb'.
  - assert (index_of t ("by_" +:+ axis) b =
            {| idx_title := PyStr.title (PyStr.replace_char "_" " " b);
               idx_total := length (n :: l);
               idx_links := py_sorted (n :: l) |}) as Hidx.
    { unfold index_of. f_equal;
        [by apply Permutation_length|by apply py_sorted_canonical]. }
    apply elem_of_list_to_map_1'.
    + intros doc Hin.
      apply list_elem_of_bind in Hin as (org & Hin & _).
      apply list_elem_of_bind in Hin as (b' & Hin & Hb').
      destruct (has_entries t [org; b']); [|by apply elem_of_nil in Hin].
      apply list_elem_of_singleton in Hin. injection Hin as <- <- ->.
      by rewrite Hidx.
    + apply list_elem_of_bind. exists ("by_" +:+ axis). split; [|done].
      apply list_elem_of_bind. exists b. split; [|by apply Hdir].
      assert (has_entries t ["by_" +:+ axis; b] = true) as ->.
      { unfold has_entries.
        destruct (iterdir t ["by_" +:+ axis; b]) as [|x xs] eqn:Hit; [|done].
        assert (n ∈ iterdir t ["by_" +:+ axis; b]) as Hn.
        { apply (iterdir_bucket axis buckets); [done|]. rewrite Hm. by left. }
        rewrite Hit in Hn. by apply elem_of_nil in Hn. }
      apply list_elem_of_singleton. by rewrite Hidx.
Qed.

End IndexFiles.


Lemma two_files_distinct : NoDup two_files.*1.
Proof. repeat constructor; rewrite ?elem_of_cons, ?elem_of_nil; by intros []. Qed.


(** ** The report and the index files agree, except on integrations *)

Section Agreement.

Variable so : gset string -> list string.

Lemma hits_at_least_members buckets files b :
  length (bucket_members so buckets files b) <= bucket_hits so buckets files b.
Proof.
  unfold bucket_members, bucket_hits, copied_to.
  induction files as [|[n c] rest IH]; [done|].
  rewrite filter_cons. cbn [fmap list_fmap sum_list sum_list_with fst snd].
  fold (sum_list_with (A:=nat) id). unfold id at 1.
  destruct (analyze_workflow so n c) as [[md|]|].
  - case_decide as Hb.
    + apply bool_decide_eq_true in Hb. cbn [fmap list_fmap length].
      assert (1 <= length (filter (fun b0 => b0 = b) (buckets md))); [|lia].
      assert (b ∈ filter (fun b0 => b0 = b) (buckets md)) as Hin
        by (by apply list_elem_of_filter).
      destruct (filter (fun b0 => b0 = b) (buckets md));
        [by apply elem_of_nil in Hin|simpl; lia].
    + lia.
  - rewrite decide_False by done. lia.
  - rewrite decide_False by done. lia.
Qed.

Lemma hits_are_members buckets files b :
  (forall n c md,
     analyze_workflow so n c = Returned (Some md) -> NoDup (buckets md)) ->
  bucket_hits so buckets files b = length (bucket_members so buckets files b).
Proof.
  intros Hnd. unfold bucket_members, bucket_hits, copied_to.
  induction files as [|[n c] rest IH]; [done|].
  rewrite filter_cons. cbn [fmap list_fmap sum_list sum_list_with fst snd].
  fold (sum_list_with (A:=nat) id). unfold id at 1. rewrite IH.
  destruct (analyze_workflow so n c) as [[md|]|] eqn:Ha.
  - assert (length (filter (fun b0 => b0 = b) (buckets md))
            = if bool_decide (b ∈ buckets md) then 1 else 0) as ->.
    { specialize (Hnd n c md Ha). clear Ha.
      induction (buckets md) as [|b0 l IHl]; [done|].
      apply NoDup_cons in Hnd as [Hb0 Hnd]. rewrite filter_cons.
      destruct (decide (b0 = b)) as [->|Hne].
      - rewrite bool_decide_eq_true_2 by (by left). cbn [length].
        rewrite (IHl Hnd). by rewrite bool_decide_eq_false_2.
      - rewrite (IHl Hnd). case_bool_decide as H1; case_bool_decide as H2;
          try done.
        + destruct H2. by right.
        + apply elem_of_cons in H2 as [->|H2]; done. }
    case_bool_decide as Hb.
    + by rewrite decide_True.
    + by rewrite decide_False.
  - by rewrite decide_False.
  - by rewrite decide_False.
Qed.

End Agreement.

Lemma NoDup_or_sentinel (l : list string) s : NoDup l -> NoDup (or_sentinel l s).
Proof. destruct l; [intros _; apply NoDup_singleton|done]. Qed.

Lemma enumerates_NoDup so s : enumerates so -> NoDup (so s).
Proof. intros H. rewrite (H s). apply NoDup_elements. Qed.

Lemma analysed_lists_are_NoDup so name c md :
  enumerates so -> analyze_workflow so name c = Returned (Some md) ->
  NoDup (categories md).
Proof.
  intros Hso H. apply analyze_workflow_inv in H as (data & -> & H).
  apply analyze_data_inv in H as (nodes & act & tys & _ & _ & _ & _ & Hmd).
  rewrite Hmd. by apply enumerates_NoDup.
Qed.



(** A file that is counted twice for one integration bucket. *)
Lemma integration_counted_twice :
  let st' := (organize_all elements [("a.json", two_spellings)] empty_state).1 in
  Organizer.stats st' !! "integration_x_airtable" = Some 2 /\
  idx_total <$> create_index_files (tree st')
                  !! ["by_integration"; "x_airtable"; "README.md"] = Some 1.
Proof. vm_compute. by split. Qed.

(** ** The number printed by an organizing method *)

Lemma organized_as_sum prefix (st : gmap string nat) :
  organized prefix st =
  sum_list_with (fun kv : string * nat =>
                   if String.prefix prefix kv.1 then kv.2 else 0)
                (map_to_list st).
Proof.
  unfold organized, counter_keys.
  assert (forall l : list (string * nat),
            (forall k v, (k, v) ∈ l -> st !! k = Some v) ->
            sum_list ((fun k => default 0 (st !! k))
                        <$> filter (fun k => String.prefix prefix k = true) l.*1)
            = sum_list_with (fun kv : string * nat =>
                               if String.prefix prefix kv.1 then kv.2 else 0) l)
    as H.
  { induction l as [|[k v] l IH]; intros Hl; [done|].
    cbn [fmap list_fmap fst sum_list_with snd]. rewrite filter_cons.
    rewrite <- IH by (intros k' v' Hin; apply Hl; by right).
    destruct (String.prefix prefix k) eqn:Hp.
    - rewrite decide_True by done. cbn [fmap list_fmap sum_list_with].
      rewrite (Hl k v) by (by left). done.
    - rewrite decide_False by congruence. done. }
  apply H. intros k v. apply elem_of_map_to_list.
Qed.

Lemma organized_bump prefix key st :
  organized prefix (bump key st)
    = organized prefix st + (if String.prefix prefix key then 1 else 0).
Proof.
  rewrite !organized_as_sum. unfold bump.
  destruct (st !! key) as [v|] eqn:Hk.
  - rewrite <- (insert_delete_eq st).
    rewrite <- (insert_delete_id st key v Hk) at 2.
    rewrite !map_to_list_insert by apply lookup_delete_eq.
    cbn [sum_list_with fst snd default from_option]. unfold id.
    destruct (String.prefix prefix key); lia.
  - rewrite map_to_list_insert by done.
    cbn [sum_list_with fst snd default from_option].
    destruct (String.prefix prefix key); lia.
Qed.

Section PrintedCount.

Variable so : gset string -> list string.

Lemma organized_foldl_copy prefix axis n c bs : forall st,
  (forall b, String.prefix prefix (axis +:+ "_" +:+ b) = true) ->
  organized prefix (Organizer.stats (foldl (copy_to axis n c) st bs))
    = organized prefix (Organizer.stats st) + length bs.
Proof.
  intros st Hp. revert st.
  induction bs as [|b bs IH]; intros st; [simpl; lia|].
  cbn [foldl length]. rewrite IH. cbn [copy_to Organizer.stats].
  rewrite organized_bump, Hp. lia.
Qed.

Lemma organized_organize_loop prefix axis buckets files : forall st,
  (forall b, String.prefix prefix (axis +:+ "_" +:+ b) = true) ->
  organized prefix
    (Organizer.stats (organize_loop so axis buckets files st).1)
    = organized prefix (Organizer.stats st)
      + length (copies so axis buckets files).
Proof.
  intros st Hp. revert st.
  induction files as [|[n c] rest IH]; intros st; [simpl; lia|].
  cbn [organize_loop copies].
  destruct (analyze_workflow so n c) as [[md|]|e]; [|apply IH|simpl; lia].
  rewrite IH, organized_foldl_copy by done.
  rewrite length_app, length_fmap. lia.
Qed.

End PrintedCount.


